(** * GnuCash SQL backend core: a shallow embedding of gnc-backend-sql.cpp

    The development follows the layout of the C++ file: the value types that
    cross the boundaries, the backend record, the connection primitives, the
    column-type handlers, the generic marshaller, the statement builders, the
    schema version manager and the top-level orchestration (initial load and
    per-instance commit).  Stateful code is written in a small state monad
    over a [World]; every call that leaves the translation unit (connection
    primitives, registered callbacks, progress reports) is appended to a
    call trace, so that statements such as "no statement is issued" or
    "the callbacks run in this order" are statements about that trace.

    Conventions.  A pointer argument that the C code only guards with
    [g_return_if_fail (x != NULL)] (the backend, the row, the object, a
    table or type name) is a total value here.  A function whose C code can
    stop at an assertion or leave the defined behaviour of the language
    returns an [option], with [None] for "no defined result".  The double
    and GUID column handlers and the query compiler are not embedded. *)

From stdpp Require Import gmap strings list pretty.

Local Open Scope string_scope.
Local Open Scope list_scope.
Local Open Scope Z_scope.

(** ** Machine integers

    [gint] is a 32-bit and [gint64] a 64-bit two's complement integer.  A C
    cast to one of them is written out as a wrap-around on [Z]. *)

Definition wrap_signed (bits : Z) (z : Z) : Z :=
  (z + 2 ^ (bits - 1)) `mod` 2 ^ bits - 2 ^ (bits - 1).

Definition to_gint (z : Z) : Z := wrap_signed 32 z.
Definition to_gint64 (z : Z) : Z := wrap_signed 64 z.

(** ** Values that cross the boundaries *)

(** A cell of a result row, as the [GValue] the connection hands out.  The
    constructors are the [G_VALUE_HOLDS_*] cases the handlers test for;
    [GOther] stands for any other held type and carries its type name. *)
Inductive GValue : Type :=
| GInt (i : Z)
| GUInt (i : Z)
| GLong (i : Z)
| GULong (i : Z)
| GInt64 (i : Z)
| GUInt64 (i : Z)
| GString (s : option string)
| GOther (type_name : string).

(** [struct _gnc_numeric { gint64 num; gint64 denom; }] *)
Record gnc_numeric : Type := { num : Z; denom : Z }.

(** Modelled from the spec: the constructor, the zero and the two
    projections of gnc_numeric belong to the engine, outside the embedded
    sources; a fixed-point rational is a "numerator/denominator pair", so
    they build and read the pair, and zero is 0/1. *)
Definition gnc_numeric_create (n d : Z) : gnc_numeric := {| num := n; denom := d |}.
Definition gnc_numeric_zero : gnc_numeric := gnc_numeric_create 0 1.
Definition gnc_numeric_num (n : gnc_numeric) : Z := num n.
Definition gnc_numeric_denom (n : gnc_numeric) : Z := denom n.

(** [struct timespec64 { time64 tv_sec; glong tv_nsec; }] *)
Record Timespec : Type := { tv_sec : Z; tv_nsec : Z }.

(** Modelled from the spec: timespecFromTime64 and timespecToTime64 live in
    the engine's date library, outside the embedded sources; a timestamp is
    "a native integer epoch value", so the conversion stores the seconds and
    clears the nanoseconds. *)
Definition timespecFromTime64 (t : Z) : Timespec := {| tv_sec := t; tv_nsec := 0 |}.
Definition timespecToTime64 (ts : Timespec) : Z := tv_sec ts.

(** A GLib calendar date, by its day, month and year fields. *)
Record GDate : Type := { g_day : Z; g_month : Z; g_year : Z }.

(** [struct tm], the fields gnc_sql_convert_timespec_to_string reads. *)
Record tm : Type :=
  { tm_year : Z; tm_mon : Z; tm_mday : Z; tm_hour : Z; tm_min : Z; tm_sec : Z }.

(** What an accessor hands over.  The C code passes these through untyped
    [gpointer]s and function-pointer casts; the embedding keeps the tag, and
    [PNull] is the null pointer (or the integer 0 read through one). *)
Inductive PropValue : Type :=
| PNull
| PString (s : string)
| PInt (i : Z)
| PTimespec (ts : Timespec)
| PDate (d : GDate)
| PNumeric (n : gnc_numeric).

Definition PairVec : Type := list (string * string).
Definition StrVec : Type := list string.

(** ** The QOF backend part of the backend record *)

Inductive QofBackendError : Type :=
| ERR_BACKEND_NO_ERR
| ERR_BACKEND_READONLY
| ERR_BACKEND_SERVER_ERR.

Global Instance QofBackendError_eq_dec : EqDecision QofBackendError.
Proof. solve_decision. Defined.

(** [percentage] records whether a progress callback is installed. *)
Record QofBackend : Type := { last_err : QofBackendError; percentage : bool }.

(** Modelled from the spec: qof_backend_set_error is a QOF function outside
    the embedded sources; errors "are recorded on a backend-wide error
    slot".  The slot keeps the earliest pending error. *)
Definition qof_backend_set_error (b : QofBackend) (err : QofBackendError) : QofBackend :=
  if decide (last_err b = ERR_BACKEND_NO_ERR)
  then {| last_err := err; percentage := percentage b |}
  else b.

(** ** Statements and the connection *)

(** A statement is the SQL text it was created from together with the
    column/value vectors handed to its [addWhereCond], oldest first. *)
Record GncSqlStatement : Type := { stmt_sql : string; stmt_where : list PairVec }.

Definition gnc_sql_statement_add_where_cond
    (stmt : GncSqlStatement) (col_values : PairVec) : GncSqlStatement :=
  {| stmt_sql := stmt_sql stmt; stmt_where := stmt_where stmt ++ [col_values] |}.

(** An opaque handle for a commodity queued for post-load processing. *)
Definition gnc_commodity : Type := string.

(** The calls that leave the translation unit, in the order they are made.
    [Percentage] carries the value handed to the progress callback (101
    while working, -1 when done). *)
Inductive Call : Type :=
| CreateStatementFromSql (sql : string)
| ExecuteNonSelectStatement (stmt : GncSqlStatement)
| BeginTransaction
| RollbackTransaction
| CommitTransaction
| Percentage (pct : Z)
| InitialLoad (type : string)
| Commit (type : string)
| AccountForeachDescendantBeginEdit
| AccountForeachDescendantCommitEdit
| TransactionLoadAllTx
| CommitCommodity (comm : gnc_commodity).

(** [struct GncSqlConnection]: the function pointers the core calls.  The
    connection is an external collaborator, so each primitive answers as a
    function of the calls made so far. *)
Record GncSqlConnection : Type := {
  executeNonSelectStatement : list Call -> GncSqlStatement -> Z;
  createStatementFromSql : list Call -> string -> bool;
  beginTransaction : list Call -> bool;
  rollbackTransaction : list Call -> bool;
  commitTransaction : list Call -> bool;
  quoteString : string -> string
}.

(** ** Books, instances and the backend record *)

(** Of a book and of an instance the embedded functions only consult the
    flags below, through the QOF helpers modelled further down. *)
Record QofBook : Type := { read_only : bool; session_dirty : bool }.

Record QofInstance : Type :=
  { e_type : string; dirty : bool; do_free : bool; infant : bool }.

(** [be->book] is either null or points to the one book of the session. *)
Inductive BookPtr : Type := NullBook | TheBook.

(** [struct GncSqlBackend]; [qof_be] is its first member [be]. *)
Record GncSqlBackend : Type := {
  qof_be : QofBackend;
  conn : GncSqlConnection;
  book : BookPtr;
  loading : bool;
  in_query : bool;
  is_pristine_db : bool;
  obj_total : Z;
  operations_done : Z;
  versions : gmap string Z;
  timespec_format : string
}.

Definition set_qof_be (q : QofBackend) (be : GncSqlBackend) : GncSqlBackend :=
  {| qof_be := q; conn := conn be; book := book be; loading := loading be;
     in_query := in_query be; is_pristine_db := is_pristine_db be;
     obj_total := obj_total be; operations_done := operations_done be;
     versions := versions be; timespec_format := timespec_format be |}.

Definition set_book (p : BookPtr) (be : GncSqlBackend) : GncSqlBackend :=
  {| qof_be := qof_be be; conn := conn be; book := p; loading := loading be;
     in_query := in_query be; is_pristine_db := is_pristine_db be;
     obj_total := obj_total be; operations_done := operations_done be;
     versions := versions be; timespec_format := timespec_format be |}.

Definition set_loading (l : bool) (be : GncSqlBackend) : GncSqlBackend :=
  {| qof_be := qof_be be; conn := conn be; book := book be; loading := l;
     in_query := in_query be; is_pristine_db := is_pristine_db be;
     obj_total := obj_total be; operations_done := operations_done be;
     versions := versions be; timespec_format := timespec_format be |}.

Definition set_versions (v : gmap string Z) (be : GncSqlBackend) : GncSqlBackend :=
  {| qof_be := qof_be be; conn := conn be; book := book be; loading := loading be;
     in_query := in_query be; is_pristine_db := is_pristine_db be;
     obj_total := obj_total be; operations_done := operations_done be;
     versions := v; timespec_format := timespec_format be |}.

(** The memory a registered callback can reach: the backend record, the
    book it points to and the file-static list of commodities queued for
    post-load processing. *)
Record Memory : Type := {
  sql_be : GncSqlBackend;
  the_book : QofBook;
  post_load_commodities : list gnc_commodity
}.

Definition set_sql_be (be : GncSqlBackend) (m : Memory) : Memory :=
  {| sql_be := be; the_book := the_book m;
     post_load_commodities := post_load_commodities m |}.

Definition set_the_book (b : QofBook) (m : Memory) : Memory :=
  {| sql_be := sql_be m; the_book := b;
     post_load_commodities := post_load_commodities m |}.

Definition set_post_load_commodities (l : list gnc_commodity) (m : Memory) : Memory :=
  {| sql_be := sql_be m; the_book := the_book m; post_load_commodities := l |}.

(** The memory together with the trace of outgoing calls. *)
Record World : Type := { mem : Memory; trace : list Call }.

(** ** The execution monad *)

Definition M (A : Type) : Type := World -> A * World.

Definition ret {A : Type} (a : A) : M A := fun w => (a, w).

Definition bind {A B : Type} (c : M A) (k : A -> M B) : M B :=
  fun w => let '(a, w') := c w in k a w'.

Global Instance M_ret : MRet M := @ret.
Global Instance M_bind : MBind M := fun A B k c => bind c k.

Definition get_be : M GncSqlBackend := fun w => (sql_be (mem w), w).

Definition modify_mem (f : Memory -> Memory) : M unit :=
  fun w => (tt, {| mem := f (mem w); trace := trace w |}).

Definition modify_be (f : GncSqlBackend -> GncSqlBackend) : M unit :=
  modify_mem (fun m => set_sql_be (f (sql_be m)) m).

Definition get_trace : M (list Call) := fun w => (trace w, w).

Definition emit (c : Call) : M unit :=
  fun w => (tt, {| mem := mem w; trace := trace w ++ [c] |}).

Definition when (b : bool) (c : M unit) : M unit := if b then c else ret tt.

(** [for (auto x : l) body(x);] *)
Fixpoint for_each {A : Type} (l : list A) (body : A -> M unit) : M unit :=
  match l with
  | [] => ret tt
  | x :: l' => body x;; for_each l' body
  end.

(** [qof_backend_set_error (&be->be, err)] *)
Definition set_error (err : QofBackendError) : M unit :=
  modify_be (fun be => set_qof_be (qof_backend_set_error (qof_be be) err) be).

(** ** Connection primitives (the [gnc_sql_connection_*] macros) *)

Definition gnc_sql_connection_create_statement_from_sql
    (sql : string) : M (option GncSqlStatement) :=
  be ← get_be;
  t ← get_trace;
  emit (CreateStatementFromSql sql);;
  ret (if createStatementFromSql (conn be) t sql
       then Some {| stmt_sql := sql; stmt_where := [] |}
       else None).

Definition gnc_sql_connection_execute_nonselect_statement
    (stmt : GncSqlStatement) : M Z :=
  be ← get_be;
  t ← get_trace;
  emit (ExecuteNonSelectStatement stmt);;
  ret (executeNonSelectStatement (conn be) t stmt).

Definition gnc_sql_connection_begin_transaction : M bool :=
  be ← get_be;
  t ← get_trace;
  emit BeginTransaction;;
  ret (beginTransaction (conn be) t).

Definition gnc_sql_connection_rollback_transaction : M bool :=
  be ← get_be;
  t ← get_trace;
  emit RollbackTransaction;;
  ret (rollbackTransaction (conn be) t).

Definition gnc_sql_connection_commit_transaction : M bool :=
  be ← get_be;
  t ← get_trace;
  emit CommitTransaction;;
  ret (commitTransaction (conn be) t).

(** ** Statement creation and execution *)

Definition gnc_sql_create_statement_from_sql (sql : string) : M (option GncSqlStatement) :=
  stmt ← gnc_sql_connection_create_statement_from_sql sql;
  match stmt with
  | None => set_error ERR_BACKEND_SERVER_ERR;; ret None
  | Some s => ret (Some s)
  end.

Definition gnc_sql_execute_nonselect_sql (sql : string) : M Z :=
  stmt ← gnc_sql_create_statement_from_sql sql;
  match stmt with
  | None => ret (-1)
  | Some s =>
      result ← gnc_sql_connection_execute_nonselect_statement s;
      ret result
  end.

(** ** Schema version manager *)

Definition VERSION_TABLE_NAME : string := "versions".
Definition TABLE_COL_NAME : string := "table_name".
Definition VERSION_COL_NAME : string := "table_version".

(** [GPOINTER_TO_INT (g_hash_table_lookup (be->versions, table_name))];
    a missing key looks up as the null pointer, which converts to 0. *)
Definition gnc_sql_get_table_version (be : GncSqlBackend) (table_name : string) : Z :=
  if is_pristine_db be then 0
  else default 0 (versions be !! table_name).

(** The SQL text gnc_sql_set_table_version formats when the current version
    [cur_version] differs from the requested one: an INSERT when the table
    has no version yet, an UPDATE otherwise. *)
Definition version_sql (cur_version : Z) (table_name : string) (version : Z) : string :=
  if cur_version =? 0
  then "INSERT INTO " +:+ VERSION_TABLE_NAME +:+ " VALUES('" +:+ table_name
       +:+ "'," +:+ pretty version +:+ ")"
  else "UPDATE " +:+ VERSION_TABLE_NAME +:+ " SET " +:+ VERSION_COL_NAME
       +:+ "=" +:+ pretty version +:+ " WHERE " +:+ TABLE_COL_NAME
       +:+ "='" +:+ table_name +:+ "'".

Definition gnc_sql_set_table_version (table_name : string) (version : Z) : M bool :=
  if negb (0 <? version) then ret false
  else
    be ← get_be;
    let cur_version := gnc_sql_get_table_version be table_name in
    when (negb (cur_version =? version))
      (let sql := version_sql cur_version table_name version in
       status ← gnc_sql_execute_nonselect_sql sql;
       when (status =? -1) (set_error ERR_BACKEND_SERVER_ERR));;
    modify_be (fun be => set_versions (<[table_name := version]> (versions be)) be);;
    ret true.

(** ** The boundary to the domain-object layer

    An object is reached either through a named GObject property
    ([g_object_get]/[g_object_set]), through a QOF class parameter looked up
    by name, or through the accessor pair stored in the descriptor.  The
    object layer is an external collaborator: the embedding is parametric
    in it. *)
Class ObjectLayer (Obj : Type) : Type := {
  QOF_IS_INSTANCE : Obj -> bool;
  qof_instance_increase_editlevel : Obj -> Obj;
  qof_instance_decrease_editlevel : Obj -> Obj;
  (** [None]: the object has no such property and the out-parameter is
      left as it was. *)
  g_object_get : Obj -> string -> option PropValue;
  g_object_set : Obj -> string -> PropValue -> Obj;
  qof_class_get_parameter_getter : string -> string -> option (Obj -> PropValue);
  qof_class_get_parameter_setter : string -> string -> option (Obj -> PropValue -> Obj)
}.

(** The GLib and engine date/number routines the handlers call. *)
Class DateLib : Type := {
  g_ascii_strtoll : option string -> Z;
  atoi : string -> Z;
  gnc_iso8601_to_timespec_gmt : string -> Timespec;
  timespec_to_gdate : Timespec -> GDate;
  (** [None]: the day/month/year triple is not a valid date and GLib
      returns a null pointer. *)
  g_date_new_dmy : Z -> Z -> Z -> option GDate;
  g_date_valid : GDate -> bool;
  gnc_gmtime : Z -> tm;
  (** [g_strdup_printf] applied to the backend's format and six integers. *)
  g_strdup_printf_6d : string -> Z -> Z -> Z -> Z -> Z -> Z -> string
}.

(** ** Column descriptors *)

Definition CT_STRING : string := "ct_string".
Definition CT_INT : string := "ct_int".
Definition CT_INT64 : string := "ct_int64".
Definition CT_TIMESPEC : string := "ct_timespec".
Definition CT_GDATE : string := "ct_gdate".
Definition CT_NUMERIC : string := "ct_numeric".
Definition CT_BOOLEAN : string := "ct_boolean".

Definition COL_NO_FLAG : Z := 0.
Definition COL_PKEY : Z := 1.
Definition COL_NNUL : Z := 2.
Definition COL_UNIQUE : Z := 4.
Definition COL_AUTOINC : Z := 8.

(** [flags & FLAG] used as a condition. *)
Definition has_flag (flags flag : Z) : bool := negb (Z.land flags flag =? 0).

(** [struct GncSqlColumnTableEntry]; [col_size] is its member [size]. *)
Record GncSqlColumnTableEntry (Obj : Type) : Type := {
  col_name : string;
  col_type : string;
  col_size : Z;
  flags : Z;
  gobj_param_name : option string;
  qof_param_name : option string;
  getter : option (Obj -> PropValue);
  setter : option (Obj -> PropValue -> Obj)
}.
Arguments col_name {Obj} _.
Arguments col_type {Obj} _.
Arguments col_size {Obj} _.
Arguments flags {Obj} _.
Arguments gobj_param_name {Obj} _.
Arguments qof_param_name {Obj} _.
Arguments getter {Obj} _.
Arguments setter {Obj} _.

Inductive GncSqlBasicColumnType : Type :=
| BCT_STRING | BCT_INT | BCT_INT64 | BCT_DATE | BCT_DOUBLE | BCT_DATETIME.

Record GncSqlColumnInfo : Type := {
  m_name : string;
  m_type : GncSqlBasicColumnType;
  m_size : Z;
  m_unicode : bool;
  m_autoinc : bool;
  m_primary_key : bool;
  m_not_null : bool
}.

Definition ColVec : Type := list GncSqlColumnInfo.

(** A result row: the cell found under a column name, if any.  A missing
    column and a null cell both look up as the null pointer. *)
Definition GncSqlRow : Type := gmap string GValue.

Definition gnc_sql_row_get_value_at_col_name (row : GncSqlRow) (name : string)
  : option GValue := row !! name.

(** [std::setfill('0') << std::setw(w)] applied to a printed number. *)
Fixpoint zeros (n : nat) : string :=
  match n with
  | O => EmptyString
  | S n' => "0" +:+ zeros n'
  end.

Definition setw_fill0 (w : nat) (s : string) : string :=
  zeros (w - String.length s) +:+ s.

Section Marshaller.
Context {Obj : Type} `{!ObjectLayer Obj} `{!DateLib}.

Local Abbreviation Entry := (GncSqlColumnTableEntry Obj).
Local Abbreviation EntryVec := (list (GncSqlColumnTableEntry Obj)).
Local Abbreviation QofSetterFunc := (option (Obj -> PropValue -> Obj)).
Local Abbreviation QofAccessFunc := (option (Obj -> PropValue)).

(** The column info built from a descriptor (second constructor of
    [GncSqlColumnInfo]). *)
Definition column_info_of_entry (e : Entry) (t : GncSqlBasicColumnType)
    (size : Z) (unicode : bool) : GncSqlColumnInfo :=
  {| m_name := col_name e; m_type := t; m_size := size; m_unicode := unicode;
     m_autoinc := has_flag (flags e) COL_AUTOINC;
     m_primary_key := has_flag (flags e) COL_PKEY;
     m_not_null := has_flag (flags e) COL_NNUL |}.

Definition gnc_sql_get_integer_value (value : GValue) : Z :=
  match value with
  | GInt i => to_gint64 i
  | GUInt i => to_gint64 i
  | GLong i => to_gint64 i
  | GULong i => to_gint64 i
  | GInt64 i => i
  | GUInt64 i => to_gint64 i
  | GString s => g_ascii_strtoll s
  | GOther _ => 0
  end.

Definition get_autoinc_id : Obj -> PropValue := fun _ => PNull.
Definition set_autoinc_id : Obj -> PropValue -> Obj := fun object _ => object.

Definition gnc_sql_get_getter (obj_name : string) (table_row : Entry) : QofAccessFunc :=
  if has_flag (flags table_row) COL_AUTOINC then Some get_autoinc_id
  else match qof_param_name table_row with
       | Some p => qof_class_get_parameter_getter obj_name p
       | None => getter table_row
       end.

(** The guard every load handler starts with:
    [g_return_if_fail (table_row.gobj_param_name != NULL || setter != NULL)]. *)
Definition has_accessor (table_row : Entry) (setter : QofSetterFunc) : bool :=
  bool_decide (is_Some (gobj_param_name table_row)) || bool_decide (is_Some setter).

(** The bracket most handlers put around [g_object_set]: the edit level is
    raised before and lowered after when the object is a QOF instance. *)
Definition g_object_set_bracketed (pObject : Obj) (name : string) (v : PropValue) : Obj :=
  let is_inst := QOF_IS_INSTANCE pObject in
  let o := if is_inst then qof_instance_increase_editlevel pObject else pObject in
  let o := g_object_set o name v in
  if is_inst then qof_instance_decrease_editlevel o else o.

(** The same bracket as load_date and load_numeric write it: the edit level
    is raised again after the property is set. *)
Definition g_object_set_raised_twice (pObject : Obj) (name : string) (v : PropValue) : Obj :=
  let is_inst := QOF_IS_INSTANCE pObject in
  let o := if is_inst then qof_instance_increase_editlevel pObject else pObject in
  let o := g_object_set o name v in
  if is_inst then qof_instance_increase_editlevel o else o.

(** *** string *)

Definition load_string (be : GncSqlBackend) (row : GncSqlRow) (setter : QofSetterFunc)
    (pObject : Obj) (table_row : Entry) : Obj :=
  if negb (has_accessor table_row setter) then pObject else
  match gnc_sql_row_get_value_at_col_name row (col_name table_row) with
  | None => pObject
  | Some val =>
      let s := match val with GString (Some s) => PString s | _ => PNull end in
      match gobj_param_name table_row with
      | Some name => g_object_set_bracketed pObject name s
      | None =>
          match setter with
          | Some f => f pObject s
          | None => pObject
          end
      end
  end.

Definition add_string_col_info_to_list (be : GncSqlBackend) (table_row : Entry)
    (vec : ColVec) : ColVec :=
  vec ++ [column_info_of_entry table_row BCT_STRING (col_size table_row) true].

(** *** accessors on the serialize side *)

(** [get_row_value_from_object<T>]: the result starts out as the null
    pointer (0 for a non-pointer [T]) and stays so when no accessor is found. *)
Definition get_row_value_from_object (obj_name : string) (pObject : Obj)
    (table_row : Entry) : PropValue :=
  match gobj_param_name table_row with
  | Some name => default PNull (g_object_get pObject name)
  | None =>
      match gnc_sql_get_getter obj_name table_row with
      | Some g => g pObject
      | None => PNull
      end
  end.

(** The serialize handlers return [None] where the C code has no defined
    result: the accessor handed over a value of another kind than the one
    the handler casts it to. *)
Definition add_value_to_vec_string (be : GncSqlBackend) (obj_name : string)
    (pObject : Obj) (table_row : Entry) (vec : PairVec) : option PairVec :=
  match get_row_value_from_object obj_name pObject table_row with
  | PNull => Some vec
  | PString s => Some (vec ++ [(col_name table_row, s)])
  | _ => None
  end.

(** *** int and boolean *)

Definition load_int (be : GncSqlBackend) (row : GncSqlRow) (setter : QofSetterFunc)
    (pObject : Obj) (table_row : Entry) : Obj :=
  if negb (has_accessor table_row setter) then pObject else
  let int_value :=
    match gnc_sql_row_get_value_at_col_name row (col_name table_row) with
    | None => 0
    | Some val => to_gint (gnc_sql_get_integer_value val)
    end in
  match gobj_param_name table_row with
  | Some name => g_object_set_bracketed pObject name (PInt int_value)
  | None =>
      match setter with
      | Some f => f pObject (PInt int_value)
      | None => pObject
      end
  end.

Definition add_int_col_info_to_list (be : GncSqlBackend) (table_row : Entry)
    (vec : ColVec) : ColVec :=
  vec ++ [column_info_of_entry table_row BCT_INT 0 false].

(** [add_value_to_vec<int>] *)
Definition add_value_to_vec_int (be : GncSqlBackend) (obj_name : string)
    (pObject : Obj) (table_row : Entry) (vec : PairVec) : option PairVec :=
  match get_row_value_from_object obj_name pObject table_row with
  | PNull => Some (vec ++ [(col_name table_row, pretty 0)])
  | PInt i => Some (vec ++ [(col_name table_row, pretty (to_gint i))])
  | _ => None
  end.

Definition load_boolean (be : GncSqlBackend) (row : GncSqlRow) (setter : QofSetterFunc)
    (pObject : Obj) (table_row : Entry) : Obj :=
  if negb (has_accessor table_row setter) then pObject else
  let int_value :=
    match gnc_sql_row_get_value_at_col_name row (col_name table_row) with
    | None => 0
    | Some val => to_gint (gnc_sql_get_integer_value val)
    end in
  match gobj_param_name table_row with
  | Some name => g_object_set_bracketed pObject name (PInt int_value)
  | None =>
      match setter with
      | Some f => f pObject (PInt (if int_value =? 0 then 0 else 1))
      | None => pObject
      end
  end.

Definition add_boolean_col_info_to_list (be : GncSqlBackend) (table_row : Entry)
    (vec : ColVec) : ColVec :=
  vec ++ [column_info_of_entry table_row BCT_INT 0 false].

(** *** int64 *)

Definition load_int64 (be : GncSqlBackend) (row : GncSqlRow) (setter : QofSetterFunc)
    (pObject : Obj) (table_row : Entry) : Obj :=
  if negb (has_accessor table_row setter) then pObject else
  let i64_value :=
    match gnc_sql_row_get_value_at_col_name row (col_name table_row) with
    | None => 0
    | Some val => gnc_sql_get_integer_value val
    end in
  match gobj_param_name table_row with
  | Some name => g_object_set_bracketed pObject name (PInt i64_value)
  | None =>
      match setter with
      | Some f => f pObject (PInt i64_value)
      | None => pObject
      end
  end.

Definition add_int64_col_info_to_list (be : GncSqlBackend) (table_row : Entry)
    (vec : ColVec) : ColVec :=
  vec ++ [column_info_of_entry table_row BCT_INT64 0 false].

(** [add_value_to_vec<int64_t>] *)
Definition add_value_to_vec_int64 (be : GncSqlBackend) (obj_name : string)
    (pObject : Obj) (table_row : Entry) (vec : PairVec) : option PairVec :=
  match get_row_value_from_object obj_name pObject table_row with
  | PNull => Some (vec ++ [(col_name table_row, pretty 0)])
  | PInt i => Some (vec ++ [(col_name table_row, pretty (to_gint64 i))])
  | _ => None
  end.

(** *** timestamp *)

Definition TIMESPEC_COL_SIZE : Z := 4 + 2 + 2 + 2 + 2 + 2.

Definition gnc_sql_convert_timespec_to_string (be : GncSqlBackend) (ts : Timespec) : string :=
  let time := timespecToTime64 ts in
  let tm := gnc_gmtime time in
  let year := tm_year tm + 1900 in
  g_strdup_printf_6d (timespec_format be)
    year (tm_mon tm + 1) (tm_mday tm) (tm_hour tm) (tm_min tm) (tm_sec tm).

(** The text handed to the ISO-8601 parser:
    ["%c%c%c%c-%c%c-%c%c %c%c:%c%c:%c%c"] over [s[0]] .. [s[13]].  Rows carry
    the 14-character encoding; on a shorter text the C code reads past its
    end, where the embedding just has fewer characters. *)
Definition iso8601_of_compact (s : string) : string :=
  String.substring 0 4 s +:+ "-" +:+ String.substring 4 2 s +:+ "-"
  +:+ String.substring 6 2 s +:+ " " +:+ String.substring 8 2 s +:+ ":"
  +:+ String.substring 10 2 s +:+ ":" +:+ String.substring 12 2 s.

Definition load_timespec (be : GncSqlBackend) (row : GncSqlRow) (setter : QofSetterFunc)
    (pObject : Obj) (table_row : Entry) : Obj :=
  if negb (has_accessor table_row setter) then pObject else
  let ts0 := {| tv_sec := 0; tv_nsec := 0 |} in
  let '(ts, isOK) :=
    match gnc_sql_row_get_value_at_col_name row (col_name table_row) with
    | None => (ts0, true)
    | Some (GInt64 i) => (timespecFromTime64 i, true)
    | Some (GString (Some s)) =>
        (gnc_iso8601_to_timespec_gmt (iso8601_of_compact s), true)
    | Some (GString None) => (ts0, false)
    | Some _ => (ts0, false)
    end in
  if isOK then
    match gobj_param_name table_row with
    | Some name => g_object_set_bracketed pObject name (PTimespec ts)
    | None =>
        match setter with
        | Some ts_setter => ts_setter pObject (PTimespec ts)
        | None => pObject
        end
    end
  else pObject.

Definition add_timespec_col_info_to_list (be : GncSqlBackend) (table_row : Entry)
    (vec : ColVec) : ColVec :=
  vec ++ [column_info_of_entry table_row BCT_DATETIME TIMESPEC_COL_SIZE false].

Definition add_timespec_to_vec (be : GncSqlBackend) (obj_name : string)
    (pObject : Obj) (table_row : Entry) (vec : PairVec) : option PairVec :=
  let emit_ts (ts : Timespec) :=
    if negb (tv_sec ts =? 0) || negb (tv_nsec ts =? 0)
    then vec ++ [(col_name table_row, gnc_sql_convert_timespec_to_string be ts)]
    else vec in
  match gobj_param_name table_row with
  | Some name =>
      match g_object_get pObject name with
      | Some (PTimespec ts) => Some (emit_ts ts)
      | _ => None
      end
  | None =>
      match gnc_sql_get_getter obj_name table_row with
      | None => Some vec
      | Some ts_getter =>
          match ts_getter pObject with
          | PTimespec ts => Some (emit_ts ts)
          | _ => None
          end
      end
  end.

(** *** calendar date *)

Definition DATE_COL_SIZE : Z := 8.

(** [GDateYear] is a [guint16] and [GDateDay] a [guint8]. *)
Definition to_GDateYear (z : Z) : Z := z `mod` 2 ^ 16.
Definition to_GDateDay (z : Z) : Z := z `mod` 2 ^ 8.

Definition load_date (be : GncSqlBackend) (row : GncSqlRow) (setter : QofSetterFunc)
    (pObject : Obj) (table_row : Entry) : Obj :=
  if negb (has_accessor table_row setter) then pObject else
  match gnc_sql_row_get_value_at_col_name row (col_name table_row) with
  | None => pObject
  | Some (GInt64 time) =>
      let ts := {| tv_sec := time; tv_nsec := 0 |} in
      let date := timespec_to_gdate ts in
      match gobj_param_name table_row with
      | Some name => g_object_set_raised_twice pObject name (PDate date)
      | None =>
          match setter with
          | Some f => f pObject (PDate date)
          | None => pObject
          end
      end
  | Some (GString (Some s)) =>
      (* Format of date is YYYYMMDD *)
      let year := to_GDateYear (atoi (String.substring 0 4 s)) in
      let month := atoi (String.substring 4 2 s) in
      let day := to_GDateDay (atoi (String.substring 6 2 s)) in
      if negb (year =? 0) || negb (month =? 0) || negb (day =? 0) then
        let date :=
          match g_date_new_dmy day month year with
          | Some d => PDate d
          | None => PNull
          end in
        match gobj_param_name table_row with
        | Some name => g_object_set_raised_twice pObject name date
        | None =>
            match setter with
            | Some f => f pObject date
            | None => pObject
            end
        end
      else pObject
  | Some (GString None) => pObject
  | Some _ => pObject
  end.

Definition add_date_col_info_to_list (be : GncSqlBackend) (table_row : Entry)
    (vec : ColVec) : ColVec :=
  vec ++ [column_info_of_entry table_row BCT_DATE DATE_COL_SIZE false].

Definition add_date_to_vec (be : GncSqlBackend) (obj_name : string)
    (pObject : Obj) (table_row : Entry) (vec : PairVec) : option PairVec :=
  match get_row_value_from_object obj_name pObject table_row with
  | PNull => Some vec
  | PDate date =>
      if g_date_valid date
      then Some (vec ++ [(col_name table_row,
                          setw_fill0 4 (pretty (g_year date))
                          +:+ setw_fill0 2 (pretty (g_month date))
                          +:+ setw_fill0 2 (pretty (g_day date)))])
      else Some vec
  | _ => None
  end.

(** *** fixed-point rational *)

Definition numeric_col_table : EntryVec :=
  [ {| col_name := "num"; col_type := CT_INT64; col_size := 0; flags := COL_NNUL;
       gobj_param_name := Some "guid"; qof_param_name := None;
       getter := None; setter := None |};
    {| col_name := "denom"; col_type := CT_INT64; col_size := 0; flags := COL_NNUL;
       gobj_param_name := Some "guid"; qof_param_name := None;
       getter := None; setter := None |} ].

Definition load_numeric (be : GncSqlBackend) (row : GncSqlRow) (setter : QofSetterFunc)
    (pObject : Obj) (table_row : Entry) : Obj :=
  if negb (has_accessor table_row setter) then pObject else
  let isNull := false in
  let '(isNull, num) :=
    match gnc_sql_row_get_value_at_col_name row (col_name table_row +:+ "_num") with
    | None => (true, 0)
    | Some val => (isNull, gnc_sql_get_integer_value val)
    end in
  let '(isNull, denom) :=
    match gnc_sql_row_get_value_at_col_name row (col_name table_row +:+ "_denom") with
    | None => (true, 1)
    | Some val => (isNull, gnc_sql_get_integer_value val)
    end in
  let n := gnc_numeric_create num denom in
  if negb isNull then
    match gobj_param_name table_row with
    | Some name => g_object_set_raised_twice pObject name (PNumeric n)
    | None =>
        match setter with
        | Some n_setter => n_setter pObject (PNumeric n)
        | None => pObject
        end
    end
  else pObject.

Definition add_numeric_col_info_to_list (be : GncSqlBackend) (table_row : Entry)
    (vec : ColVec) : ColVec :=
  vec ++ map (fun subtable_row : Entry =>
                {| m_name := col_name table_row +:+ "_" +:+ col_name subtable_row;
                   m_type := BCT_INT64; m_size := 0; m_unicode := false;
                   m_autoinc := false;
                   m_primary_key := has_flag (flags table_row) COL_PKEY;
                   m_not_null := has_flag (flags table_row) COL_NNUL |})
             numeric_col_table.

Definition add_numeric_to_vec (be : GncSqlBackend) (obj_name : string)
    (pObject : Obj) (table_row : Entry) (vec : PairVec) : option PairVec :=
  let n :=
    match gobj_param_name table_row with
    | Some name =>
        match g_object_get pObject name with
        | Some (PNumeric s) => Some s
        | _ => None
        end
    | None =>
        match gnc_sql_get_getter obj_name table_row with
        | Some getter =>
            match getter pObject with
            | PNumeric n => Some n
            | _ => None
            end
        | None => Some gnc_numeric_zero
        end
    end in
  match n with
  | None => None
  | Some n =>
      let num_col := col_name table_row +:+ "_num" in
      let denom_col := col_name table_row +:+ "_denom" in
      let vec := vec ++ [(num_col, pretty (gnc_numeric_num n))] in
      Some (vec ++ [(denom_col, pretty (gnc_numeric_denom n))])
  end.

(** ** The column-type registry *)

(** [struct GncSqlColumnTypeHandler] *)
Record GncSqlColumnTypeHandler : Type := {
  load_fn : GncSqlBackend -> GncSqlRow -> QofSetterFunc -> Obj -> Entry -> Obj;
  add_col_info_to_list_fn : GncSqlBackend -> Entry -> ColVec -> ColVec;
  add_value_to_vec_fn :
    GncSqlBackend -> string -> Obj -> Entry -> PairVec -> option PairVec
}.

Definition string_handler : GncSqlColumnTypeHandler :=
  {| load_fn := load_string;
     add_col_info_to_list_fn := add_string_col_info_to_list;
     add_value_to_vec_fn := add_value_to_vec_string |}.

Definition int_handler : GncSqlColumnTypeHandler :=
  {| load_fn := load_int;
     add_col_info_to_list_fn := add_int_col_info_to_list;
     add_value_to_vec_fn := add_value_to_vec_int |}.

Definition boolean_handler : GncSqlColumnTypeHandler :=
  {| load_fn := load_boolean;
     add_col_info_to_list_fn := add_boolean_col_info_to_list;
     add_value_to_vec_fn := add_value_to_vec_int |}.

Definition int64_handler : GncSqlColumnTypeHandler :=
  {| load_fn := load_int64;
     add_col_info_to_list_fn := add_int64_col_info_to_list;
     add_value_to_vec_fn := add_value_to_vec_int64 |}.

Definition timespec_handler : GncSqlColumnTypeHandler :=
  {| load_fn := load_timespec;
     add_col_info_to_list_fn := add_timespec_col_info_to_list;
     add_value_to_vec_fn := add_timespec_to_vec |}.

Definition date_handler : GncSqlColumnTypeHandler :=
  {| load_fn := load_date;
     add_col_info_to_list_fn := add_date_col_info_to_list;
     add_value_to_vec_fn := add_date_to_vec |}.

Definition numeric_handler : GncSqlColumnTypeHandler :=
  {| load_fn := load_numeric;
     add_col_info_to_list_fn := add_numeric_col_info_to_list;
     add_value_to_vec_fn := add_numeric_to_vec |}.

(** [g_columnTypeHash], from column-type tag to handler. *)
Local Abbreviation ColumnTypeHash := (gmap string GncSqlColumnTypeHandler).

Definition gnc_sql_register_col_type_handler (colType : string)
    (handler : GncSqlColumnTypeHandler) (g_columnTypeHash : ColumnTypeHash)
  : ColumnTypeHash :=
  <[colType := handler]> g_columnTypeHash.

(** The handlers of register_standard_col_type_handlers whose value kinds
    the embedding covers (the double and GUID handlers are left out). *)
Definition standard_col_type_handlers : ColumnTypeHash :=
  gnc_sql_register_col_type_handler CT_NUMERIC numeric_handler
    (gnc_sql_register_col_type_handler CT_GDATE date_handler
      (gnc_sql_register_col_type_handler CT_TIMESPEC timespec_handler
        (gnc_sql_register_col_type_handler CT_INT64 int64_handler
          (gnc_sql_register_col_type_handler CT_INT int_handler
            (gnc_sql_register_col_type_handler CT_BOOLEAN boolean_handler
              (gnc_sql_register_col_type_handler CT_STRING string_handler ∅)))))).

(** [None]: the tag is not registered and [g_assert (pHandler != NULL)]
    stops the program. *)
Definition get_handler (g_columnTypeHash : ColumnTypeHash) (table_row : Entry)
  : option GncSqlColumnTypeHandler :=
  g_columnTypeHash !! col_type table_row.

(** ** The generic marshaller and the statement builders *)

Section Registry.
Variable g_columnTypeHash : ColumnTypeHash.

(** [None]: an assertion failed (no handler for the tag, or a QOF
    parameter name without an object type name). *)
Fixpoint gnc_sql_load_object (be : GncSqlBackend) (row : GncSqlRow)
    (obj_name : option string) (pObject : Obj) (table : EntryVec) : option Obj :=
  match table with
  | [] => Some pObject
  | table_row :: rest =>
      setter ←
        (if has_flag (flags table_row) COL_AUTOINC then Some (Some set_autoinc_id)
         else match qof_param_name table_row with
              | Some p =>
                  match obj_name with
                  | Some name => Some (qof_class_get_parameter_setter name p)
                  | None => None
                  end
              | None => Some (setter table_row)
              end);
      pHandler ← get_handler g_columnTypeHash table_row;
      gnc_sql_load_object be row obj_name
        (load_fn pHandler be row setter pObject table_row) rest
  end.

(** [None]: no handler for a tag, or a handler without a defined result. *)
Definition get_object_values (be : GncSqlBackend) (obj_name : string)
    (pObject : Obj) (table : EntryVec) : option PairVec :=
  foldl (fun (acc : option PairVec) (table_row : Entry) =>
           vec ← acc;
           if negb (has_flag (flags table_row) COL_AUTOINC) then
             pHandler ← get_handler g_columnTypeHash table_row;
             add_value_to_vec_fn pHandler be obj_name pObject table_row vec
           else Some vec)
        (Some []) table.

(** The [SET] list of an UPDATE: a comma is written before every pair that
    differs from the first pair of the vector. *)
Definition update_set_list (quote : string -> string) (values : PairVec) : string :=
  foldl (fun (sql : string) (col_value : string * string) =>
           sql +:+ (if bool_decide (Some col_value ≠ head values) then "," else EmptyString)
               +:+ col_value.1 +:+ "=" +:+ quote col_value.2)
        EmptyString values.

(** [None]: the function has no defined result (a marshalling assertion
    failed, the value vector is empty so that [values.begin () + 1] lies
    past its end, or the connection returned a null statement, which
    [addWhereCond] is then called through). *)
Definition build_update_statement (table_name : string) (obj_name : string)
    (pObject : Obj) (table : EntryVec) : M (option GncSqlStatement) :=
  be ← get_be;
  match get_object_values be obj_name pObject table with
  | None => ret None
  | Some values =>
      let sql := "UPDATE " +:+ table_name +:+ " SET "
                 +:+ update_set_list (quoteString (conn be)) values in
      stmt ← gnc_sql_connection_create_statement_from_sql sql;
      (* values.erase (values.begin () + 1, values.end ()) *)
      match values, stmt with
      | first :: _, Some stmt =>
          ret (Some (gnc_sql_statement_add_where_cond stmt [first]))
      | _, _ => ret None
      end
  end.

(** [None]: as for the update builder; here also when the descriptor table
    is empty or the first descriptor's handler adds no pair. *)
Definition build_delete_statement (table_name : string) (obj_name : string)
    (pObject : Obj) (table : EntryVec) : M (option GncSqlStatement) :=
  be ← get_be;
  let sql := "DELETE FROM " +:+ table_name in
  stmt ← gnc_sql_connection_create_statement_from_sql sql;
  match table with
  | [] => ret None
  | table_0 :: _ =>
      match get_handler g_columnTypeHash table_0 with
      | None => ret None
      | Some pHandler =>
          match add_value_to_vec_fn pHandler be obj_name pObject table_0 [], stmt with
          | Some (values_0 :: _), Some stmt =>
              ret (Some (gnc_sql_statement_add_where_cond stmt [values_0]))
          | _, _ => ret None
          end
      end
  end.

End Registry.
End Marshaller.

Arguments GncSqlColumnTypeHandler Obj : clear implicits.

(** ** QOF collaborators of the orchestration *)

(** Modelled from the spec: qof_instance_mark_clean, the instance flag
    getters, qof_book_is_readonly and qof_book_mark_session_saved are QOF
    engine functions outside the embedded sources.  An instance or a book
    "reports not dirty" once it is marked clean, so marking clears the
    flag and nothing else; a null book pointer counts as read-only and is
    ignored by qof_book_mark_session_saved. *)
Definition qof_instance_mark_clean (inst : QofInstance) : QofInstance :=
  {| e_type := e_type inst; dirty := false; do_free := do_free inst;
     infant := infant inst |}.

Definition qof_instance_get_dirty_flag (inst : QofInstance) : bool := dirty inst.
Definition qof_instance_get_destroying (inst : QofInstance) : bool := do_free inst.
Definition qof_instance_get_infant (inst : QofInstance) : bool := infant inst.

Definition qof_book_is_readonly (p : BookPtr) : M bool :=
  fun w => (match p with
            | NullBook => true
            | TheBook => read_only (the_book (mem w))
            end, w).

Definition qof_book_mark_session_saved (p : BookPtr) : M unit :=
  match p with
  | NullBook => ret tt
  | TheBook =>
      modify_mem (fun m =>
        set_the_book {| read_only := read_only (the_book m); session_dirty := false |} m)
  end.

(** [qof_book_session_not_saved]: the book reports dirty. *)
Definition qof_book_session_not_saved (m : Memory) : bool := session_dirty (the_book m).

(** ** The object backend registry *)

Definition GNC_SQL_BACKEND_VERSION : Z := 1.

(** [GncSqlObjectBackend], with the callbacks the embedded functions call.
    A callback works on the memory it can reach; it does not see the trace. *)
Record GncSqlObjectBackend : Type := {
  obe_version : Z;
  obe_type_name : string;
  obe_commit : option (Memory -> QofInstance -> bool * Memory * QofInstance);
  obe_initial_load : option (Memory -> Memory)
}.

Definition OBEEntry : Type := string * GncSqlObjectBackend.
Definition OBEVec : Type := list OBEEntry.

(** The two overloads of gnc_sql_register_backend. *)
Definition gnc_sql_register_backend_entry (entry : OBEEntry) (backend_registry : OBEVec)
  : OBEVec := backend_registry ++ [entry].

Definition gnc_sql_register_backend (obe : GncSqlObjectBackend) (backend_registry : OBEVec)
  : OBEVec := backend_registry ++ [(obe_type_name obe, obe)].

(** Modelled from the spec: the GNC_ID_ macros are defined in the engine
    headers, outside the embedded sources; the fixed load order is "a fixed
    list (book, commodity, account, lot)". *)
Definition GNC_ID_BOOK : string := "Book".
Definition GNC_ID_COMMODITY : string := "Commodity".
Definition GNC_ID_ACCOUNT : string := "Account".
Definition GNC_ID_LOT : string := "Lot".

(** Main object load order *)
Definition fixed_load_order : StrVec :=
  [GNC_ID_BOOK; GNC_ID_COMMODITY; GNC_ID_ACCOUNT; GNC_ID_LOT].

Inductive QofBackendLoadType : Type := LOAD_TYPE_INITIAL_LOAD | LOAD_TYPE_LOAD_ALL.

(** The callback structure of the commit scan. *)
Record sql_backend : Type := { is_known : bool; is_ok : bool; the_inst : QofInstance }.

Definition update_progress : M unit :=
  be ← get_be;
  when (percentage (qof_be be)) (emit (Percentage 101)).

Definition finish_progress : M unit :=
  be ← get_be;
  when (percentage (qof_be be)) (emit (Percentage (-1))).

(** Running a registered callback on the memory. *)
Definition call_initial_load (f : Memory -> Memory) : M unit := modify_mem f.

Definition call_commit (f : Memory -> QofInstance -> bool * Memory * QofInstance)
    (i : QofInstance) : M (bool * QofInstance) :=
  fun w => let '(ok, m, i') := f (mem w) i in
           ((ok, i'), {| mem := m; trace := trace w |}).

(** [for (auto x : l) body(x);] for a body that may have no defined
    result: the run ends where that happens. *)
Fixpoint for_each_defined {A : Type} (l : list A) (body : A -> M (option unit))
  : M (option unit) :=
  match l with
  | [] => ret (Some tt)
  | x :: l' =>
      r ← body x;
      match r with
      | Some _ => for_each_defined l' body
      | None => ret None
      end
  end.

(** [for (auto x : l) body(x, &data);] with the data threaded through. *)
Fixpoint for_each_with {A S : Type} (l : list A) (body : A -> S -> M S) (s : S) : M S :=
  match l with
  | [] => ret s
  | x :: l' => s' ← body x s; for_each_with l' body s'
  end.

Section Orchestration.
(** The file-static registry and the load order set by
    gnc_sql_set_load_order. *)
Variable backend_registry : OBEVec.
Variable other_load_order : StrVec.

Definition initial_load (entry : OBEEntry) : M unit :=
  let '(type, obe) := entry in
  if negb (obe_version obe =? GNC_SQL_BACKEND_VERSION) then ret tt
  (* Don't need to load anything if it has already been loaded with the
     fixed order. *)
  else if bool_decide (type ∈ fixed_load_order) then ret tt
  else if bool_decide (type ∈ other_load_order) then ret tt
  else match obe_initial_load obe with
       | Some f => emit (InitialLoad type);; call_initial_load f
       | None => ret tt
       end.

(** The body of the two ordered loops of gnc_sql_load.  The code reads the
    bundle through the iterator [entry] before it compares [entry] with the
    end of the registry, so for a type no bundle is registered under the
    end iterator is dereferenced and there is no defined result ([None]). *)
Definition load_in_order (type : string) : M (option unit) :=
  match List.find (fun entry : OBEEntry => String.eqb type entry.1) backend_registry with
  | Some entry =>
      match obe_initial_load entry.2 with
      | Some f =>
          update_progress;;
          emit (InitialLoad entry.1);;
          call_initial_load f;;
          ret (Some tt)
      | None => ret (Some tt)
      end
  | None => ret None
  end.

(** [g_list_free_full (post_load_commodities, commit_commodity)] followed by
    [post_load_commodities = NULL]. *)
Definition commit_post_load_commodities : M unit :=
  fun w =>
    (for_each (post_load_commodities (mem w)) (fun comm => emit (CommitCommodity comm));;
     modify_mem (set_post_load_commodities [])) w.

(** [None]: [g_assert (be->book == NULL)] failed, or one of the ordered
    loops had no defined result. *)
Definition gnc_sql_load (loadType : QofBackendLoadType) : M (option unit) :=
  modify_be (set_loading true);;
  done_ ←
    match loadType with
    | LOAD_TYPE_INITIAL_LOAD =>
        be ← get_be;
        match book be with
        | TheBook => ret None
        | NullBook =>
            modify_be (set_book TheBook);;
            (* Load any initial stuff. Some of this needs to happen in a
               certain order *)
            fixed_done ← for_each_defined fixed_load_order load_in_order;
            match fixed_done with
            | None => ret None
            | Some _ =>
                other_done ← for_each_defined other_load_order load_in_order;
                match other_done with
                | None => ret None
                | Some _ =>
                    emit AccountForeachDescendantBeginEdit;;
                    for_each backend_registry initial_load;;
                    emit AccountForeachDescendantCommitEdit;;
                    ret (Some tt)
                end
            end
        end
    | LOAD_TYPE_LOAD_ALL =>
        emit TransactionLoadAllTx;;
        ret (Some tt)
    end;
  match done_ with
  | None => ret None
  | Some _ =>
      modify_be (set_loading false);;
      commit_post_load_commodities;;
      qof_book_mark_session_saved TheBook;;
      finish_progress;;
      ret (Some tt)
  end.

Definition commit (entry : OBEEntry) (be_data : sql_backend) : M sql_backend :=
  let '(type, obe) := entry in
  if negb (obe_version obe =? GNC_SQL_BACKEND_VERSION) then ret be_data
  (* If this has already been handled, or is not the correct handler, return *)
  else if negb (String.eqb type (e_type (the_inst be_data))) then ret be_data
  else if is_known be_data then ret be_data
  else match obe_commit obe with
       | Some f =>
           emit (Commit type);;
           r ← call_commit f (the_inst be_data);
           ret {| is_known := true; is_ok := r.1; the_inst := r.2 |}
       | None => ret be_data
       end.

(** Commit_edit handler - find the correct backend handler for this object
    type and call its commit handler.  The result is the instance as the
    call leaves it. *)
Definition gnc_sql_commit_edit (inst : QofInstance) : M QofInstance :=
  be ← get_be;
  readonly ← qof_book_is_readonly (book be);
  if (readonly : bool) then
    set_error ERR_BACKEND_READONLY;;
    gnc_sql_connection_rollback_transaction;;
    ret inst
  (* During initial load where objects are being created, don't commit
     anything, but do mark the object as clean. *)
  else if loading be then ret (qof_instance_mark_clean inst)
  (* The engine has a PriceDB object but it isn't in the database *)
  else if String.eqb (e_type inst) "PriceDB" then
    qof_book_mark_session_saved (book be);;
    ret (qof_instance_mark_clean inst)
  else
    let is_dirty := qof_instance_get_dirty_flag inst in
    let is_destroying := qof_instance_get_destroying inst in
    if negb is_dirty && negb is_destroying then ret inst
    else
      began ← gnc_sql_connection_begin_transaction;
      if negb began then ret inst
      else
        be_data ← for_each_with backend_registry commit
                    {| is_known := false; is_ok := true; the_inst := inst |};
        let inst := the_inst be_data in
        if negb (is_known be_data) then
          gnc_sql_connection_rollback_transaction;;
          (* Don't let unknown items still mark the book as being dirty *)
          be ← get_be;
          qof_book_mark_session_saved (book be);;
          ret (qof_instance_mark_clean inst)
        else if negb (is_ok be_data) then
          (* Error - roll it back *)
          gnc_sql_connection_rollback_transaction;;
          (* This *should* leave things marked dirty *)
          ret inst
        else
          gnc_sql_connection_commit_transaction;;
          be ← get_be;
          qof_book_mark_session_saved (book be);;
          ret (qof_instance_mark_clean inst).

End Orchestration.

(** ** Reading off a run *)

Definition result {A : Type} (c : M A) (w : World) : A := (c w).1.
Definition world_after {A : Type} (c : M A) (w : World) : World := (c w).2.
Definition be_after {A : Type} (c : M A) (w : World) : GncSqlBackend :=
  sql_be (mem (world_after c w)).

(** The [initial_load] callbacks a trace records, by type name, in order. *)
Definition initial_loads (t : list Call) : list string :=
  omap (fun c => match c with InitialLoad type => Some type | _ => None end) t.

(** The calls one statement costs: its creation and, when the connection
    hands out a statement, its execution. *)
Definition statement_calls (be : GncSqlBackend) (t : list Call) (sql : string) : list Call :=
  CreateStatementFromSql sql ::
  (if createStatementFromSql (conn be) t sql
   then [ExecuteNonSelectStatement {| stmt_sql := sql; stmt_where := [] |}]
   else []).

(** The backend after a cache update, with the error slot as given. *)
Definition with_version (table_name : string) (version : Z) (q : QofBackend)
    (be : GncSqlBackend) : GncSqlBackend :=
  set_versions (<[table_name := version]> (versions be)) (set_qof_be q be).

Section PropertyAccess.
Context {Obj : Type} `{!ObjectLayer Obj}.

(** The object's property, read the way the descriptor binds it, holds [v]. *)
Definition holds_property (obj_name : string) (pObject : Obj)
    (table_row : GncSqlColumnTableEntry Obj) (v : PropValue) : Prop :=
  match gobj_param_name table_row with
  | Some name => g_object_get pObject name = Some v
  | None => exists g, gnc_sql_get_getter obj_name table_row = Some g /\ g pObject = v
  end.

(** Storing [v] in the target the way the timestamp handler does: through
    the named property when the descriptor has one, else through the setter. *)
Definition store_bracketed (table_row : GncSqlColumnTableEntry Obj)
    (setter : option (Obj -> PropValue -> Obj)) (pObject : Obj) (v : PropValue) : Obj :=
  match gobj_param_name table_row with
  | Some name => g_object_set_bracketed pObject name v
  | None =>
      match setter with
      | Some f => f pObject v
      | None => pObject
      end
  end.

End PropertyAccess.

(** *** The load sequence, in the words of the load-order invariant *)

(** Some bundle is registered under [type]. *)
Definition registered (backend_registry : OBEVec) (type : string) : Prop :=
  exists obe, (type, obe) ∈ backend_registry.

(** The first bundle registered under [type] has an initial_load callback. *)
Definition listed_with_callback (backend_registry : OBEVec) (type : string) : bool :=
  match List.find (fun entry : OBEEntry => String.eqb type entry.1) backend_registry with
  | Some entry => bool_decide (is_Some (obe_initial_load entry.2))
  | None => false
  end.

(** A registry entry that is loaded in the last phase: its version tag
    matches, its type is in neither list and it has a callback. *)
Definition unlisted_with_callback (other_load_order : StrVec) (entry : OBEEntry) : bool :=
  (obe_version entry.2 =? GNC_SQL_BACKEND_VERSION)
  && negb (bool_decide (entry.1 ∈ fixed_load_order))
  && negb (bool_decide (entry.1 ∈ other_load_order))
  && bool_decide (is_Some (obe_initial_load entry.2)).

Definition load_sequence (backend_registry : OBEVec) (other_load_order : StrVec)
  : list string :=
  List.filter (listed_with_callback backend_registry)
              (fixed_load_order ++ other_load_order)
  ++ map fst (List.filter (unlisted_with_callback other_load_order) backend_registry).

(** ** Concrete collaborators, for running the definitions on examples *)

(** An object as a bag of named properties (latest binding first) with an
    edit level; GObject properties and QOF parameters share the bag. *)
Record PropertyBag : Type := { props : list (string * PropValue); editlevel : Z }.

Fixpoint bag_lookup (name : string) (l : list (string * PropValue)) : option PropValue :=
  match l with
  | [] => None
  | (k, v) :: l' => if String.eqb name k then Some v else bag_lookup name l'
  end.

Definition bag_set (b : PropertyBag) (name : string) (v : PropValue) : PropertyBag :=
  {| props := (name, v) :: props b; editlevel := editlevel b |}.

Definition bag_level (d : Z) (b : PropertyBag) : PropertyBag :=
  {| props := props b; editlevel := editlevel b + d |}.

Global Instance PropertyBag_layer : ObjectLayer PropertyBag := {|
  QOF_IS_INSTANCE := fun _ => true;
  qof_instance_increase_editlevel := bag_level 1;
  qof_instance_decrease_editlevel := bag_level (-1);
  g_object_get := fun b name => bag_lookup name (props b);
  g_object_set := bag_set;
  qof_class_get_parameter_getter :=
    fun _ p => Some (fun b => default PNull (bag_lookup p (props b)));
  qof_class_get_parameter_setter := fun _ p => Some (fun b v => bag_set b p v)
|}.

(** Decimal text to integer: an optional minus sign and the leading digits. *)
Fixpoint parse_digits (s : string) (acc : Z) : Z :=
  match s with
  | EmptyString => acc
  | String c s' =>
      let d := Z.of_nat (Ascii.nat_of_ascii c) - 48 in
      if (0 <=? d) && (d <=? 9) then parse_digits s' (10 * acc + d) else acc
  end.

Definition parse_decimal (s : string) : Z :=
  match s with
  | String c s' =>
      if Ascii.eqb c (Ascii.ascii_of_nat 45) then - parse_digits s' 0
      else parse_digits s 0
  | EmptyString => 0
  end.

(** A date library that converts numbers and pins every calendar
    conversion to the epoch; the examples below only go through the
    number conversions. *)
Global Instance epoch_DateLib : DateLib := {|
  g_ascii_strtoll := fun s => match s with Some s => to_gint64 (parse_decimal s) | None => 0 end;
  atoi := fun s => to_gint (parse_decimal s);
  gnc_iso8601_to_timespec_gmt := fun _ => {| tv_sec := 0; tv_nsec := 0 |};
  timespec_to_gdate := fun _ => {| g_day := 1; g_month := 1; g_year := 1970 |};
  g_date_new_dmy := fun d m y => Some {| g_day := d; g_month := m; g_year := y |};
  g_date_valid := fun _ => true;
  gnc_gmtime := fun _ =>
    {| tm_year := 70; tm_mon := 0; tm_mday := 1; tm_hour := 0; tm_min := 0; tm_sec := 0 |};
  g_strdup_printf_6d := fun _ y mo d h mi s =>
    setw_fill0 4 (pretty y) +:+ setw_fill0 2 (pretty mo) +:+ setw_fill0 2 (pretty d)
    +:+ setw_fill0 2 (pretty h) +:+ setw_fill0 2 (pretty mi) +:+ setw_fill0 2 (pretty s)
|}.

Definition quote_single (s : string) : string := "'" +:+ s +:+ "'".

(** A connection on which everything succeeds. *)
Definition accepting_conn : GncSqlConnection := {|
  executeNonSelectStatement := fun _ _ => 1;
  createStatementFromSql := fun _ _ => true;
  beginTransaction := fun _ => true;
  rollbackTransaction := fun _ => true;
  commitTransaction := fun _ => true;
  quoteString := quote_single
|}.

(** A connection that hands out statements and fails to execute them. *)
Definition refusing_conn : GncSqlConnection := {|
  executeNonSelectStatement := fun _ _ => -1;
  createStatementFromSql := fun _ _ => true;
  beginTransaction := fun _ => true;
  rollbackTransaction := fun _ => true;
  commitTransaction := fun _ => true;
  quoteString := quote_single
|}.

Definition backend_with (c : GncSqlConnection) (p : BookPtr) (is_loading pristine : bool)
    (v : gmap string Z) : GncSqlBackend :=
  {| qof_be := {| last_err := ERR_BACKEND_NO_ERR; percentage := false |};
     conn := c; book := p; loading := is_loading; in_query := false;
     is_pristine_db := pristine; obj_total := 0; operations_done := 0;
     versions := v; timespec_format := "%04d%02d%02d%02d%02d%02d" |}.

Definition world_with (be : GncSqlBackend) (b : QofBook) : World :=
  {| mem := {| sql_be := be; the_book := b; post_load_commodities := [] |};
     trace := [] |}.

Definition dirty_book : QofBook := {| read_only := false; session_dirty := true |}.
Definition readonly_book : QofBook := {| read_only := true; session_dirty := true |}.

(** *** Example worlds for the version manager *)

Definition cached_foo_2 : gmap string Z := {["foo" := 2]}.

Definition pristine_world : World :=
  world_with (backend_with accepting_conn TheBook false true cached_foo_2) dirty_book.

Definition steady_world : World :=
  world_with (backend_with accepting_conn TheBook false false cached_foo_2) dirty_book.

Definition refused_world : World :=
  world_with (backend_with refusing_conn TheBook false false cached_foo_2) dirty_book.

(** *** Example descriptors, objects and rows for the marshaller *)

Definition bag_getter (name : string) : PropertyBag -> PropValue :=
  fun b => default PNull (bag_lookup name (props b)).

Definition bag_setter (name : string) : PropertyBag -> PropValue -> PropertyBag :=
  fun b v => bag_set b name v.

(** A descriptor bound to the bag property of the same name through an
    explicit getter/setter pair. *)
Definition bag_column (name type : string) (f : Z) : GncSqlColumnTableEntry PropertyBag :=
  {| col_name := name; col_type := type; col_size := 0; flags := f;
     gobj_param_name := None; qof_param_name := None;
     getter := Some (bag_getter name); setter := Some (bag_setter name) |}.

Definition amount_column : GncSqlColumnTableEntry PropertyBag :=
  bag_column "amount" CT_NUMERIC COL_NNUL.

Definition post_date_column : GncSqlColumnTableEntry PropertyBag :=
  bag_column "post_date" CT_TIMESPEC COL_NO_FLAG.

Definition date_opened_column : GncSqlColumnTableEntry PropertyBag :=
  bag_column "date_opened" CT_GDATE COL_NO_FLAG.

Definition empty_bag : PropertyBag := {| props := []; editlevel := 0 |}.

Definition bag_7_100 : PropertyBag :=
  {| props := [("amount", PNumeric (gnc_numeric_create 7 100))]; editlevel := 0 |}.

Definition bag_posted : PropertyBag :=
  {| props := [("post_date", PTimespec {| tv_sec := 1000; tv_nsec := 0 |})];
     editlevel := 0 |}.

Definition numerator_only_row : GncSqlRow := {["amount_num" := GInt64 7]}.

Definition empty_row : GncSqlRow := ∅.

(** A table whose first column is an auto-increment key, shaped like the
    recurrences table. *)
Definition recurrence_like_table : list (GncSqlColumnTableEntry PropertyBag) :=
  [ {| col_name := "id"; col_type := CT_INT; col_size := 0;
       flags := Z.lor COL_PKEY (Z.lor COL_NNUL COL_AUTOINC);
       gobj_param_name := None; qof_param_name := None;
       getter := None; setter := None |};
    bag_column "recurrence_mult" CT_INT COL_NNUL;
    bag_column "recurrence_period_type" CT_STRING COL_NNUL ].

Definition monthly_recurrence : PropertyBag :=
  {| props := [("recurrence_mult", PInt 2); ("recurrence_period_type", PString "month")];
     editlevel := 0 |}.

(** *** Example registry, instances and worlds for the orchestration *)

(** A bundle whose callbacks succeed and leave the memory alone. *)
Definition plain_bundle (type : string) : GncSqlObjectBackend :=
  {| obe_version := GNC_SQL_BACKEND_VERSION; obe_type_name := type;
     obe_commit := Some (fun m i => (true, m, i));
     obe_initial_load := Some (fun m => m) |}.

Definition core_registry : OBEVec :=
  gnc_sql_register_backend (plain_bundle "Lot")
    (gnc_sql_register_backend (plain_bundle "Trans")
      (gnc_sql_register_backend (plain_bundle GNC_ID_ACCOUNT)
        (gnc_sql_register_backend (plain_bundle GNC_ID_COMMODITY)
          (gnc_sql_register_backend (plain_bundle GNC_ID_BOOK) [])))).

Definition business_load_order : StrVec := ["gncBillTerm"; "gncTaxTable"; "gncInvoice"].

Definition business_registry : OBEVec :=
  gnc_sql_register_backend (plain_bundle "gncTaxTable")
    (gnc_sql_register_backend (plain_bundle "gncBillTerm")
      (gnc_sql_register_backend (plain_bundle "gncInvoice")
        (gnc_sql_register_backend (plain_bundle "gncCustomer") core_registry))).

(** An instance of a type no bundle is registered for. *)
Definition dirty_gizmo : QofInstance :=
  {| e_type := "Gizmo"; dirty := true; do_free := false; infant := false |}.

(** A backend that has not been attached to a book yet. *)
Definition fresh_world : World :=
  world_with (backend_with accepting_conn NullBook false false ∅) dirty_book.

Definition writable_world : World :=
  world_with (backend_with accepting_conn TheBook false false ∅) dirty_book.

Definition readonly_world : World :=
  world_with (backend_with accepting_conn TheBook false false ∅) readonly_book.

Definition loading_world : World :=
  world_with (backend_with accepting_conn TheBook true false ∅) dirty_book.

Definition loading_readonly_world : World :=
  world_with (backend_with accepting_conn TheBook true false ∅) readonly_book.

(** *** Trace contributions *)

(** Whatever the world, running [c] adds the initial loads [X] to the trace. *)
Definition Loads {A : Type} (c : M A) (X : list string) : Prop :=
  forall w, initial_loads (trace (world_after c w))
            = initial_loads (trace w) ++ X.

(** Whatever the world, running [c] returns [a]. *)
Definition Returns {A : Type} (c : M A) (a : A) : Prop :=
  forall w, result c w = a.

(** ** Further functions of gnc-backend-sql.cpp *)

(** The other function pointers of [struct GncSqlConnection] that the core
    calls.  They answer as the first ones do, as functions of the calls
    recorded so far; the calls to them are not themselves recorded.
    [executeSelectStatement] hands out the rows of the result, or [None] for
    the null result of an error. *)
Record GncSqlConnectionMore : Type := {
  createTable : list Call -> string -> ColVec -> bool;
  addColumnsToTable : list Call -> string -> ColVec -> bool;
  doesTableExist : list Call -> string -> bool;
  executeSelectStatement : list Call -> GncSqlStatement -> option (list GncSqlRow)
}.

(** [E_DB_OPERATION] *)
Inductive E_DB_OPERATION : Type := OP_DB_INSERT | OP_DB_UPDATE | OP_DB_DELETE.

(** A row whose cells are the texts of serialized pairs; a later pair with
    the same column name replaces an earlier one. *)
Definition row_of_pairs (pairs : PairVec) : GncSqlRow :=
  foldl (fun (row : GncSqlRow) (p : string * string) => <[p.1 := GString (Some p.2)]> row)
        ∅ pairs.

(** A row of the persisted version table as the connection hands it out. *)
Definition version_row (name : string) (version : Z) : GncSqlRow :=
  <[TABLE_COL_NAME := GString (Some name)]> {[VERSION_COL_NAME := GInt64 version]}.

Section MoreMarshaller.
Context {Obj : Type} `{!ObjectLayer Obj} `{!DateLib}.
Variable g_columnTypeHash : gmap string (GncSqlColumnTypeHandler Obj).
Variable more : GncSqlConnectionMore.

Local Abbreviation EntryVec := (list (GncSqlColumnTableEntry Obj)).

(** The column list and the value list of an INSERT; as in the UPDATE, a
    comma is written before every pair that differs from the first pair. *)
Definition insert_column_list (values : PairVec) : string :=
  foldl (fun (sql : string) (col_value : string * string) =>
           sql +:+ (if bool_decide (Some col_value ≠ head values) then "," else EmptyString)
               +:+ col_value.1)
        EmptyString values.

Definition insert_value_list (quote : string -> string) (values : PairVec) : string :=
  foldl (fun (sql : string) (col_value : string * string) =>
           sql +:+ (if bool_decide (Some col_value ≠ head values) then "," else EmptyString)
               +:+ quote col_value.2)
        EmptyString values.

(** [None]: a marshalling assertion failed.  [Some None]: the connection
    returned a null statement, which the function hands on. *)
Definition build_insert_statement (table_name : string) (obj_name : string)
    (pObject : Obj) (table : EntryVec) : M (option (option GncSqlStatement)) :=
  be ← get_be;
  match get_object_values g_columnTypeHash be obj_name pObject table with
  | None => ret None
  | Some values =>
      let sql := "INSERT INTO " +:+ table_name +:+ "(" +:+ insert_column_list values
                 +:+ ") VALUES(" +:+ insert_value_list (quoteString (conn be)) values
                 +:+ ")" in
      stmt ← gnc_sql_connection_create_statement_from_sql sql;
      ret (Some stmt)
  end.

(** [None]: the statement builder had no defined result. *)
Definition gnc_sql_do_db_operation (op : E_DB_OPERATION) (table_name : string)
    (obj_name : string) (pObject : Obj) (table : EntryVec) : M (option bool) :=
  stmt ←
    match op with
    | OP_DB_INSERT => build_insert_statement table_name obj_name pObject table
    | OP_DB_UPDATE =>
        s ← build_update_statement g_columnTypeHash table_name obj_name pObject table;
        ret (Some <$> s)
    | OP_DB_DELETE =>
        s ← build_delete_statement g_columnTypeHash table_name obj_name pObject table;
        ret (Some <$> s)
    end;
  match stmt with
  | None => ret None
  | Some None => ret (Some false)
  | Some (Some stmt) =>
      result ← gnc_sql_connection_execute_nonselect_statement stmt;
      if result =? -1 then
        set_error ERR_BACKEND_SERVER_ERR;;
        ret (Some false)
      else ret (Some true)
  end.

(** The loop of do_create_table and gnc_sql_add_columns_to_table that
    collects the physical columns.  [None]: no handler for a tag. *)
Definition table_col_info (be : GncSqlBackend) (col_table : EntryVec) : option ColVec :=
  foldl (fun (acc : option ColVec) (table_row : GncSqlColumnTableEntry Obj) =>
           info_vec ← acc;
           pHandler ← get_handler g_columnTypeHash table_row;
           Some (add_col_info_to_list_fn pHandler be table_row info_vec))
        (Some []) col_table.

Definition do_create_table (table_name : string) (col_table : EntryVec) : M (option bool) :=
  be ← get_be;
  t ← get_trace;
  ret (info_vec ← table_col_info be col_table;
       Some (createTable more t table_name info_vec)).

Definition gnc_sql_create_table (table_name : string) (table_version : Z)
    (col_table : EntryVec) : M (option bool) :=
  ok ← do_create_table table_name col_table;
  match ok with
  | None => ret None
  | Some true =>
      ok ← gnc_sql_set_table_version table_name table_version;
      ret (Some ok)
  | Some false => ret (Some false)
  end.

Definition gnc_sql_create_temp_table (table_name : string) (col_table : EntryVec)
  : M (option bool) :=
  do_create_table table_name col_table.

(** Create a temporary table, copy the data from the old table, delete the
    old table, then rename the new one. *)
Definition gnc_sql_upgrade_table (table_name : string) (col_table : EntryVec)
  : M (option unit) :=
  let temp_table_name := table_name +:+ "_new" in
  created ← gnc_sql_create_temp_table temp_table_name col_table;
  match created with
  | None => ret None
  | Some _ =>
      gnc_sql_execute_nonselect_sql
        ("INSERT INTO " +:+ temp_table_name +:+ " SELECT * FROM " +:+ table_name);;
      gnc_sql_execute_nonselect_sql ("DROP TABLE " +:+ table_name);;
      gnc_sql_execute_nonselect_sql
        ("ALTER TABLE " +:+ temp_table_name +:+ " RENAME TO " +:+ table_name);;
      ret (Some tt)
  end.

(** Adds one or more columns to an existing table. *)
Definition gnc_sql_add_columns_to_table (table_name : string) (new_col_table : EntryVec)
  : M (option bool) :=
  be ← get_be;
  t ← get_trace;
  ret (info_vec ← table_col_info be new_col_table;
       Some (addColumnsToTable more t table_name info_vec)).

Definition MAX_TABLE_NAME_LEN : Z := 50.

Definition version_table : EntryVec :=
  [ {| col_name := TABLE_COL_NAME; col_type := CT_STRING; col_size := MAX_TABLE_NAME_LEN;
       flags := Z.lor COL_PKEY COL_NNUL;
       gobj_param_name := None; qof_param_name := None;
       getter := None; setter := None |};
    {| col_name := VERSION_COL_NAME; col_type := CT_INT; col_size := 0;
       flags := COL_NNUL;
       gobj_param_name := None; qof_param_name := None;
       getter := None; setter := None |} ].

Definition gnc_sql_execute_select_sql (sql : string) : M (option (list GncSqlRow)) :=
  stmt ← gnc_sql_create_statement_from_sql sql;
  match stmt with
  | None => ret None
  | Some s =>
      t ← get_trace;
      let result := executeSelectStatement more t s in
      when (bool_decide (result = None)) (set_error ERR_BACKEND_SERVER_ERR);;
      ret result
  end.

Section VersionInfo.
(** [gnc_prefs_get_long_version ()] and [GNUCASH_RESAVE_VERSION], both
    defined outside the embedded sources. *)
Variable gnc_prefs_get_long_version : Z.
Variable GNUCASH_RESAVE_VERSION : Z.

(** The insertion of one persisted row into the cache.  [None]: the name
    cell is missing or holds no text, so that a null key reaches the hash
    function.  A version cell that is not a 64-bit integer reads as 0. *)
Definition insert_version_row (versions : gmap string Z) (row : GncSqlRow)
  : option (gmap string Z) :=
  match gnc_sql_row_get_value_at_col_name row TABLE_COL_NAME with
  | Some (GString (Some name)) =>
      let version :=
        match gnc_sql_row_get_value_at_col_name row VERSION_COL_NAME with
        | Some (GInt64 i) => i
        | _ => 0
        end in
      Some (<[name := to_gint version]> versions)
  | _ => None
  end.

(** Sees if the version table exists, and if it does, loads the info into
    the version hash table.  Otherwise, it creates an empty version table. *)
Definition gnc_sql_init_version_info : M (option unit) :=
  modify_be (set_versions ∅);;
  t ← get_trace;
  if doesTableExist more t VERSION_TABLE_NAME then
    result ← gnc_sql_execute_select_sql ("SELECT * FROM " +:+ VERSION_TABLE_NAME);
    match result with
    | None => ret (Some tt)
    | Some rows =>
        be ← get_be;
        match foldl (fun acc row => v ← acc; insert_version_row v row)
                    (Some (versions be)) rows with
        | None => ret None
        | Some v => modify_be (set_versions v);; ret (Some tt)
        end
    end
  else
    created ← do_create_table VERSION_TABLE_NAME version_table;
    match created with
    | None => ret None
    | Some _ =>
        gnc_sql_set_table_version "Gnucash" gnc_prefs_get_long_version;;
        gnc_sql_set_table_version "Gnucash-Resave" GNUCASH_RESAVE_VERSION;;
        ret (Some tt)
    end.

(** Resets the version table information by removing all version table
    info.  It also recreates the version table in the db. *)
Definition reset_version_info : M (option bool) :=
  ok ← do_create_table VERSION_TABLE_NAME version_table;
  match ok with
  | None => ret None
  | Some ok =>
      modify_be (set_versions ∅);;
      gnc_sql_set_table_version "Gnucash" gnc_prefs_get_long_version;;
      gnc_sql_set_table_version "Gnucash-Resave" GNUCASH_RESAVE_VERSION;;
      ret (Some ok)
  end.

End VersionInfo.
End MoreMarshaller.

Section GuidList.
(** The instances of the list are only read through
    [guid_to_string_buff (qof_instance_get_guid (inst), guid_buf)]. *)
Context {Inst : Type}.
Variable guid_to_string : Inst -> string.

Fixpoint append_guid_list_loop (sql : string) (list : list Inst) (maxCount count : nat)
    (first_guid : bool) : string * nat :=
  match list with
  | [] => (sql, count)
  | inst :: next =>
      if (count <? maxCount)%nat then
        let sql := if first_guid then sql else sql +:+ "," in
        let sql := sql +:+ "'" +:+ guid_to_string inst +:+ "'" in
        append_guid_list_loop sql next maxCount (S count) false
      else (sql, count)
  end.

(** The text after the call and the count returned. *)
Definition gnc_sql_append_guid_list_to_sql (sql : string) (list : list Inst)
    (maxCount : nat) : string * nat :=
  match list with
  | [] => (sql, 0%nat)
  | _ => append_guid_list_loop sql list maxCount 0 true
  end.

End GuidList.

(** *** Further examples *)

(** The persisted version table of a book written by release 2.6.4. *)
Definition stored_versions : list (string * Z) := [("Gnucash", 2060400); ("books", 1)].

(** A connection on which every table exists and can be created, and every
    SELECT answers with the persisted version table. *)
Definition versioned_more : GncSqlConnectionMore := {|
  createTable := fun _ _ _ => true;
  addColumnsToTable := fun _ _ _ => true;
  doesTableExist := fun _ _ => true;
  executeSelectStatement :=
    fun _ _ => Some (map (fun p : string * Z => version_row p.1 p.2) stored_versions)
|}.

(** A recurrence whose multiplier does not fit 32 bits. *)
Definition wide_recurrence : PropertyBag :=
  {| props := [("recurrence_mult", PInt 4294967298)]; editlevel := 0 |}.

Definition recurrence_mult_column : GncSqlColumnTableEntry PropertyBag :=
  bag_column "recurrence_mult" CT_INT COL_NNUL.

Definition recurrence_period_type_column : GncSqlColumnTableEntry PropertyBag :=
  bag_column "recurrence_period_type" CT_STRING COL_NNUL.

(** A descriptor bound to the GObject property "amount". *)
Definition gobj_amount_column : GncSqlColumnTableEntry PropertyBag :=
  {| col_name := "amount"; col_type := CT_NUMERIC; col_size := 0; flags := COL_NNUL;
     gobj_param_name := Some "amount"; qof_param_name := None;
     getter := None; setter := None |}.

Definition amount_row : GncSqlRow :=
  <["amount_num" := GInt64 7]> {["amount_denom" := GInt64 100]}.

(** A row whose date cell holds a 32-bit integer. *)
Definition int_cell_row : GncSqlRow := {["post_date" := GInt 5]}.

Definition dirty_account : QofInstance :=
  {| e_type := GNC_ID_ACCOUNT; dirty := true; do_free := false; infant := false |}.

Definition dirty_pricedb : QofInstance :=
  {| e_type := "PriceDB"; dirty := true; do_free := false; infant := false |}.

Definition clean_account : QofInstance :=
  {| e_type := GNC_ID_ACCOUNT; dirty := false; do_free := false; infant := false |}.

(** * Theorems *)

(** ** Running the monad *)

Ltac run_m :=
  unfold result, world_after, be_after in *;
  repeat (unfold mbind, mret, M_bind, M_ret, bind, ret, when, get_be, get_trace, emit,
          modify_be, modify_mem, set_error in *; cbn [fst snd mem trace sql_be set_sql_be] in *).

Lemma run_bind {A B : Type} (c : M A) (k : A -> M B) (w : World) :
  (c ≫= k) w = k (c w).1 (c w).2.
Proof. unfold mbind, M_bind, bind. destruct (c w); reflexivity. Qed.

(** ** Schema version manager *)

Lemma qof_backend_set_error_idem q err :
  qof_backend_set_error (qof_backend_set_error q err) err = qof_backend_set_error q err.
Proof.
  unfold qof_backend_set_error. destruct q as [e p]; cbn.
  destruct e, err; reflexivity.
Qed.

(** C7: whatever the version cache holds for a table, also a nonzero value,
    gnc_sql_get_table_version returns 0 while the backend is in
    pristine-database mode. *)
Theorem get_table_version_pristine (be : GncSqlBackend) (table_name : string) :
  is_pristine_db be = true -> gnc_sql_get_table_version be table_name = 0.
Proof. intros H. unfold gnc_sql_get_table_version. rewrite H. reflexivity. Qed.

Lemma get_table_version_pristine_witness :
  versions (sql_be (mem pristine_world)) !! "foo" = Some 2
  /\ gnc_sql_get_table_version (sql_be (mem pristine_world)) "foo" = 0.
Proof.
  split; [reflexivity |].
  apply (get_table_version_pristine (sql_be (mem pristine_world)) "foo"). reflexivity.
Defined.

Lemma execute_nonselect_sql_run (sql : string) (w : World) :
  let be := sql_be (mem w) in
  let created := createStatementFromSql (conn be) (trace w) sql in
  trace (world_after (gnc_sql_execute_nonselect_sql sql) w)
    = trace w ++ statement_calls be (trace w) sql
  /\ mem (world_after (gnc_sql_execute_nonselect_sql sql) w)
    = (if created then mem w
       else set_sql_be (set_qof_be (qof_backend_set_error (qof_be be) ERR_BACKEND_SERVER_ERR) be) (mem w)).
Proof.
  unfold gnc_sql_execute_nonselect_sql, gnc_sql_create_statement_from_sql,
    gnc_sql_connection_create_statement_from_sql, gnc_sql_connection_execute_nonselect_statement,
    statement_calls.
  run_m. destruct (createStatementFromSql _ _ _); run_m.
  - rewrite <- app_assoc. split; [reflexivity|]. destruct (mem w); reflexivity.
  - split; reflexivity.
Qed.

Lemma set_table_version_nonpositive table_name version w :
  version <= 0 -> gnc_sql_set_table_version table_name version w = (false, w).
Proof.
  intros Hv. unfold gnc_sql_set_table_version.
  replace (0 <? version) with false by (symmetry; apply Z.ltb_ge; lia).
  reflexivity.
Qed.

Lemma execute_nonselect_sql_result (sql : string) (w : World) :
  result (gnc_sql_execute_nonselect_sql sql) w
  = if createStatementFromSql (conn (sql_be (mem w))) (trace w) sql
    then executeNonSelectStatement (conn (sql_be (mem w)))
           (trace w ++ [CreateStatementFromSql sql]) {| stmt_sql := sql; stmt_where := [] |}
    else -1.
Proof.
  unfold gnc_sql_execute_nonselect_sql, gnc_sql_create_statement_from_sql,
    gnc_sql_connection_create_statement_from_sql, gnc_sql_connection_execute_nonselect_statement.
  run_m. destruct (createStatementFromSql _ _ _); run_m; reflexivity.
Qed.

Lemma set_table_version_run table_name version w :
  0 < version ->
  let be := sql_be (mem w) in
  let cur_version := gnc_sql_get_table_version be table_name in
  let sql := version_sql cur_version table_name version in
  let status := result (gnc_sql_execute_nonselect_sql sql) w in
  gnc_sql_set_table_version table_name version w
  = (true,
     {| mem := set_sql_be
                 (with_version table_name version
                    (if (cur_version =? version) then qof_be be
                     else if status =? -1
                          then qof_backend_set_error (qof_be be) ERR_BACKEND_SERVER_ERR
                          else qof_be be) be) (mem w);
        trace := if cur_version =? version then trace w
                 else trace w ++ statement_calls be (trace w) sql |}).
Proof.
  intros Hv. cbv zeta. destruct w as [[b bk pl] t]. cbn [mem trace sql_be].
  set (cur_version := gnc_sql_get_table_version b table_name).
  set (sql := version_sql cur_version table_name version).
  set (status := result (gnc_sql_execute_nonselect_sql sql) _).
  unfold gnc_sql_set_table_version.
  replace (0 <? version) with true by (symmetry; apply Z.ltb_lt; lia).
  cbn [negb]. run_m. fold cur_version. fold sql.
  destruct (cur_version =? version) eqn:Hcur; cbn [negb]; run_m.
  - unfold with_version. destruct b; reflexivity.
  - pose proof (execute_nonselect_sql_run sql {| mem := {| sql_be := b; the_book := bk; post_load_commodities := pl |}; trace := t |}) as [Ht Hm].
    pose proof (execute_nonselect_sql_result sql {| mem := {| sql_be := b; the_book := bk; post_load_commodities := pl |}; trace := t |}) as Hr.
    unfold world_after, result in Ht, Hm, Hr. unfold result in status. subst status.
    cbn [mem trace sql_be] in *.
    destruct (gnc_sql_execute_nonselect_sql sql _) as [st [m1 t1]] eqn:Hrun.
    cbn [fst snd mem trace] in *. subst t1.
    destruct (createStatementFromSql (conn b) t sql) eqn:Hc; subst m1.
    + destruct (st =? -1); run_m; unfold with_version; destruct b; reflexivity.
    + subst st. cbn [Z.eqb]. run_m.
      replace (-1 =? -1) with true by reflexivity. run_m.
      unfold with_version. destruct b; cbn.
      rewrite qof_backend_set_error_idem. reflexivity.
Qed.

(** C6, as stated, fails in pristine mode: the cache already maps "foo" to
    the requested version 2, yet an INSERT is created and executed. *)
Lemma pristine_cache_hit_still_inserts :
  versions (sql_be (mem pristine_world)) !! "foo" = Some 2
  /\ trace pristine_world = []
  /\ trace (world_after (gnc_sql_set_table_version "foo" 2) pristine_world)
     = [CreateStatementFromSql "INSERT INTO versions VALUES('foo',2)";
        ExecuteNonSelectStatement
          {| stmt_sql := "INSERT INTO versions VALUES('foo',2)"; stmt_where := [] |}].
Proof. repeat split; reflexivity. Qed.

(** C6, amended: gnc_sql_set_table_version rejects a version that is not
    positive without touching anything.  For a positive version it compares
    the request with the current version as gnc_sql_get_table_version
    reports it (0 in pristine mode, else the cached value, 0 when absent):
    when they are equal no call reaches the connection; when the current
    version is 0 an INSERT is issued, when it is another nonzero value an
    UPDATE; and in each of these cases the cache afterwards maps the table
    to the requested version. *)
Theorem set_table_version_statements (table_name : string) (version : Z) (w : World) :
  let be := sql_be (mem w) in
  let cur_version := gnc_sql_get_table_version be table_name in
  let run := gnc_sql_set_table_version table_name version in
  (version <= 0 -> result run w = false /\ world_after run w = w)
  /\ (0 < version ->
      result run w = true
      /\ versions (be_after run w) !! table_name = Some version
      /\ (cur_version = version -> trace (world_after run w) = trace w)
      /\ (cur_version = 0 ->
          trace (world_after run w)
          = trace w ++ statement_calls be (trace w)
              ("INSERT INTO versions VALUES('" +:+ table_name +:+ "',"
               +:+ pretty version +:+ ")"))
      /\ (cur_version <> 0 -> cur_version <> version ->
          trace (world_after run w)
          = trace w ++ statement_calls be (trace w)
              ("UPDATE versions SET table_version=" +:+ pretty version
               +:+ " WHERE table_name='" +:+ table_name +:+ "'"))).
Proof.
  cbv zeta. split.
  - intros Hv. unfold result, world_after.
    rewrite set_table_version_nonpositive by assumption. split; reflexivity.
  - intros Hv. unfold result, be_after, world_after.
    rewrite set_table_version_run by assumption. cbn [fst snd mem trace sql_be set_sql_be].
    repeat split.
    + unfold with_version. cbn. apply lookup_insert_eq.
    + intros ->. rewrite Z.eqb_refl. reflexivity.
    + intros Hz. rewrite Hz.
      replace (0 =? version) with false by (symmetry; apply Z.eqb_neq; lia).
      reflexivity.
    + intros Hnz Hne.
      replace (_ =? version) with false by (symmetry; apply Z.eqb_neq; assumption).
      unfold version_sql.
      replace (_ =? 0) with false by (symmetry; apply Z.eqb_neq; assumption).
      reflexivity.
Qed.

Lemma set_table_version_statements_witness :
  gnc_sql_get_table_version (sql_be (mem steady_world)) "foo" = 2
  /\ trace (world_after (gnc_sql_set_table_version "foo" 2) steady_world) = []
  /\ trace (world_after (gnc_sql_set_table_version "foo" 3) steady_world)
     = [CreateStatementFromSql "UPDATE versions SET table_version=3 WHERE table_name='foo'";
        ExecuteNonSelectStatement
          {| stmt_sql := "UPDATE versions SET table_version=3 WHERE table_name='foo'";
             stmt_where := [] |}]
  /\ trace (world_after (gnc_sql_set_table_version "bar" 1) steady_world)
     = [CreateStatementFromSql "INSERT INTO versions VALUES('bar',1)";
        ExecuteNonSelectStatement
          {| stmt_sql := "INSERT INTO versions VALUES('bar',1)"; stmt_where := [] |}]
  /\ world_after (gnc_sql_set_table_version "foo" 0) steady_world = steady_world.
Proof.
  split; [reflexivity |].
  split.
  { destruct (set_table_version_statements "foo" 2 steady_world) as [_ H].
    destruct (H ltac:(lia)) as (_ & _ & Hsame & _).
    rewrite Hsame; reflexivity. }
  split.
  { destruct (set_table_version_statements "foo" 3 steady_world) as [_ H].
    destruct (H ltac:(lia)) as (_ & _ & _ & _ & Hupd).
    rewrite Hupd; [reflexivity | vm_compute; discriminate | vm_compute; discriminate]. }
  split.
  { destruct (set_table_version_statements "bar" 1 steady_world) as [_ H].
    destruct (H ltac:(lia)) as (_ & _ & _ & Hins & _).
    rewrite Hins; reflexivity. }
  destruct (set_table_version_statements "foo" 0 steady_world) as [H _].
  apply H. lia.
Defined.

(** C10: for a positive version gnc_sql_set_table_version returns TRUE and
    the cache afterwards maps the table to the requested version, also when
    the statement it issues fails (gnc_sql_execute_nonselect_sql returns
    -1); the failure changes nothing but the error slot, which receives
    ERR_BACKEND_SERVER_ERR, so the cache can hold a version the persisted
    table never took. *)
Theorem set_table_version_failure_keeps_cache (table_name : string) (version : Z) (w : World) :
  0 < version ->
  let be := sql_be (mem w) in
  let cur_version := gnc_sql_get_table_version be table_name in
  let run := gnc_sql_set_table_version table_name version in
  result run w = true
  /\ versions (be_after run w) = <[table_name := version]> (versions be)
  /\ (cur_version <> version ->
      result (gnc_sql_execute_nonselect_sql (version_sql cur_version table_name version)) w = -1 ->
      mem (world_after run w)
      = set_sql_be
          (with_version table_name version
             (qof_backend_set_error (qof_be be) ERR_BACKEND_SERVER_ERR) be)
          (mem w)).
Proof.
  intros Hv. cbv zeta. unfold result at 1. unfold be_after, world_after.
  rewrite set_table_version_run by assumption. cbn [fst snd mem trace sql_be set_sql_be].
  repeat split.
  intros Hne Hst.
  replace (_ =? version) with false by (symmetry; apply Z.eqb_neq; assumption).
  rewrite Hst. reflexivity.
Qed.

Lemma set_table_version_failure_keeps_cache_witness :
  result (gnc_sql_execute_nonselect_sql
            "UPDATE versions SET table_version=5 WHERE table_name='foo'") refused_world = -1
  /\ result (gnc_sql_set_table_version "foo" 5) refused_world = true
  /\ versions (be_after (gnc_sql_set_table_version "foo" 5) refused_world) !! "foo" = Some 5
  /\ last_err (qof_be (be_after (gnc_sql_set_table_version "foo" 5) refused_world))
     = ERR_BACKEND_SERVER_ERR.
Proof.
  split; [reflexivity |].
  destruct (set_table_version_failure_keeps_cache "foo" 5 refused_world ltac:(lia))
    as (Hr & Hv & Hm).
  split; [exact Hr |].
  split; [rewrite Hv; reflexivity |].
  unfold be_after. rewrite Hm; [reflexivity | vm_compute; discriminate | reflexivity].
Defined.

(** ** The column-type handlers and the statement builders *)

Section MarshallerFacts.
Context {Obj : Type} `{!ObjectLayer Obj} `{!DateLib}.

Lemma get_handler_numeric (table_row : GncSqlColumnTableEntry Obj) :
  col_type table_row = CT_NUMERIC ->
  get_handler standard_col_type_handlers table_row = Some numeric_handler.
Proof. intros Hkind. unfold get_handler. rewrite Hkind. reflexivity. Qed.

Lemma get_handler_date (table_row : GncSqlColumnTableEntry Obj) :
  col_type table_row = CT_GDATE ->
  get_handler standard_col_type_handlers table_row = Some date_handler.
Proof. intros Hkind. unfold get_handler. rewrite Hkind. reflexivity. Qed.

Lemma get_handler_timespec (table_row : GncSqlColumnTableEntry Obj) :
  col_type table_row = CT_TIMESPEC ->
  get_handler standard_col_type_handlers table_row = Some timespec_handler.
Proof. intros Hkind. unfold get_handler. rewrite Hkind. reflexivity. Qed.

(** C8: for every descriptor of the fixed-point-rational kind, serializing
    an object whose property holds 7/100 appends exactly the two pairs
    (<name>_num, "7") and (<name>_denom, "100"), in this order. *)
Theorem numeric_7_100_serializes_to_two_pairs
    (be : GncSqlBackend) (obj_name : string) (pObject : Obj)
    (table_row : GncSqlColumnTableEntry Obj) (vec : PairVec) :
  col_type table_row = CT_NUMERIC ->
  holds_property obj_name pObject table_row (PNumeric (gnc_numeric_create 7 100)) ->
  exists handler,
    get_handler standard_col_type_handlers table_row = Some handler
    /\ add_value_to_vec_fn handler be obj_name pObject table_row vec
       = Some (vec ++ [(col_name table_row +:+ "_num", "7");
                       (col_name table_row +:+ "_denom", "100")]).
Proof.
  intros Hkind Hprop. exists numeric_handler. split; [by apply get_handler_numeric |].
  cbn [add_value_to_vec_fn numeric_handler]. unfold add_numeric_to_vec.
  unfold holds_property in Hprop.
  destruct (gobj_param_name table_row) as [name |].
  - rewrite Hprop. cbn. rewrite <- app_assoc. reflexivity.
  - destruct Hprop as (g & -> & ->). cbn. rewrite <- app_assoc. reflexivity.
Qed.

(** C1, amended: for every descriptor of the fixed-point-rational kind, the
    load on a row that has no <name>_denom column leaves the target as it
    was, whether or not the row has a <name>_num column: the rational with
    denominator 1 is built and then dropped. *)
Theorem load_numeric_without_denom_leaves_target
    (be : GncSqlBackend) (row : GncSqlRow) (setter : option (Obj -> PropValue -> Obj))
    (pObject : Obj) (table_row : GncSqlColumnTableEntry Obj) :
  col_type table_row = CT_NUMERIC ->
  row !! (col_name table_row +:+ "_denom") = None ->
  exists handler,
    get_handler standard_col_type_handlers table_row = Some handler
    /\ load_fn handler be row setter pObject table_row = pObject.
Proof.
  intros Hkind Hdenom. exists numeric_handler. split; [by apply get_handler_numeric |].
  cbn [load_fn numeric_handler]. unfold load_numeric, gnc_sql_row_get_value_at_col_name.
  rewrite Hdenom.
  destruct (has_accessor table_row setter); cbn [negb]; [| reflexivity].
  destruct (row !! (col_name table_row +:+ "_num")); reflexivity.
Qed.

(** C2, amended: on a row in which the column is null, the calendar-date
    handler leaves the target as it was, and the timestamp handler stores
    the zero timestamp (0 s, 0 ns) through the descriptor's accessor. *)
Theorem load_null_date_and_timespec
    (be : GncSqlBackend) (row : GncSqlRow) (setter : option (Obj -> PropValue -> Obj))
    (pObject : Obj) (table_row : GncSqlColumnTableEntry Obj) :
  row !! col_name table_row = None ->
  (col_type table_row = CT_GDATE ->
   exists handler,
     get_handler standard_col_type_handlers table_row = Some handler
     /\ load_fn handler be row setter pObject table_row = pObject)
  /\ (col_type table_row = CT_TIMESPEC ->
      exists handler,
        get_handler standard_col_type_handlers table_row = Some handler
        /\ load_fn handler be row setter pObject table_row
           = store_bracketed table_row setter pObject
               (PTimespec {| tv_sec := 0; tv_nsec := 0 |})).
Proof.
  intros Hnull. split; intros Hkind.
  - exists date_handler. split; [by apply get_handler_date |].
    cbn [load_fn date_handler]. unfold load_date, gnc_sql_row_get_value_at_col_name.
    rewrite Hnull. destruct (negb _); reflexivity.
  - exists timespec_handler. split; [by apply get_handler_timespec |].
    cbn [load_fn timespec_handler].
    unfold load_timespec, gnc_sql_row_get_value_at_col_name, store_bracketed, has_accessor.
    rewrite Hnull.
    destruct (gobj_param_name table_row) as [name |]; [reflexivity |].
    destruct setter as [f |]; reflexivity.
Qed.

End MarshallerFacts.

Lemma numeric_7_100_serializes_to_two_pairs_witness :
  col_type amount_column = CT_NUMERIC
  /\ holds_property "Split" bag_7_100 amount_column (PNumeric (gnc_numeric_create 7 100))
  /\ exists handler,
       get_handler standard_col_type_handlers amount_column = Some handler
       /\ add_value_to_vec_fn handler (sql_be (mem steady_world)) "Split" bag_7_100
            amount_column []
          = Some [("amount_num", "7"); ("amount_denom", "100")].
Proof.
  assert (Hp : holds_property "Split" bag_7_100 amount_column
                 (PNumeric (gnc_numeric_create 7 100))).
  { exists (bag_getter "amount"). split; reflexivity. }
  split; [reflexivity |]. split; [exact Hp |].
  exact (numeric_7_100_serializes_to_two_pairs (sql_be (mem steady_world)) "Split"
           bag_7_100 amount_column [] eq_refl Hp).
Defined.

(** C1, as stated, fails: the row has amount_num = 7 and no amount_denom;
    the target is left empty instead of holding 7/1. *)
Lemma numerator_only_row_is_not_stored :
  col_type amount_column = CT_NUMERIC
  /\ numerator_only_row !! "amount_num" = Some (GInt64 7)
  /\ numerator_only_row !! "amount_denom" = None
  /\ load_numeric (sql_be (mem steady_world)) numerator_only_row (setter amount_column)
       empty_bag amount_column = empty_bag
  /\ ~ holds_property "Split"
         (load_numeric (sql_be (mem steady_world)) numerator_only_row
            (setter amount_column) empty_bag amount_column)
         amount_column (PNumeric (gnc_numeric_create 7 1)).
Proof.
  split; [reflexivity |].
  split; [reflexivity |]. split; [reflexivity |]. split; [reflexivity |].
  intros (g & Hg & Hv). injection Hg as <-. discriminate Hv.
Qed.

Lemma load_numeric_without_denom_leaves_target_witness :
  col_type amount_column = CT_NUMERIC
  /\ numerator_only_row !! (col_name amount_column +:+ "_denom") = None
  /\ exists handler,
       get_handler standard_col_type_handlers amount_column = Some handler
       /\ load_fn handler (sql_be (mem steady_world)) numerator_only_row
            (setter amount_column) bag_7_100 amount_column = bag_7_100.
Proof.
  split; [reflexivity |]. split; [reflexivity |].
  exact (load_numeric_without_denom_leaves_target (sql_be (mem steady_world))
           numerator_only_row (setter amount_column) bag_7_100 amount_column
           eq_refl eq_refl).
Defined.

(** C2, as stated, fails for the timestamp kind: the column is null and the
    posted date 1000 is overwritten with the zero timestamp. *)
Lemma null_timespec_overwrites_target :
  col_type post_date_column = CT_TIMESPEC
  /\ empty_row !! col_name post_date_column = None
  /\ holds_property "Trans" bag_posted post_date_column
       (PTimespec {| tv_sec := 1000; tv_nsec := 0 |})
  /\ holds_property "Trans"
       (load_timespec (sql_be (mem steady_world)) empty_row (setter post_date_column)
          bag_posted post_date_column)
       post_date_column (PTimespec {| tv_sec := 0; tv_nsec := 0 |})
  /\ load_timespec (sql_be (mem steady_world)) empty_row (setter post_date_column)
       bag_posted post_date_column <> bag_posted.
Proof.
  split; [reflexivity |]. split; [reflexivity |].
  split; [exists (bag_getter "post_date"); split; reflexivity |].
  split; [exists (bag_getter "post_date"); split; reflexivity |].
  discriminate.
Qed.

Lemma load_null_date_and_timespec_witness :
  empty_row !! col_name post_date_column = None
  /\ col_type post_date_column = CT_TIMESPEC
  /\ (exists handler,
        get_handler standard_col_type_handlers post_date_column = Some handler
        /\ load_fn handler (sql_be (mem steady_world)) empty_row (setter post_date_column)
             bag_posted post_date_column
           = bag_set bag_posted "post_date" (PTimespec {| tv_sec := 0; tv_nsec := 0 |}))
  /\ empty_row !! col_name date_opened_column = None
  /\ col_type date_opened_column = CT_GDATE
  /\ (exists handler,
        get_handler standard_col_type_handlers date_opened_column = Some handler
        /\ load_fn handler (sql_be (mem steady_world)) empty_row
             (setter date_opened_column) bag_posted date_opened_column
           = bag_posted).
Proof.
  split; [reflexivity |]. split; [reflexivity |].
  split.
  { exact (proj2 (load_null_date_and_timespec (sql_be (mem steady_world)) empty_row
                    (setter post_date_column) bag_posted post_date_column eq_refl)
                 eq_refl). }
  split; [reflexivity |]. split; [reflexivity |].
  exact (proj1 (load_null_date_and_timespec (sql_be (mem steady_world)) empty_row
                  (setter date_opened_column) bag_posted date_opened_column eq_refl)
               eq_refl).
Defined.

(** The WHERE vector of a built UPDATE is the first pair of the serialized
    values, whichever descriptor it came from. *)
Lemma build_update_statement_where {Obj : Type} `{!ObjectLayer Obj} `{!DateLib}
    (g_columnTypeHash : gmap string (GncSqlColumnTypeHandler Obj))
    (table_name obj_name : string) (pObject : Obj)
    (table : list (GncSqlColumnTableEntry Obj)) (w : World) (stmt : GncSqlStatement) :
  result (build_update_statement g_columnTypeHash table_name obj_name pObject table) w
  = Some stmt ->
  exists first rest,
    get_object_values g_columnTypeHash (sql_be (mem w)) obj_name pObject table
    = Some (first :: rest)
    /\ stmt_where stmt = [[first]].
Proof.
  unfold result, build_update_statement. rewrite (run_bind get_be). cbn [get_be fst snd].
  destruct (get_object_values _ _ _ _ _) as [values |]; [| discriminate].
  rewrite run_bind.
  match goal with
  | |- context [gnc_sql_connection_create_statement_from_sql ?q w] =>
      assert (Hs : forall s, (gnc_sql_connection_create_statement_from_sql q w).1 = Some s ->
                             stmt_where s = []);
      [| destruct (gnc_sql_connection_create_statement_from_sql q w).1 as [s |] eqn:Hc]
  end.
  { intros s. unfold gnc_sql_connection_create_statement_from_sql.
    rewrite !run_bind. cbn [get_be get_trace emit ret fst snd mem trace].
    destruct (createStatementFromSql _ _ _); [| discriminate].
    intros [= <-]. reflexivity. }
  - destruct values as [| first rest]; [discriminate |].
    intros [= <-]. exists first, rest. split; [reflexivity |].
    unfold gnc_sql_statement_add_where_cond. cbn [stmt_where].
    rewrite (Hs s eq_refl). reflexivity.
  - destruct values; discriminate.
Qed.

(** C5 on a table whose first descriptor is an auto-increment key: the
    UPDATE that build_update_statement builds carries the second
    descriptor's pair (recurrence_mult, 2) in its WHERE clause, not the
    first descriptor's column id, whereas build_delete_statement keys its
    WHERE clause on the first descriptor. *)
Theorem build_update_statement_autoinc_first :
  result (build_update_statement standard_col_type_handlers "recurrences" "Recurrence"
            monthly_recurrence recurrence_like_table) steady_world
  = Some {| stmt_sql :=
              "UPDATE recurrences SET recurrence_mult='2',recurrence_period_type='month'";
            stmt_where := [[("recurrence_mult", "2")]] |}
  /\ result (build_delete_statement standard_col_type_handlers "recurrences" "Recurrence"
               monthly_recurrence recurrence_like_table) steady_world
     = Some {| stmt_sql := "DELETE FROM recurrences"; stmt_where := [[("id", "0")]] |}.
Proof. split; reflexivity. Qed.

(** ** Initial load and per-instance commit *)

Lemma Returns_ret {A : Type} (a : A) : Returns (mret a) a.
Proof. intros w. reflexivity. Qed.

Lemma Returns_bind {A B : Type} (c : M A) (k : A -> M B) (b : B) :
  (forall a, Returns (k a) b) -> Returns (c ≫= k) b.
Proof.
  intros Hk w. unfold result, mbind, M_bind, bind.
  destruct (c w) as [a w1]. apply (Hk a w1).
Qed.

Lemma map_fst_filter {A B : Type} (p : A * B -> bool) (l : list (A * B)) :
  map fst (List.filter p l) = concat (map (fun e => if p e then [e.1] else []) l).
Proof.
  induction l as [| e l IH]; [reflexivity |].
  cbn. destruct (p e); cbn; by rewrite IH.
Qed.

Lemma initial_loads_app (t t' : list Call) :
  initial_loads (t ++ t') = initial_loads t ++ initial_loads t'.
Proof. apply omap_app. Qed.

Lemma Loads_ret {A : Type} (a : A) : Loads (mret a) [].
Proof. intros w. run_m. by rewrite app_nil_r. Qed.

Lemma Loads_bind {A B : Type} (c : M A) (k : A -> M B) (X Y : list string) :
  Loads c X -> (forall a, Loads (k a) Y) -> Loads (c ≫= k) (X ++ Y).
Proof.
  intros Hc Hk w. specialize (Hc w). unfold world_after in Hc |- *.
  unfold mbind, M_bind, bind. destruct (c w) as [a w1]. cbn [snd] in Hc.
  specialize (Hk a w1). unfold world_after in Hk.
  rewrite Hk, Hc, app_assoc. reflexivity.
Qed.

Lemma Loads_emit (c : Call) : Loads (emit c) (initial_loads [c]).
Proof. intros w. run_m. apply initial_loads_app. Qed.

Lemma Loads_modify_mem (f : Memory -> Memory) : Loads (modify_mem f) [].
Proof. intros w. run_m. by rewrite app_nil_r. Qed.

Lemma Loads_modify_be (f : GncSqlBackend -> GncSqlBackend) : Loads (modify_be f) [].
Proof. apply Loads_modify_mem. Qed.

Lemma Loads_get_be : Loads get_be [].
Proof. intros w. run_m. by rewrite app_nil_r. Qed.

Lemma Loads_update_progress : Loads update_progress [].
Proof.
  unfold update_progress. change (@nil string) with (@nil string ++ []).
  apply Loads_bind; [apply Loads_get_be |]. intros be.
  unfold when. destruct (percentage _); [apply (Loads_emit (Percentage 101)) | apply Loads_ret].
Qed.

Lemma Loads_finish_progress : Loads finish_progress [].
Proof.
  unfold finish_progress. change (@nil string) with (@nil string ++ []).
  apply Loads_bind; [apply Loads_get_be |]. intros be.
  unfold when. destruct (percentage _); [apply (Loads_emit (Percentage (-1))) | apply Loads_ret].
Qed.

Lemma Loads_for_each {A : Type} (l : list A) (body : A -> M unit) (F : A -> list string) :
  (forall x, Loads (body x) (F x)) -> Loads (for_each l body) (concat (map F l)).
Proof.
  intros Hbody. induction l as [| x l IH]; cbn [for_each map concat].
  - apply Loads_ret.
  - apply Loads_bind; [apply Hbody | intros _; apply IH].
Qed.

Lemma concat_map_filter {A : Type} (p : A -> bool) (l : list A) :
  concat (map (fun x => if p x then [x] else []) l) = List.filter p l.
Proof.
  induction l as [| x l IH]; [reflexivity |].
  cbn. destruct (p x); cbn; by rewrite IH.
Qed.

Lemma find_registered (registry : OBEVec) (type : string) :
  registered registry type ->
  exists entry,
    List.find (fun entry : OBEEntry => String.eqb type entry.1) registry = Some entry
    /\ entry.1 = type.
Proof.
  intros [obe Hin].
  destruct (List.find _ registry) as [entry |] eqn:Hfind.
  - exists entry. split; [reflexivity |].
    apply find_some in Hfind as [_ Heq]. apply String.eqb_eq in Heq. by symmetry.
  - apply list_elem_of_In in Hin. apply (find_none _ _ Hfind) in Hin.
    cbn in Hin. by rewrite String.eqb_refl in Hin.
Qed.

Lemma load_in_order_registered (registry : OBEVec) (type : string) :
  registered registry type ->
  Returns (load_in_order registry type) (Some tt)
  /\ Loads (load_in_order registry type)
           (if listed_with_callback registry type then [type] else []).
Proof.
  intros Hreg. apply find_registered in Hreg as (entry & Hfind & <-).
  unfold load_in_order, listed_with_callback. rewrite Hfind.
  destruct (obe_initial_load entry.2) as [f |].
  - rewrite bool_decide_eq_true_2 by eauto. split.
    + repeat (apply Returns_bind; intros _). apply Returns_ret.
    + change [entry.1] with ([] ++ [entry.1] ++ [] ++ []).
      apply Loads_bind; [apply Loads_update_progress |]. intros _.
      apply Loads_bind; [apply (Loads_emit (InitialLoad entry.1)) |]. intros _.
      apply Loads_bind; [apply Loads_modify_mem |]. intros _.
      apply Loads_ret.
  - rewrite bool_decide_eq_false_2 by (intros [? ?]; discriminate).
    split; [apply Returns_ret | apply Loads_ret].
Qed.

Lemma for_each_defined_run {A : Type} (l : list A) (body : A -> M (option unit))
    (F : A -> list string) :
  (forall x, x ∈ l -> Returns (body x) (Some tt) /\ Loads (body x) (F x)) ->
  Returns (for_each_defined l body) (Some tt)
  /\ Loads (for_each_defined l body) (concat (map F l)).
Proof.
  induction l as [| x l IH]; intros Hbody; cbn [for_each_defined map concat].
  - split; [apply Returns_ret | apply Loads_ret].
  - destruct (Hbody x ltac:(left)) as [Hr Hl].
    destruct IH as [IHr IHl]; [intros y Hy; apply Hbody; by right |].
    split; intros w; specialize (Hr w); specialize (Hl w);
      unfold result, world_after in *; rewrite run_bind, Hr.
    + apply IHr.
    + specialize (IHl (body x w).2). unfold world_after in IHl.
      rewrite IHl, Hl, app_assoc. reflexivity.
Qed.

Lemma then_defined {B : Type} (c : M (option unit)) (k kNone : M B)
    (X Y : list string) (b : B) :
  Returns c (Some tt) -> Loads c X -> Returns k b -> Loads k Y ->
  Returns (r ← c; match r with Some _ => k | None => kNone end) b
  /\ Loads (r ← c; match r with Some _ => k | None => kNone end) (X ++ Y).
Proof.
  intros Hr Hl Hkr Hkl.
  split; intros w; specialize (Hr w); specialize (Hl w);
    unfold result, world_after in *; rewrite run_bind, Hr.
  - apply Hkr.
  - specialize (Hkl (c w).2). unfold world_after in Hkl.
    rewrite Hkl, Hl, app_assoc. reflexivity.
Qed.

Lemma Loads_initial_load (other : StrVec) (entry : OBEEntry) :
  Loads (initial_load other entry)
        (if unlisted_with_callback other entry then [entry.1] else []).
Proof.
  unfold initial_load, unlisted_with_callback. destruct entry as [type obe]. cbn [fst snd].
  destruct (obe_version obe =? GNC_SQL_BACKEND_VERSION); cbn [negb andb]; [| apply Loads_ret].
  destruct (bool_decide (type ∈ fixed_load_order)); cbn [negb andb]; [apply Loads_ret |].
  destruct (bool_decide (type ∈ other)); cbn [negb andb]; [apply Loads_ret |].
  destruct (obe_initial_load obe) as [f |].
  - rewrite bool_decide_eq_true_2 by eauto.
    change [type] with ([type] ++ []).
    apply Loads_bind; [apply (Loads_emit (InitialLoad type)) |]. intros _.
    apply Loads_modify_mem.
  - rewrite bool_decide_eq_false_2 by (intros [? ?]; discriminate). apply Loads_ret.
Qed.

Lemma concat_map_nil {A B : Type} (l : list A) :
  concat (map (fun _ : A => @nil B) l) = [].
Proof. induction l; [reflexivity | assumption]. Qed.

Lemma Loads_commit_post_load_commodities : Loads commit_post_load_commodities [].
Proof.
  intros w. unfold commit_post_load_commodities.
  pose proof (Loads_bind
                (for_each (post_load_commodities (mem w))
                   (fun comm => emit (CommitCommodity comm)))
                (fun _ => modify_mem (set_post_load_commodities []))
                (concat (map (fun _ => []) (post_load_commodities (mem w)))) []) as H.
  rewrite concat_map_nil in H. apply H.
  - rewrite <- (concat_map_nil (B := string) (post_load_commodities (mem w))).
    apply Loads_for_each. intros comm. apply (Loads_emit (CommitCommodity comm)).
  - intros _. apply Loads_modify_mem.
Qed.

(** The part of an initial load that follows the assertion on [be->book]. *)
Lemma initial_phase_run (registry : OBEVec) (other : StrVec) :
  (forall type, type ∈ fixed_load_order ++ other -> registered registry type) ->
  let phase :=
    (modify_be (set_book TheBook);;
     fixed_done ← for_each_defined fixed_load_order (load_in_order registry);
     match fixed_done with
     | None => ret None
     | Some _ =>
         other_done ← for_each_defined other (load_in_order registry);
         match other_done with
         | None => ret None
         | Some _ =>
             emit AccountForeachDescendantBeginEdit;;
             for_each registry (initial_load other);;
             emit AccountForeachDescendantCommitEdit;;
             ret (Some tt)
         end
     end) in
  Returns phase (Some tt) /\ Loads phase (load_sequence registry other).
Proof.
  intros Hreg. cbv zeta.
  unfold load_sequence, OBEVec, OBEEntry in *. rewrite List.filter_app, map_fst_filter.
  rewrite <- !concat_map_filter.
  set (L := fun type => if listed_with_callback registry type then [type] else []).
  set (X3 := concat (map (fun e => if unlisted_with_callback other e then [e.1] else [])
                       registry)).
  pose proof (for_each_defined_run fixed_load_order (load_in_order registry) L) as [Hr1 Hl1].
  { intros type Hin. apply load_in_order_registered, Hreg, elem_of_app. by left. }
  pose proof (for_each_defined_run other (load_in_order registry) L) as [Hr2 Hl2].
  { intros type Hin. apply load_in_order_registered, Hreg, elem_of_app. by right. }
  assert (Hr3 : Returns (emit AccountForeachDescendantBeginEdit;;
                         for_each registry (initial_load other);;
                         emit AccountForeachDescendantCommitEdit;;
                         ret (Some tt)) (Some tt)).
  { repeat (apply Returns_bind; intros _). apply Returns_ret. }
  assert (Hl3 : Loads (emit AccountForeachDescendantBeginEdit;;
                       for_each registry (initial_load other);;
                       emit AccountForeachDescendantCommitEdit;;
                       ret (Some tt)) X3).
  { replace X3 with ([] ++ X3 ++ [] ++ []) by (cbn; by rewrite app_nil_r).
    apply Loads_bind; [apply (Loads_emit AccountForeachDescendantBeginEdit) | intros _].
    apply Loads_bind; [apply Loads_for_each; intros; apply Loads_initial_load | intros _].
    apply Loads_bind; [apply (Loads_emit AccountForeachDescendantCommitEdit) | intros _].
    apply Loads_ret. }
  destruct (then_defined _ _ (ret None) _ _ _ Hr2 Hl2 Hr3 Hl3) as [Hr23 Hl23].
  destruct (then_defined _ _ (ret None) _ _ _ Hr1 Hl1 Hr23 Hl23) as [Hr Hl].
  split.
  - apply Returns_bind. intros _. exact Hr.
  - rewrite <- app_assoc. change (Loads ?c ?X) with (Loads c ([] ++ X)).
    apply Loads_bind; [apply Loads_modify_be | intros _; exact Hl].
Qed.

Lemma Loads_load_epilogue :
  Loads (modify_be (set_loading false);;
         commit_post_load_commodities;;
         qof_book_mark_session_saved TheBook;;
         finish_progress;;
         ret (Some tt)) [].
Proof.
  change (@nil string) with (@nil string ++ [] ++ [] ++ [] ++ []).
  apply Loads_bind; [apply Loads_modify_be | intros _].
  apply Loads_bind; [apply Loads_commit_post_load_commodities | intros _].
  apply Loads_bind; [apply Loads_modify_mem | intros _].
  apply Loads_bind; [apply Loads_finish_progress | intros _].
  apply Loads_ret.
Qed.

Lemma load_sequence_once (registry : OBEVec) (other : StrVec) (type : string) :
  NoDup (fixed_load_order ++ other) ->
  type ∈ fixed_load_order ++ other ->
  listed_with_callback registry type = true ->
  count_occ String.string_dec (load_sequence registry other) type = 1%nat.
Proof.
  intros Hnd Hin Hcb. unfold load_sequence. rewrite count_occ_app.
  rewrite (proj1 (NoDup_count_occ' String.string_dec _)).
  - rewrite (proj1 (count_occ_not_In String.string_dec _ _)); [reflexivity |].
    intros Hin3. apply in_map_iff in Hin3 as (entry & <- & Hentry).
    apply filter_In in Hentry as [_ Hun]. unfold unlisted_with_callback in Hun.
    apply andb_prop in Hun as [Hun _]. apply andb_prop in Hun as [Hun Ho].
    apply andb_prop in Hun as [_ Hf].
    apply negb_true_iff, bool_decide_eq_false in Ho, Hf.
    apply elem_of_app in Hin as [? | ?]; contradiction.
  - apply List.NoDup_filter. by apply NoDup_ListNoDup.
  - apply filter_In. split; [by apply list_elem_of_In | assumption].
Qed.

(** C4, amended: during an initial full load on a backend not yet attached
    to a book, with every listed type registered, the initial_load
    callbacks run in this order: for each entry of the fixed list and then
    of the extension list, in list order, the callback of the first bundle
    registered under that type, if it has one; then, in registry-insertion
    order, the callback of every registry entry whose version tag matches
    and whose type is in neither list.  When the two lists together name no
    type twice, every listed type with a callback is loaded exactly once. *)
Theorem initial_load_order (registry : OBEVec) (other : StrVec) (w : World) :
  book (sql_be (mem w)) = NullBook ->
  (forall type, type ∈ fixed_load_order ++ other -> registered registry type) ->
  let run := gnc_sql_load registry other LOAD_TYPE_INITIAL_LOAD in
  result run w = Some tt
  /\ initial_loads (trace (world_after run w))
     = initial_loads (trace w) ++ load_sequence registry other
  /\ (NoDup (fixed_load_order ++ other) ->
      forall type, type ∈ fixed_load_order ++ other ->
                   listed_with_callback registry type = true ->
                   count_occ String.string_dec (load_sequence registry other) type = 1%nat).
Proof.
  intros Hbook Hreg. cbv zeta.
  destruct (initial_phase_run registry other Hreg) as [Hret Hloads].
  pose proof Loads_load_epilogue as Hepi.
  unfold result, world_after, gnc_sql_load.
  rewrite run_bind. cbn beta.
  set (w1 := (modify_be (set_loading true) w).2).
  assert (Ht1 : trace w1 = trace w) by reflexivity.
  assert (Hb1 : book (sql_be (mem w1)) = NullBook) by exact Hbook.
  clearbody w1. rewrite run_bind. rewrite (run_bind get_be).
  cbn [get_be fst snd]. rewrite Hb1.
  specialize (Hret w1). specialize (Hloads w1). unfold result, world_after in Hret, Hloads.
  rewrite Hret. rewrite Ht1 in Hloads.
  split; [| split; [| intros; by apply load_sequence_once]].
  - apply (Returns_bind _ _ (Some tt)). intros _.
    repeat (apply Returns_bind; intros _). apply Returns_ret.
  - unfold Loads, world_after in Hepi. rewrite Hepi, Hloads, app_nil_r. reflexivity.
Qed.

Lemma initial_load_order_witness :
  book (sql_be (mem fresh_world)) = NullBook
  /\ Forall (registered business_registry) (fixed_load_order ++ business_load_order)
  /\ NoDup (fixed_load_order ++ business_load_order)
  /\ initial_loads (trace (world_after
       (gnc_sql_load business_registry business_load_order LOAD_TYPE_INITIAL_LOAD)
       fresh_world))
     = ["Book"; "Commodity"; "Account"; "Lot"; "gncBillTerm"; "gncTaxTable"; "gncInvoice";
        "Trans"; "gncCustomer"]
  /\ count_occ String.string_dec (load_sequence business_registry business_load_order)
       "Account" = 1%nat.
Proof.
  assert (Hreg : Forall (registered business_registry)
                   (fixed_load_order ++ business_load_order)).
  { repeat constructor; eexists; apply list_elem_of_In; cbn; tauto. }
  assert (Hnd : NoDup (fixed_load_order ++ business_load_order)) by compute_done.
  destruct (initial_load_order business_registry business_load_order fresh_world eq_refl
              (proj1 (Forall_forall _ _) Hreg))
    as (_ & Hloads & Honce).
  split; [reflexivity |]. split; [exact Hreg |]. split; [exact Hnd |].
  split; [rewrite Hloads; reflexivity |].
  apply (Honce Hnd "Account"); [compute_done | reflexivity].
Defined.

(** C4, as stated, fails when the extension list names a type of the fixed
    list: the Account callback runs twice. *)
Lemma type_in_both_lists_loads_twice :
  "Account" ∈ fixed_load_order
  /\ "Account" ∈ ["Account"]
  /\ book (sql_be (mem fresh_world)) = NullBook
  /\ initial_loads (trace (world_after
       (gnc_sql_load core_registry ["Account"] LOAD_TYPE_INITIAL_LOAD) fresh_world))
     = ["Book"; "Commodity"; "Account"; "Lot"; "Account"; "Trans"]
  /\ count_occ String.string_dec
       (initial_loads (trace (world_after
          (gnc_sql_load core_registry ["Account"] LOAD_TYPE_INITIAL_LOAD) fresh_world)))
       "Account" = 2%nat.
Proof.
  split; [compute_done |].
  split; [compute_done |].
  repeat split; reflexivity.
Qed.

Lemma commit_scan_no_match (registry : OBEVec) (be_data : sql_backend) (w : World) :
  (forall entry, entry ∈ registry -> entry.1 <> e_type (the_inst be_data)) ->
  for_each_with registry commit be_data w = (be_data, w).
Proof.
  induction registry as [| entry registry IH]; intros Hno; [reflexivity |].
  cbn [for_each_with]. rewrite run_bind.
  assert (Hstep : commit entry be_data w = (be_data, w)).
  { unfold commit. destruct entry as [type obe].
    destruct (obe_version obe =? GNC_SQL_BACKEND_VERSION); cbn [negb]; [| reflexivity].
    replace (String.eqb type (e_type (the_inst be_data))) with false; [reflexivity |].
    symmetry. apply String.eqb_neq. apply (Hno (type, obe)). left. }
  rewrite Hstep. cbn [fst snd]. apply IH.
  intros e He. apply Hno. by right.
Qed.

Lemma readonly_false_book (w : World) :
  result (qof_book_is_readonly (book (sql_be (mem w)))) w = false ->
  book (sql_be (mem w)) = TheBook /\ read_only (the_book (mem w)) = false.
Proof.
  unfold result, qof_book_is_readonly. destruct (book _); cbn; [discriminate | tauto].
Qed.

(** C9, amended: when the loading flag is set and the book is not reported
    read-only, gnc_sql_commit_edit returns the instance marked clean and
    leaves the world as it was: no transaction is begun, no call reaches the
    connection, and the registry plays no part in the result. *)
Theorem commit_edit_while_loading (registry : OBEVec) (inst : QofInstance) (w : World) :
  loading (sql_be (mem w)) = true ->
  result (qof_book_is_readonly (book (sql_be (mem w)))) w = false ->
  gnc_sql_commit_edit registry inst w = (qof_instance_mark_clean inst, w).
Proof.
  intros Hloading Hro. unfold gnc_sql_commit_edit.
  rewrite (run_bind get_be). cbn [get_be fst snd]. rewrite run_bind.
  unfold result in Hro. 
  assert (Hw : (qof_book_is_readonly (book (sql_be (mem w))) w).2 = w) by reflexivity.
  rewrite Hw, Hro, Hloading. reflexivity.
Qed.

Lemma commit_edit_while_loading_witness :
  loading (sql_be (mem loading_world)) = true
  /\ gnc_sql_commit_edit core_registry dirty_gizmo loading_world
     = (qof_instance_mark_clean dirty_gizmo, loading_world).
Proof.
  split; [reflexivity |].
  exact (commit_edit_while_loading core_registry dirty_gizmo loading_world eq_refl eq_refl).
Defined.

(** C9, as stated, fails on a read-only book: with the loading flag set the
    instance stays dirty and a rollback is sent to the connection. *)
Lemma loading_with_readonly_book_rolls_back :
  loading (sql_be (mem loading_readonly_world)) = true
  /\ trace loading_readonly_world = []
  /\ dirty (result (gnc_sql_commit_edit core_registry dirty_gizmo) loading_readonly_world)
     = true
  /\ trace (world_after (gnc_sql_commit_edit core_registry dirty_gizmo)
              loading_readonly_world)
     = [RollbackTransaction].
Proof. repeat split; reflexivity. Qed.

Lemma begin_transaction_run (w : World) :
  gnc_sql_connection_begin_transaction w
  = (beginTransaction (conn (sql_be (mem w))) (trace w),
     {| mem := mem w; trace := trace w ++ [BeginTransaction] |}).
Proof. reflexivity. Qed.

Lemma rollback_transaction_run (w : World) :
  gnc_sql_connection_rollback_transaction w
  = (rollbackTransaction (conn (sql_be (mem w))) (trace w),
     {| mem := mem w; trace := trace w ++ [RollbackTransaction] |}).
Proof. reflexivity. Qed.

(** C3, amended: for a dirty or to-be-destroyed instance whose type matches
    no bundle of the registry, when the book is not reported read-only, the
    backend is not loading, the type is not "PriceDB" and the transaction
    begins, gnc_sql_commit_edit begins and rolls back that transaction, and
    afterwards the instance and the book both report clean. *)
Theorem commit_edit_unknown_type (registry : OBEVec) (inst : QofInstance) (w : World) :
  let be := sql_be (mem w) in
  let run := gnc_sql_commit_edit registry inst in
  dirty inst = true \/ do_free inst = true ->
  (forall entry, entry ∈ registry -> entry.1 <> e_type inst) ->
  result (qof_book_is_readonly (book be)) w = false ->
  loading be = false ->
  e_type inst <> "PriceDB" ->
  beginTransaction (conn be) (trace w) = true ->
  trace (world_after run w) = trace w ++ [BeginTransaction; RollbackTransaction]
  /\ result run w = qof_instance_mark_clean inst
  /\ dirty (result run w) = false
  /\ qof_book_session_not_saved (mem (world_after run w)) = false.
Proof.
  cbv zeta. intros Hdirty Hno Hro Hloading Hprice Hbegin.
  apply readonly_false_book in Hro as Hbook. destruct Hbook as [Hbook Hwr].
  assert (Hrun : gnc_sql_commit_edit registry inst w
                 = (qof_instance_mark_clean inst,
                    {| mem := set_the_book {| read_only := read_only (the_book (mem w));
                                              session_dirty := false |} (mem w);
                       trace := (trace w ++ [BeginTransaction]) ++ [RollbackTransaction] |})).
  { unfold gnc_sql_commit_edit.
    rewrite (run_bind get_be). cbn [get_be fst snd]. rewrite run_bind.
    unfold result in Hro.
    assert (Hw : (qof_book_is_readonly (book (sql_be (mem w))) w).2 = w) by reflexivity.
    rewrite Hw, Hro, Hloading.
    replace (String.eqb (e_type inst) "PriceDB") with false
      by (symmetry; by apply String.eqb_neq).
    unfold qof_instance_get_dirty_flag, qof_instance_get_destroying.
    replace (negb (dirty inst) && negb (do_free inst)) with false
      by (destruct Hdirty as [-> | ->]; cbn; [reflexivity | by rewrite andb_false_r]).
    rewrite run_bind, begin_transaction_run. cbn [fst snd]. rewrite Hbegin. cbn [negb].
    rewrite run_bind, commit_scan_no_match by exact Hno.
    cbn [fst snd is_known the_inst negb].
    rewrite run_bind, rollback_transaction_run. cbn [fst snd].
    rewrite (run_bind get_be). cbn [get_be fst snd mem sql_be]. rewrite Hbook.
    reflexivity. }
  unfold result, world_after. rewrite Hrun. cbn [fst snd trace mem].
  rewrite <- app_assoc. repeat split; reflexivity.
Qed.

Lemma commit_edit_unknown_type_witness :
  (forall entry, entry ∈ core_registry -> entry.1 <> e_type dirty_gizmo)
  /\ trace (world_after (gnc_sql_commit_edit core_registry dirty_gizmo) writable_world)
     = [BeginTransaction; RollbackTransaction]
  /\ dirty (result (gnc_sql_commit_edit core_registry dirty_gizmo) writable_world) = false
  /\ qof_book_session_not_saved
       (mem (world_after (gnc_sql_commit_edit core_registry dirty_gizmo) writable_world))
     = false.
Proof.
  assert (Hno : forall entry, entry ∈ core_registry -> entry.1 <> e_type dirty_gizmo).
  { apply (proj1 (Forall_forall (fun e : OBEEntry => e.1 <> "Gizmo") core_registry)).
    repeat constructor; discriminate. }
  destruct (commit_edit_unknown_type core_registry dirty_gizmo writable_world
              (or_introl eq_refl) Hno eq_refl eq_refl ltac:(discriminate) eq_refl)
    as (Ht & _ & Hd & Hb).
  split; [exact Hno |]. split; [exact Ht |]. split; [exact Hd | exact Hb].
Defined.

(** C3, as stated, fails on a read-only book: no transaction is begun, and
    the instance and the book both stay dirty. *)
Lemma unknown_type_with_readonly_book_stays_dirty :
  dirty dirty_gizmo = true
  /\ Forall (fun entry : OBEEntry => entry.1 <> e_type dirty_gizmo) core_registry
  /\ dirty (result (gnc_sql_commit_edit core_registry dirty_gizmo) readonly_world) = true
  /\ qof_book_session_not_saved
       (mem (world_after (gnc_sql_commit_edit core_registry dirty_gizmo) readonly_world))
     = true
  /\ trace (world_after (gnc_sql_commit_edit core_registry dirty_gizmo) readonly_world)
     = [RollbackTransaction].
Proof.
  split; [reflexivity |].
  split; [repeat constructor; discriminate |].
  repeat split; reflexivity.
Qed.

(** * Further properties *)

(** ** More on the schema version manager *)

Lemma execute_nonselect_sql_eq (sql : string) (w : World) :
  let be := sql_be (mem w) in
  gnc_sql_execute_nonselect_sql sql w
  = (result (gnc_sql_execute_nonselect_sql sql) w,
     {| mem := if createStatementFromSql (conn be) (trace w) sql then mem w
               else set_sql_be (set_qof_be (qof_backend_set_error (qof_be be)
                                              ERR_BACKEND_SERVER_ERR) be) (mem w);
        trace := trace w ++ statement_calls be (trace w) sql |}).
Proof.
  cbv zeta. destruct (execute_nonselect_sql_run sql w) as [Ht Hm].
  unfold result, world_after in *.
  destruct (gnc_sql_execute_nonselect_sql sql w) as [r [m t]]. cbn [fst snd mem trace] in *.
  by subst.
Qed.

Lemma set_table_version_eq (table_name : string) (version : Z) (w : World) :
  0 < version ->
  let be := sql_be (mem w) in
  let cur_version := gnc_sql_get_table_version be table_name in
  let sql := version_sql cur_version table_name version in
  versions (be_after (gnc_sql_set_table_version table_name version) w)
  = <[table_name := version]> (versions be)
  /\ is_pristine_db (be_after (gnc_sql_set_table_version table_name version) w)
     = is_pristine_db be
  /\ conn (be_after (gnc_sql_set_table_version table_name version) w) = conn be
  /\ trace (world_after (gnc_sql_set_table_version table_name version) w)
     = (if cur_version =? version then trace w
        else trace w ++ statement_calls be (trace w) sql)
  /\ result (gnc_sql_set_table_version table_name version) w = true.
Proof.
  intros Hv. cbv zeta. unfold be_after, world_after, result.
  rewrite set_table_version_run by assumption. cbn [fst snd mem trace sql_be set_sql_be].
  repeat split.
Qed.

(** X1: after gnc_sql_set_table_version with a positive version on a backend
    that is not pristine, gnc_sql_get_table_version returns that version
    for the table, and what it returns for any other table is unchanged. *)
Theorem set_then_get_table_version (table_name other : string) (version : Z) (w : World) :
  0 < version ->
  is_pristine_db (sql_be (mem w)) = false ->
  let be' := be_after (gnc_sql_set_table_version table_name version) w in
  gnc_sql_get_table_version be' table_name = version
  /\ (other <> table_name ->
      gnc_sql_get_table_version be' other
      = gnc_sql_get_table_version (sql_be (mem w)) other).
Proof.
  intros Hv Hp. cbv zeta.
  destruct (set_table_version_eq table_name version w Hv) as (Hvers & Hpr & _).
  unfold gnc_sql_get_table_version. rewrite Hpr, Hp, Hvers. split.
  - by rewrite lookup_insert_eq.
  - intros Hne. by rewrite lookup_insert_ne.
Qed.

(** X2: a second gnc_sql_set_table_version with the same table and positive
    version, right after the first on a backend that is not pristine,
    returns TRUE and changes nothing: no statement is created and the
    backend is left as it was. *)
Theorem set_table_version_twice_is_silent (table_name : string) (version : Z) (w : World) :
  0 < version ->
  is_pristine_db (sql_be (mem w)) = false ->
  let w1 := world_after (gnc_sql_set_table_version table_name version) w in
  gnc_sql_set_table_version table_name version w1 = (true, w1).
Proof.
  intros Hv Hp. cbv zeta.
  destruct (set_table_version_eq table_name version w Hv) as (Hvers & Hpr & _).
  unfold be_after in Hvers, Hpr.
  set (w1 := world_after _ w) in *.
  rewrite set_table_version_run by assumption.
  assert (Hcur : gnc_sql_get_table_version (sql_be (mem w1)) table_name = version).
  { unfold gnc_sql_get_table_version. rewrite Hpr, Hp, Hvers. by rewrite lookup_insert_eq. }
  rewrite Hcur, Z.eqb_refl. f_equal.
  destruct w1 as [[b bk pl] t]. cbn [mem trace sql_be] in *. unfold with_version.
  f_equal. unfold set_sql_be. cbn. f_equal.
  destruct b; cbn in *. f_equal. subst. by rewrite insert_insert_eq.
Qed.

(** X3: the two outcomes of gnc_sql_execute_nonselect_sql.  When the
    connection hands out no statement the result is -1, the creation is the
    only call made and the error slot receives ERR_BACKEND_SERVER_ERR.
    When it hands one out the result is what the execution returns, the
    two calls are made in order and the memory, error slot included, is
    untouched, also when the execution fails. *)
Theorem execute_nonselect_sql_outcomes (sql : string) (w : World) :
  let be := sql_be (mem w) in
  let run := gnc_sql_execute_nonselect_sql sql in
  let stmt := {| stmt_sql := sql; stmt_where := [] |} in
  (createStatementFromSql (conn be) (trace w) sql = false ->
   result run w = -1
   /\ world_after run w
      = {| mem := set_sql_be
                    (set_qof_be (qof_backend_set_error (qof_be be) ERR_BACKEND_SERVER_ERR) be)
                    (mem w);
           trace := trace w ++ [CreateStatementFromSql sql] |})
  /\ (createStatementFromSql (conn be) (trace w) sql = true ->
      result run w
      = executeNonSelectStatement (conn be) (trace w ++ [CreateStatementFromSql sql]) stmt
      /\ world_after run w
         = {| mem := mem w;
              trace := trace w ++ [CreateStatementFromSql sql;
                                   ExecuteNonSelectStatement stmt] |}).
Proof.
  cbv zeta. pose proof (execute_nonselect_sql_eq sql w) as Heq.
  pose proof (execute_nonselect_sql_result sql w) as Hres. cbv zeta in Heq.
  unfold world_after. rewrite Heq. cbn [fst snd]. unfold statement_calls.
  split; intros Hc; rewrite Hc in *; split; try assumption; reflexivity.
Qed.

Lemma execute_nonselect_sql_frame (sql : string) (w : World) :
  let w' := world_after (gnc_sql_execute_nonselect_sql sql) w in
  conn (sql_be (mem w')) = conn (sql_be (mem w))
  /\ versions (sql_be (mem w')) = versions (sql_be (mem w))
  /\ trace w' = trace w ++ statement_calls (sql_be (mem w)) (trace w) sql.
Proof.
  cbv zeta. unfold world_after. rewrite execute_nonselect_sql_eq. cbn [snd mem trace].
  destruct (createStatementFromSql _ _ _); repeat split.
Qed.

Section MoreVersionFacts.
Context {Obj : Type} `{!ObjectLayer Obj} `{!DateLib}.
Variable g_columnTypeHash : gmap string (GncSqlColumnTypeHandler Obj).
Variable more : GncSqlConnectionMore.

Lemma do_create_table_eq (table_name : string)
    (col_table : list (GncSqlColumnTableEntry Obj)) (w : World) :
  do_create_table g_columnTypeHash more table_name col_table w
  = (info_vec ← table_col_info g_columnTypeHash (sql_be (mem w)) col_table;
     Some (createTable more (trace w) table_name info_vec), w).
Proof. reflexivity. Qed.


(** X5: gnc_sql_upgrade_table always issues its three statements in order,
    the copy into the temporary table, the DROP of the old table and the
    rename, whatever the creation of the temporary table or an earlier
    statement answered; in particular the DROP is requested even when the
    copy failed.  The version cache is not touched. *)
Theorem upgrade_table_statements (table_name : string)
    (col_table : list (GncSqlColumnTableEntry Obj)) (info_vec : ColVec) (w : World) :
  table_col_info g_columnTypeHash (sql_be (mem w)) col_table = Some info_vec ->
  let be := sql_be (mem w) in
  let run := gnc_sql_upgrade_table g_columnTypeHash more table_name col_table in
  let temp := table_name +:+ "_new" in
  let copy := "INSERT INTO " +:+ temp +:+ " SELECT * FROM " +:+ table_name in
  let drop := "DROP TABLE " +:+ table_name in
  let rename := "ALTER TABLE " +:+ temp +:+ " RENAME TO " +:+ table_name in
  let t1 := trace w ++ statement_calls be (trace w) copy in
  let t2 := t1 ++ statement_calls be t1 drop in
  result run w = Some tt
  /\ trace (world_after run w) = t2 ++ statement_calls be t2 rename
  /\ CreateStatementFromSql drop ∈ trace (world_after run w)
  /\ versions (be_after run w) = versions be.
Proof.
  intros Hinfo. cbv zeta.
  unfold gnc_sql_upgrade_table, gnc_sql_create_temp_table, result, be_after, world_after.
  rewrite run_bind, do_create_table_eq, Hinfo. cbn [mbind option_bind fst snd].
  rewrite !run_bind. cbn [ret fst snd].
  match goal with |- context [gnc_sql_execute_nonselect_sql ?q w] =>
    destruct (execute_nonselect_sql_frame q w) as (Hc1 & Hv1 & Ht1);
    set (w1 := (gnc_sql_execute_nonselect_sql q w).2) in * end.
  unfold world_after in Hc1, Hv1, Ht1. fold w1 in Hc1, Hv1, Ht1.
  match goal with |- context [gnc_sql_execute_nonselect_sql ?q w1] =>
    destruct (execute_nonselect_sql_frame q w1) as (Hc2 & Hv2 & Ht2);
    set (w2 := (gnc_sql_execute_nonselect_sql q w1).2) in * end.
  unfold world_after in Hc2, Hv2, Ht2. fold w2 in Hc2, Hv2, Ht2.
  match goal with |- context [gnc_sql_execute_nonselect_sql ?q w2] =>
    destruct (execute_nonselect_sql_frame q w2) as (Hc3 & Hv3 & Ht3);
    set (w3 := (gnc_sql_execute_nonselect_sql q w2).2) in * end.
  unfold world_after in Hc3, Hv3, Ht3. fold w3 in Hc3, Hv3, Ht3.
  assert (Htr : trace w3 = (trace w1 ++ statement_calls (sql_be (mem w)) (trace w1)
                                         ("DROP TABLE " +:+ table_name))
                           ++ statement_calls (sql_be (mem w))
                                (trace w1 ++ statement_calls (sql_be (mem w)) (trace w1)
                                               ("DROP TABLE " +:+ table_name))
                                ("ALTER TABLE " +:+ (table_name +:+ "_new") +:+ " RENAME TO "
                                 +:+ table_name)).
  { rewrite Ht3, Ht2. unfold statement_calls. rewrite Hc2, Hc1. reflexivity. }
  split; [reflexivity |]. split; [| split].
  - rewrite Htr, Ht1. reflexivity.
  - rewrite Htr. apply elem_of_app. left. apply elem_of_app. right.
    unfold statement_calls. left.
  - by rewrite Hv3, Hv2, Hv1.
Qed.

(** X6: reset_version_info returns what the connection answered to the
    creation of the version table and, for positive version numbers, leaves
    the cache holding exactly the two markers Gnucash and Gnucash-Resave,
    whatever it held before and also when the table could not be created. *)
Theorem reset_version_info_leaves_two_markers (long_version resave_version : Z)
    (info_vec : ColVec) (w : World) :
  table_col_info g_columnTypeHash (sql_be (mem w)) version_table = Some info_vec ->
  0 < long_version -> 0 < resave_version ->
  let run := reset_version_info g_columnTypeHash more long_version resave_version in
  result run w = Some (createTable more (trace w) VERSION_TABLE_NAME info_vec)
  /\ versions (be_after run w)
     = <["Gnucash-Resave" := resave_version]> {["Gnucash" := long_version]}.
Proof.
  intros Hinfo Hl Hr. cbv zeta. unfold reset_version_info, result, be_after, world_after.
  rewrite run_bind, do_create_table_eq, Hinfo. cbn [mbind option_bind fst snd].
  rewrite !run_bind. unfold ret. cbn [fst snd].
  set (w0 := (modify_be (set_versions ∅) w).2).
  destruct (set_table_version_eq "Gnucash" long_version w0 Hl) as (Hv1 & _).
  unfold be_after, world_after in Hv1.
  set (w1 := (gnc_sql_set_table_version "Gnucash" long_version w0).2) in *.
  destruct (set_table_version_eq "Gnucash-Resave" resave_version w1 Hr) as (Hv2 & _).
  unfold be_after, world_after in Hv2.
  split; [reflexivity |]. rewrite Hv2, Hv1. reflexivity.
Qed.

Lemma insert_version_rows (persisted : list (string * Z)) (v : gmap string Z) :
  foldl (fun acc row => v ← acc; insert_version_row v row) (Some v)
        (map (fun p => version_row p.1 p.2) persisted)
  = Some (foldl (fun (m : gmap string Z) p => <[p.1 := to_gint p.2]> m) v persisted).
Proof.
  revert v. induction persisted as [| [name version] persisted IH]; intros v; [reflexivity |].
  cbn [map foldl fst snd]. rewrite <- IH. reflexivity.
Qed.

Lemma foldl_insert_lookup_absent (persisted : list (string * Z)) (v : gmap string Z)
    (table_name : string) :
  table_name ∉ persisted.*1 ->
  foldl (fun (m : gmap string Z) p => <[p.1 := to_gint p.2]> m) v persisted !! table_name
  = v !! table_name.
Proof.
  revert v. induction persisted as [| [name version] persisted IH]; intros v Hin;
    [reflexivity |].
  cbn [foldl fst snd]. cbn in Hin. apply not_elem_of_cons in Hin as [Hne Hin].
  rewrite IH by assumption. by rewrite lookup_insert_ne.
Qed.

Lemma foldl_insert_lookup_present (persisted : list (string * Z)) (v : gmap string Z)
    (table_name : string) (version : Z) :
  NoDup persisted.*1 ->
  (table_name, version) ∈ persisted ->
  foldl (fun (m : gmap string Z) p => <[p.1 := to_gint p.2]> m) v persisted !! table_name
  = Some (to_gint version).
Proof.
  revert v. induction persisted as [| [name ver] persisted IH]; intros v Hnd Hin.
  - by apply elem_of_nil in Hin.
  - cbn [foldl fst snd]. cbn in Hnd. apply NoDup_cons in Hnd as [Hfresh Hnd].
    apply elem_of_cons in Hin as [[= -> ->] | Hin].
    + rewrite foldl_insert_lookup_absent by assumption. apply lookup_insert_eq.
    + by apply IH.
Qed.

(** X7: gnc_sql_init_version_info on a database that has a version table and
    answers the SELECT with well-formed rows rebuilds the cache from the
    rows alone: a table without a row has no entry, whatever was cached
    before, and when no table name occurs twice every row's table maps to
    the row's version truncated to a gint. *)
Theorem init_version_info_reads_persisted (long_version resave_version : Z)
    (persisted : list (string * Z)) (w : World) :
  let be := sql_be (mem w) in
  let sql := "SELECT * FROM " +:+ VERSION_TABLE_NAME in
  let run := gnc_sql_init_version_info g_columnTypeHash more long_version resave_version in
  doesTableExist more (trace w) VERSION_TABLE_NAME = true ->
  createStatementFromSql (conn be) (trace w) sql = true ->
  executeSelectStatement more (trace w ++ [CreateStatementFromSql sql])
    {| stmt_sql := sql; stmt_where := [] |}
  = Some (map (fun p => version_row p.1 p.2) persisted) ->
  result run w = Some tt
  /\ (forall table_name, table_name ∉ persisted.*1 ->
                         versions (be_after run w) !! table_name = None)
  /\ (NoDup persisted.*1 ->
      forall table_name version, (table_name, version) ∈ persisted ->
        versions (be_after run w) !! table_name = Some (to_gint version)).
Proof.
  cbv zeta. intros Hexists Hcreate Hselect.
  assert (Hrun : gnc_sql_init_version_info g_columnTypeHash more long_version
                   resave_version w
                 = (Some tt,
                    {| mem := set_sql_be
                                (set_versions
                                   (foldl (fun (m : gmap string Z) p =>
                                             <[p.1 := to_gint p.2]> m) ∅ persisted)
                                   (set_versions ∅ (sql_be (mem w))))
                                (set_sql_be (set_versions ∅ (sql_be (mem w))) (mem w));
                       trace := trace w ++ [CreateStatementFromSql
                                              ("SELECT * FROM " +:+ VERSION_TABLE_NAME)]
                    |})).
  { unfold gnc_sql_init_version_info, gnc_sql_execute_select_sql,
      gnc_sql_create_statement_from_sql, gnc_sql_connection_create_statement_from_sql.
    run_m. rewrite Hexists. run_m. cbn [conn set_versions]. rewrite Hcreate. run_m.
    rewrite Hselect. rewrite bool_decide_eq_false_2 by discriminate. run_m.
    cbn [versions set_versions].
    pose proof (insert_version_rows persisted ∅) as Hrows. unfold mbind in Hrows.
    rewrite Hrows. reflexivity. }
  unfold result, be_after, world_after. rewrite Hrun. cbn [fst snd mem sql_be set_sql_be
    set_versions versions].
  split; [reflexivity |]. split.
  - intros table_name Hin. rewrite foldl_insert_lookup_absent by assumption.
    apply lookup_empty.
  - intros Hnd table_name version Hin. by apply foldl_insert_lookup_present.
Qed.

End MoreVersionFacts.

(** ** More on the column handlers *)

Lemma wrap_signed_range (bits z : Z) :
  0 < bits -> - 2 ^ (bits - 1) <= wrap_signed bits z < 2 ^ (bits - 1).
Proof.
  intros Hb. unfold wrap_signed.
  assert (Hpow : 2 ^ bits = 2 * 2 ^ (bits - 1)).
  { replace bits with (Z.succ (bits - 1)) at 1 by lia. apply Z.pow_succ_r. lia. }
  assert (Hpos : 0 < 2 ^ (bits - 1)) by (apply Z.pow_pos_nonneg; lia).
  pose proof (Z.mod_pos_bound (z + 2 ^ (bits - 1)) (2 ^ bits)) as Hm. lia.
Qed.

Lemma wrap_signed_small (bits z : Z) :
  0 < bits -> - 2 ^ (bits - 1) <= z < 2 ^ (bits - 1) -> wrap_signed bits z = z.
Proof.
  intros Hb Hz. unfold wrap_signed.
  assert (Hpow : 2 ^ bits = 2 * 2 ^ (bits - 1)).
  { replace bits with (Z.succ (bits - 1)) at 1 by lia. apply Z.pow_succ_r. lia. }
  rewrite Z.mod_small by lia. lia.
Qed.

Lemma to_gint_range (z : Z) : - 2 ^ 31 <= to_gint z < 2 ^ 31.
Proof. apply (wrap_signed_range 32 z). lia. Qed.

Lemma to_gint_idem (z : Z) : to_gint (to_gint z) = to_gint z.
Proof. apply (wrap_signed_small 32); [lia |]. apply to_gint_range. Qed.

Lemma num_denom_columns_differ (name : string) : name +:+ "_num" <> name +:+ "_denom".
Proof. intros Heq. apply String.app_inj in Heq. discriminate. Qed.

Lemma row_of_pairs_one (name text : string) :
  row_of_pairs [(name, text)] !! name = Some (GString (Some text)).
Proof. unfold row_of_pairs, GncSqlRow. cbn [foldl fst snd]. apply lookup_insert_eq. Qed.

Section MoreMarshallerFacts.
Context {Obj : Type} `{!ObjectLayer Obj} `{!DateLib}.

Local Abbreviation Entry := (GncSqlColumnTableEntry Obj).

Lemma holds_property_row_value (obj_name : string) (pObject : Obj) (table_row : Entry)
    (v : PropValue) :
  holds_property obj_name pObject table_row v ->
  get_row_value_from_object obj_name pObject table_row = v.
Proof.
  unfold holds_property, get_row_value_from_object.
  destruct (gobj_param_name table_row) as [name |].
  - intros ->. reflexivity.
  - intros (g & -> & Hg). exact Hg.
Qed.

(** X8: what add_numeric_to_vec writes for a rational, load_numeric reads
    back.  On the row made of the two serialized pairs the loader stores the
    same rational in the target, through the named property when the
    descriptor has one and else through the setter, provided
    g_ascii_strtoll inverts the printing of the numerator and of the
    denominator. *)
Theorem numeric_round_trip (be : GncSqlBackend) (obj_name : string) (source target : Obj)
    (table_row : Entry) (setter : option (Obj -> PropValue -> Obj)) (n : gnc_numeric) :
  holds_property obj_name source table_row (PNumeric n) ->
  g_ascii_strtoll (Some (pretty (gnc_numeric_num n))) = gnc_numeric_num n ->
  g_ascii_strtoll (Some (pretty (gnc_numeric_denom n))) = gnc_numeric_denom n ->
  exists pairs,
    add_numeric_to_vec be obj_name source table_row [] = Some pairs
    /\ load_numeric be (row_of_pairs pairs) setter target table_row
       = match gobj_param_name table_row with
         | Some name => g_object_set_raised_twice target name (PNumeric n)
         | None => match setter with
                   | Some n_setter => n_setter target (PNumeric n)
                   | None => target
                   end
         end.
Proof.
  intros Hholds Hnum Hdenom.
  exists [(col_name table_row +:+ "_num", pretty (gnc_numeric_num n));
          (col_name table_row +:+ "_denom", pretty (gnc_numeric_denom n))].
  split.
  - unfold add_numeric_to_vec, holds_property in *.
    destruct (gobj_param_name table_row) as [name |].
    + rewrite Hholds. reflexivity.
    + destruct Hholds as (g & -> & ->). reflexivity.
  - unfold load_numeric, gnc_sql_row_get_value_at_col_name, row_of_pairs.
    cbn [foldl fst snd]. unfold GncSqlRow.
    rewrite lookup_insert_ne by (apply not_eq_sym, num_denom_columns_differ).
    rewrite !lookup_insert_eq. cbn [gnc_sql_get_integer_value negb].
    rewrite Hnum, Hdenom. unfold has_accessor.
    destruct (gobj_param_name table_row) as [name |], setter as [f |], n; reflexivity.
Qed.

(** X9: integer columns round trip up to the width of the column.  From the
    pair the int serializer writes, load_int stores the value wrapped to
    32 bits, and load_boolean stores that value as it is through a named
    property but as 0 or 1 through a setter; from the pair the int64
    serializer writes, load_int64 stores the value wrapped to 64 bits. *)
Theorem integer_round_trip (be : GncSqlBackend) (obj_name : string) (source target : Obj)
    (table_row : Entry) (setter : option (Obj -> PropValue -> Obj)) (i : Z) :
  holds_property obj_name source table_row (PInt i) ->
  g_ascii_strtoll (Some (pretty (to_gint i))) = to_gint i ->
  g_ascii_strtoll (Some (pretty (to_gint64 i))) = to_gint64 i ->
  (exists pairs,
      add_value_to_vec_int be obj_name source table_row [] = Some pairs
      /\ load_int be (row_of_pairs pairs) setter target table_row
         = store_bracketed table_row setter target (PInt (to_gint i))
      /\ load_boolean be (row_of_pairs pairs) setter target table_row
         = match gobj_param_name table_row with
           | Some name => g_object_set_bracketed target name (PInt (to_gint i))
           | None => match setter with
                     | Some b_setter =>
                         b_setter target (PInt (if to_gint i =? 0 then 0 else 1))
                     | None => target
                     end
           end)
  /\ (exists pairs,
         add_value_to_vec_int64 be obj_name source table_row [] = Some pairs
         /\ load_int64 be (row_of_pairs pairs) setter target table_row
            = store_bracketed table_row setter target (PInt (to_gint64 i))).
Proof.
  intros Hholds H32 H64. apply holds_property_row_value in Hholds. split.
  - exists [(col_name table_row, pretty (to_gint i))]. split; [| split].
    + unfold add_value_to_vec_int. rewrite Hholds. reflexivity.
    + unfold load_int, gnc_sql_row_get_value_at_col_name, store_bracketed, has_accessor.
      rewrite row_of_pairs_one. cbn [gnc_sql_get_integer_value]. rewrite H32, to_gint_idem.
      destruct (gobj_param_name table_row), setter; reflexivity.
    + unfold load_boolean, gnc_sql_row_get_value_at_col_name, has_accessor.
      rewrite row_of_pairs_one. cbn [gnc_sql_get_integer_value]. rewrite H32, to_gint_idem.
      destruct (gobj_param_name table_row), setter; reflexivity.
  - exists [(col_name table_row, pretty (to_gint64 i))]. split.
    + unfold add_value_to_vec_int64. rewrite Hholds. reflexivity.
    + unfold load_int64, gnc_sql_row_get_value_at_col_name, store_bracketed, has_accessor.
      rewrite row_of_pairs_one. cbn [gnc_sql_get_integer_value]. rewrite H64.
      destruct (gobj_param_name table_row), setter; reflexivity.
Qed.

(** X10: load_timespec and load_date leave the target as it is when the cell
    is present but is neither a 64-bit integer nor a text: a cell of any
    other kind, and a string cell without text. *)
Theorem unrecognised_cell_leaves_date_and_timespec (be : GncSqlBackend) (row : GncSqlRow)
    (setter : option (Obj -> PropValue -> Obj)) (pObject : Obj) (table_row : Entry)
    (val : GValue) :
  gnc_sql_row_get_value_at_col_name row (col_name table_row) = Some val ->
  (forall i, val <> GInt64 i) ->
  (forall s, val <> GString (Some s)) ->
  load_timespec be row setter pObject table_row = pObject
  /\ load_date be row setter pObject table_row = pObject.
Proof.
  intros Hcell Hint Hstr. unfold load_timespec, load_date. rewrite Hcell.
  destruct (negb (has_accessor table_row setter)); [by split |].
  destruct val as [| | | | i | | [s |] |]; try (by split).
  - by destruct (Hint i).
  - by destruct (Hstr s).
Qed.

Section EditLevel.
(** The edit level of an object as the object layer keeps it. *)
Variable level : Obj -> Z.
Hypothesis level_increase :
  forall o, level (qof_instance_increase_editlevel o) = level o + 1.
Hypothesis level_decrease :
  forall o, level (qof_instance_decrease_editlevel o) = level o - 1.
Hypothesis level_set : forall o name v, level (g_object_set o name v) = level o.

Lemma bracketed_level (pObject : Obj) (name : string) (v : PropValue) :
  level (g_object_set_bracketed pObject name v) = level pObject.
Proof.
  unfold g_object_set_bracketed. destruct (QOF_IS_INSTANCE pObject).
  - rewrite level_decrease, level_set, level_increase. lia.
  - apply level_set.
Qed.

Lemma raised_twice_level (pObject : Obj) (name : string) (v : PropValue) :
  QOF_IS_INSTANCE pObject = true ->
  level (g_object_set_raised_twice pObject name v) = level pObject + 2.
Proof.
  intros Hinst. unfold g_object_set_raised_twice. rewrite Hinst.
  rewrite level_increase, level_set, level_increase. lia.
Qed.


End EditLevel.

(** *** The registered handlers *)

Lemma standard_handler_cases (tag : string) (h : GncSqlColumnTypeHandler Obj) :
  standard_col_type_handlers !! tag = Some h ->
  h = string_handler \/ h = int_handler \/ h = boolean_handler \/ h = int64_handler
  \/ h = timespec_handler \/ h = date_handler \/ h = numeric_handler.
Proof.
  unfold standard_col_type_handlers, gnc_sql_register_col_type_handler.
  repeat (rewrite lookup_insert_Some; intros [[_ <-] | [_ Hl]]; [tauto | revert Hl]).
  rewrite lookup_empty. discriminate.
Qed.

Lemma autoinc_setter_is_ignored (h : GncSqlColumnTypeHandler Obj) (tag : string)
    (be : GncSqlBackend) (row : GncSqlRow) (pObject : Obj) (table_row : Entry) :
  standard_col_type_handlers !! tag = Some h ->
  gobj_param_name table_row = None ->
  load_fn h be row (Some set_autoinc_id) pObject table_row = pObject.
Proof.
  intros Hh Hname. apply standard_handler_cases in Hh.
  destruct Hh as [-> | [-> | [-> | [-> | [-> | [-> | ->]]]]]];
    cbn [load_fn string_handler int_handler boolean_handler int64_handler
         timespec_handler date_handler numeric_handler].
  - unfold load_string. rewrite Hname.
    destruct (negb _); [reflexivity |].
    destruct (gnc_sql_row_get_value_at_col_name _ _); reflexivity.
  - unfold load_int. rewrite Hname. destruct (negb _); reflexivity.
  - unfold load_boolean. rewrite Hname. destruct (negb _); reflexivity.
  - unfold load_int64. rewrite Hname. destruct (negb _); reflexivity.
  - unfold load_timespec. rewrite Hname.
    destruct (negb _); [reflexivity |].
    destruct (gnc_sql_row_get_value_at_col_name _ _) as [[| | | | | | [s |] |] |];
      reflexivity.
  - unfold load_date. rewrite Hname.
    destruct (negb _); [reflexivity |].
    destruct (gnc_sql_row_get_value_at_col_name _ _) as [[| | | | | | [s |] |] |];
      try reflexivity.
    destruct (negb _ || negb _ || negb _); reflexivity.
  - unfold load_numeric. rewrite Hname.
    destruct (negb _); [reflexivity |].
    destruct (gnc_sql_row_get_value_at_col_name _ _),
      (gnc_sql_row_get_value_at_col_name _ _); reflexivity.
Qed.

Lemma foldl_option_none {A B : Type} (f : option A -> B -> option A) (l : list B) :
  (forall x, f None x = None) -> foldl f None l = None.
Proof. intros Hf. induction l as [| x l IH]; [reflexivity |]. cbn. by rewrite Hf. Qed.



(** *** What is written and what is described *)

Lemma standard_handler_names (h : GncSqlColumnTypeHandler Obj) (tag : string)
    (be : GncSqlBackend) (obj_name : string) (pObject : Obj) (table_row : Entry)
    (vec vec' : PairVec) (info : ColVec) :
  standard_col_type_handlers !! tag = Some h ->
  add_value_to_vec_fn h be obj_name pObject table_row vec = Some vec' ->
  (forall p, p ∈ vec -> p.1 ∈ map m_name info) ->
  forall p, p ∈ vec' -> p.1 ∈ map m_name (add_col_info_to_list_fn h be table_row info).
Proof.
  intros Hh Hadd Hvec p Hp. apply standard_handler_cases in Hh.
  assert (Hold : forall extra, p ∈ vec -> p.1 ∈ map m_name (info ++ extra)).
  { intros extra Hin. rewrite map_app. apply elem_of_app. left. by apply Hvec. }
  assert (Hnew : forall t s u, p.1 = col_name table_row ->
            p.1 ∈ map m_name (info ++ [column_info_of_entry table_row t s u])).
  { intros t s u ->. rewrite map_app. apply elem_of_app. right. cbn. left. }
  destruct Hh as [-> | [-> | [-> | [-> | [-> | [-> | ->]]]]]];
    cbn [add_value_to_vec_fn add_col_info_to_list_fn string_handler int_handler
         boolean_handler int64_handler timespec_handler date_handler numeric_handler] in *.
  - unfold add_value_to_vec_string, add_string_col_info_to_list in *.
    destruct (get_row_value_from_object _ _ _); simplify_eq; [by apply Hold |].
    apply elem_of_app in Hp as [Hp | Hp]; [by apply Hold |].
    apply list_elem_of_singleton in Hp as ->. by apply Hnew.
  - unfold add_value_to_vec_int, add_int_col_info_to_list in *.
    destruct (get_row_value_from_object _ _ _); simplify_eq;
      (apply elem_of_app in Hp as [Hp | Hp]; [by apply Hold |];
       apply list_elem_of_singleton in Hp as ->; by apply Hnew).
  - unfold add_value_to_vec_int, add_boolean_col_info_to_list in *.
    destruct (get_row_value_from_object _ _ _); simplify_eq;
      (apply elem_of_app in Hp as [Hp | Hp]; [by apply Hold |];
       apply list_elem_of_singleton in Hp as ->; by apply Hnew).
  - unfold add_value_to_vec_int64, add_int64_col_info_to_list in *.
    destruct (get_row_value_from_object _ _ _); simplify_eq;
      (apply elem_of_app in Hp as [Hp | Hp]; [by apply Hold |];
       apply list_elem_of_singleton in Hp as ->; by apply Hnew).
  - unfold add_timespec_to_vec, add_timespec_col_info_to_list in *.
    assert (Hts : forall ts,
              p ∈ (if negb (tv_sec ts =? 0) || negb (tv_nsec ts =? 0)
                   then vec ++ [(col_name table_row,
                                 gnc_sql_convert_timespec_to_string be ts)]
                   else vec) ->
              p.1 ∈ map m_name (info ++ [column_info_of_entry table_row BCT_DATETIME
                                           TIMESPEC_COL_SIZE false])).
    { intros ts Hin. destruct (negb _ || negb _); [| by apply Hold].
      apply elem_of_app in Hin as [Hin | Hin]; [by apply Hold |].
      apply list_elem_of_singleton in Hin as ->. by apply Hnew. }
    destruct (gobj_param_name table_row).
    + destruct (g_object_get _ _) as [[] |]; simplify_eq. by eapply Hts.
    + destruct (gnc_sql_get_getter _ _) as [g |]; simplify_eq; [| by apply Hold].
      destruct (g pObject); simplify_eq. by eapply Hts.
  - unfold add_date_to_vec, add_date_col_info_to_list in *.
    destruct (get_row_value_from_object _ _ _); simplify_eq; [by apply Hold |].
    destruct (g_date_valid _); simplify_eq; [| by apply Hold].
    apply elem_of_app in Hp as [Hp | Hp]; [by apply Hold |].
    apply list_elem_of_singleton in Hp as ->. by apply Hnew.
  - unfold add_numeric_to_vec, add_numeric_col_info_to_list in *.
    assert (Hn : forall n,
              p ∈ (vec ++ [(col_name table_row +:+ "_num", pretty (gnc_numeric_num n))])
                  ++ [(col_name table_row +:+ "_denom", pretty (gnc_numeric_denom n))] ->
              p.1 ∈ map m_name
                (info ++ map (fun subtable_row : Entry =>
                                {| m_name := col_name table_row +:+ "_"
                                             +:+ col_name subtable_row;
                                   m_type := BCT_INT64; m_size := 0; m_unicode := false;
                                   m_autoinc := false;
                                   m_primary_key := has_flag (flags table_row) COL_PKEY;
                                   m_not_null := has_flag (flags table_row) COL_NNUL |})
                             numeric_col_table)).
    { intros n Hin. apply elem_of_app in Hin as [Hin | Hin].
      - apply elem_of_app in Hin as [Hin | Hin]; [by apply Hold |].
        apply list_elem_of_singleton in Hin as ->.
        rewrite map_app. apply elem_of_app. right. cbn. left.
      - apply list_elem_of_singleton in Hin as ->.
        rewrite map_app. apply elem_of_app. right. cbn. right. left. }
    destruct (gobj_param_name table_row).
    + destruct (g_object_get _ _) as [[] |]; simplify_eq. by eapply Hn.
    + destruct (gnc_sql_get_getter _ _) as [g |].
      * destruct (g pObject); simplify_eq. by eapply Hn.
      * injection Hadd as <-. apply (Hn gnc_numeric_zero). exact Hp.
Qed.

Lemma standard_handler_info_grows (h : GncSqlColumnTypeHandler Obj) (tag : string)
    (be : GncSqlBackend) (table_row : Entry) (info : ColVec) :
  standard_col_type_handlers !! tag = Some h ->
  exists extra, add_col_info_to_list_fn h be table_row info = info ++ extra.
Proof.
  intros Hh. apply standard_handler_cases in Hh.
  destruct Hh as [-> | [-> | [-> | [-> | [-> | [-> | ->]]]]]]; eexists; reflexivity.
Qed.


End MoreMarshallerFacts.

(** ** More on the statement builders *)

Lemma comma_before_every_other {A : Type} `{EqDecision A} (g : A -> string) (first : A)
    (rest : list A) (sql : string) :
  first ∉ rest ->
  foldl (fun (sql : string) (x : A) =>
           sql +:+ (if bool_decide (Some x ≠ Some first) then "," else EmptyString) +:+ g x)
        sql rest
  = foldl (fun (sql : string) (x : A) => sql +:+ "," +:+ g x) sql rest.
Proof.
  revert sql. induction rest as [| x rest IH]; intros sql Hnot; [reflexivity |].
  apply not_elem_of_cons in Hnot as [Hne Hnot]. cbn [foldl].
  rewrite bool_decide_eq_true_2 by congruence. by apply IH.
Qed.

(** X15: when the first pair does not occur again in the vector, the SET list
    of an UPDATE and the column and value lists of an INSERT are the
    comma-separated lists of all the pairs. *)
Theorem statement_lists_are_comma_separated (quote : string -> string)
    (first : string * string) (rest : PairVec) :
  first ∉ rest ->
  update_set_list quote (first :: rest)
  = foldl (fun (sql : string) (col_value : string * string) =>
             sql +:+ "," +:+ col_value.1 +:+ "=" +:+ quote col_value.2)
          (first.1 +:+ "=" +:+ quote first.2) rest
  /\ insert_column_list (first :: rest)
     = foldl (fun (sql : string) (col_value : string * string) =>
                sql +:+ "," +:+ col_value.1)
             first.1 rest
  /\ insert_value_list quote (first :: rest)
     = foldl (fun (sql : string) (col_value : string * string) =>
                sql +:+ "," +:+ quote col_value.2)
             (quote first.2) rest.
Proof.
  intros Hnot. unfold update_set_list, insert_column_list, insert_value_list.
  cbn [foldl head]. rewrite !bool_decide_eq_false_2 by (intros Hne; by apply Hne).
  cbn [String.append].
  split; [| split].
  - by apply (comma_before_every_other
                (fun p : string * string => p.1 +:+ "=" +:+ quote p.2) first rest).
  - by apply (comma_before_every_other (fun p : string * string => p.1) first rest).
  - by apply (comma_before_every_other (fun p : string * string => quote p.2) first rest).
Qed.

Section MoreBuilderFacts.
Context {Obj : Type} `{!ObjectLayer Obj} `{!DateLib}.
Variable g_columnTypeHash : gmap string (GncSqlColumnTypeHandler Obj).
Variable more : GncSqlConnectionMore.

Local Abbreviation Entry := (GncSqlColumnTableEntry Obj).

(** X16: gnc_sql_do_db_operation for OP_DB_INSERT.  When the connection hands
    out no statement the result is FALSE, nothing is executed and the error
    slot is not touched; when it hands one out the statement is executed,
    the result is TRUE unless the execution returns -1, and only then the
    error slot receives ERR_BACKEND_SERVER_ERR. *)
Theorem insert_operation_outcomes (table_name obj_name : string) (pObject : Obj)
    (table : list Entry) (values : PairVec) (w : World) :
  let be := sql_be (mem w) in
  let sql := "INSERT INTO " +:+ table_name +:+ "(" +:+ insert_column_list values
             +:+ ") VALUES(" +:+ insert_value_list (quoteString (conn be)) values
             +:+ ")" in
  let stmt := {| stmt_sql := sql; stmt_where := [] |} in
  let run := gnc_sql_do_db_operation g_columnTypeHash OP_DB_INSERT table_name obj_name
               pObject table in
  get_object_values g_columnTypeHash be obj_name pObject table = Some values ->
  (createStatementFromSql (conn be) (trace w) sql = false ->
   run w = (Some false, {| mem := mem w; trace := trace w ++ [CreateStatementFromSql sql] |}))
  /\ (createStatementFromSql (conn be) (trace w) sql = true ->
      let status := executeNonSelectStatement (conn be)
                      (trace w ++ [CreateStatementFromSql sql]) stmt in
      result run w = Some (negb (status =? -1))
      /\ trace (world_after run w)
         = trace w ++ [CreateStatementFromSql sql; ExecuteNonSelectStatement stmt]
      /\ qof_be (be_after run w)
         = (if status =? -1
            then qof_backend_set_error (qof_be be) ERR_BACKEND_SERVER_ERR
            else qof_be be)).
Proof.
  cbv zeta. intros Hvalues. unfold be_after, world_after, result.
  unfold gnc_sql_do_db_operation, build_insert_statement,
    gnc_sql_connection_create_statement_from_sql,
    gnc_sql_connection_execute_nonselect_statement.
  split; intros Hcreate.
  - run_m. rewrite Hvalues. run_m. rewrite Hcreate. destruct (mem w); reflexivity.
  - run_m. rewrite Hvalues. run_m. rewrite Hcreate. run_m.
    destruct (executeNonSelectStatement _ _ _ =? -1); run_m;
      repeat split; rewrite <- ?app_assoc; reflexivity.
Qed.

(** X17: build_delete_statement always asks the connection for the DELETE
    statement and makes no other call.  It has a defined result only if the
    first descriptor's handler writes at least one pair and the connection
    hands out the statement, and then the WHERE condition is that first
    pair alone. *)
Theorem delete_statement_outcomes (table_name obj_name : string) (pObject : Obj)
    (table_0 : Entry) (rest : list Entry) (pHandler : GncSqlColumnTypeHandler Obj)
    (w : World) :
  let be := sql_be (mem w) in
  let sql := "DELETE FROM " +:+ table_name in
  let run := build_delete_statement g_columnTypeHash table_name obj_name pObject
               (table_0 :: rest) in
  let values := add_value_to_vec_fn pHandler be obj_name pObject table_0 [] in
  g_columnTypeHash !! col_type table_0 = Some pHandler ->
  world_after run w = {| mem := mem w; trace := trace w ++ [CreateStatementFromSql sql] |}
  /\ (values = Some [] -> result run w = None)
  /\ (createStatementFromSql (conn be) (trace w) sql = false -> result run w = None)
  /\ (forall values_0 others,
        values = Some (values_0 :: others) ->
        createStatementFromSql (conn be) (trace w) sql = true ->
        result run w = Some {| stmt_sql := sql; stmt_where := [[values_0]] |}).
Proof.
  cbv zeta. intros Hh. unfold be_after, world_after, result.
  unfold build_delete_statement, gnc_sql_connection_create_statement_from_sql, get_handler.
  rewrite Hh. run_m.
  destruct (add_value_to_vec_fn pHandler (sql_be (mem w)) obj_name pObject table_0 [])
    as [[| values_0 others] |];
    destruct (createStatementFromSql _ _ _); run_m;
    (split; [destruct (mem w); reflexivity |]);
    (split; [try discriminate; try reflexivity |]);
    (split; [try discriminate; try reflexivity |]);
    intros v0 o Hv Hc; try discriminate.
  by simplify_eq.
Qed.

End MoreBuilderFacts.

(** ** More on commit and load *)

Lemma world_eta (w : World) : {| mem := mem w; trace := trace w |} = w.
Proof. by destruct w. Qed.

Lemma for_each_with_app {A S : Type} (l1 l2 : list A) (body : A -> S -> M S) (s : S)
    (w : World) :
  for_each_with (l1 ++ l2) body s w
  = for_each_with l2 body (for_each_with l1 body s w).1 (for_each_with l1 body s w).2.
Proof.
  revert s w. induction l1 as [| x l1 IH]; intros s w; [reflexivity |].
  cbn [app for_each_with]. rewrite !run_bind. apply IH.
Qed.

Lemma commit_scan_known (registry : OBEVec) (be_data : sql_backend) (w : World) :
  is_known be_data = true ->
  for_each_with registry commit be_data w = (be_data, w).
Proof.
  intros Hknown. induction registry as [| [type obe] registry IH]; [reflexivity |].
  cbn [for_each_with]. rewrite run_bind.
  assert (Hstep : commit (type, obe) be_data w = (be_data, w)).
  { unfold commit. rewrite Hknown.
    destruct (negb (obe_version obe =? GNC_SQL_BACKEND_VERSION)); [reflexivity |].
    destruct (negb (String.eqb type (e_type (the_inst be_data)))); reflexivity. }
  rewrite Hstep. exact IH.
Qed.

Lemma commit_scan_first_match (before after : OBEVec) (obe : GncSqlObjectBackend)
    (f : Memory -> QofInstance -> bool * Memory * QofInstance) (inst : QofInstance)
    (w : World) :
  (forall entry, entry ∈ before -> entry.1 <> e_type inst) ->
  obe_version obe = GNC_SQL_BACKEND_VERSION ->
  obe_commit obe = Some f ->
  for_each_with (before ++ (e_type inst, obe) :: after) commit
    {| is_known := false; is_ok := true; the_inst := inst |} w
  = ({| is_known := true; is_ok := (f (mem w) inst).1.1; the_inst := (f (mem w) inst).2 |},
     {| mem := (f (mem w) inst).1.2; trace := trace w ++ [Commit (e_type inst)] |}).
Proof.
  intros Hbefore Hversion Hcommit.
  rewrite for_each_with_app.
  rewrite (commit_scan_no_match before) by exact Hbefore.
  cbn [fst snd for_each_with]. rewrite run_bind.
  assert (Hstep : commit (e_type inst, obe)
                    {| is_known := false; is_ok := true; the_inst := inst |} w
                  = ({| is_known := true; is_ok := (f (mem w) inst).1.1;
                        the_inst := (f (mem w) inst).2 |},
                     {| mem := (f (mem w) inst).1.2;
                        trace := trace w ++ [Commit (e_type inst)] |})).
  { unfold commit. cbn [the_inst is_known]. rewrite Hversion, Hcommit, String.eqb_refl.
    cbn [negb Z.eqb GNC_SQL_BACKEND_VERSION Pos.eqb]. unfold call_commit. run_m.
    destruct (f (mem w) inst) as [[ok m] i]. reflexivity. }
  rewrite Hstep. cbn [fst snd]. by apply commit_scan_known.
Qed.

(** X18: when the book is reported read-only, gnc_sql_commit_edit returns the
    instance as it got it, writes ERR_BACKEND_READONLY into the error slot,
    changes nothing else in memory and makes one call, a rollback. *)
Theorem commit_edit_readonly_book (registry : OBEVec) (inst : QofInstance) (w : World) :
  let be := sql_be (mem w) in
  result (qof_book_is_readonly (book be)) w = true ->
  gnc_sql_commit_edit registry inst w
  = (inst,
     {| mem := set_sql_be
                 (set_qof_be (qof_backend_set_error (qof_be be) ERR_BACKEND_READONLY) be)
                 (mem w);
        trace := trace w ++ [RollbackTransaction] |}).
Proof.
  cbv zeta. unfold result. intros Hro. unfold gnc_sql_commit_edit.
  rewrite run_bind. cbn [get_be fst snd]. rewrite run_bind.
  assert (Hw : (qof_book_is_readonly (book (sql_be (mem w))) w).2 = w) by reflexivity.
  rewrite Hro, Hw. unfold gnc_sql_connection_rollback_transaction. run_m. reflexivity.
Qed.

(** X19: gnc_sql_commit_edit on a writable book while not loading.  A PriceDB
    instance is marked clean and the book saved without any call to the
    connection; an instance that is neither dirty nor being destroyed is
    returned with the world untouched; and when the transaction cannot be
    begun the instance is returned as it is, the attempt being the only
    call. *)
Theorem commit_edit_without_transaction (registry : OBEVec) (inst : QofInstance)
    (w : World) :
  let be := sql_be (mem w) in
  result (qof_book_is_readonly (book be)) w = false ->
  loading be = false ->
  (e_type inst = "PriceDB" ->
   result (gnc_sql_commit_edit registry inst) w = qof_instance_mark_clean inst
   /\ trace (world_after (gnc_sql_commit_edit registry inst) w) = trace w
   /\ be_after (gnc_sql_commit_edit registry inst) w = be
   /\ qof_book_session_not_saved (mem (world_after (gnc_sql_commit_edit registry inst) w))
      = false)
  /\ (e_type inst <> "PriceDB" ->
      qof_instance_get_dirty_flag inst = false ->
      qof_instance_get_destroying inst = false ->
      gnc_sql_commit_edit registry inst w = (inst, w))
  /\ (e_type inst <> "PriceDB" ->
      qof_instance_get_dirty_flag inst = true \/ qof_instance_get_destroying inst = true ->
      beginTransaction (conn be) (trace w) = false ->
      gnc_sql_commit_edit registry inst w
      = (inst, {| mem := mem w; trace := trace w ++ [BeginTransaction] |})).
Proof.
  cbv zeta. intros Hro Hload.
  destruct (readonly_false_book w Hro) as [Hbook Hwritable].
  unfold result in Hro.
  assert (Hw : (qof_book_is_readonly (book (sql_be (mem w))) w).2 = w) by reflexivity.
  assert (Hhead : forall k : bool -> M QofInstance,
            (be ← get_be; readonly ← qof_book_is_readonly (book be); k readonly) w
            = k false w).
  { intros k. rewrite run_bind. cbn [get_be fst snd]. rewrite run_bind, Hro, Hw.
    reflexivity. }
  split; [| split].
  - intros Htype. unfold be_after, result, world_after, gnc_sql_commit_edit.
    rewrite run_bind. cbn [get_be fst snd]. rewrite run_bind, Hro, Hw, Hload, Htype.
    cbn [String.eqb Ascii.eqb Bool.eqb]. rewrite Hbook.
    unfold qof_book_mark_session_saved, qof_book_session_not_saved. run_m.
    repeat split.
  - intros Htype Hdirty Hdestroy. unfold gnc_sql_commit_edit.
    rewrite run_bind. cbn [get_be fst snd]. rewrite run_bind, Hro, Hw, Hload.
    apply String.eqb_neq in Htype. rewrite Htype, Hdirty, Hdestroy. reflexivity.
  - intros Htype Hdirty Hbegin. unfold gnc_sql_commit_edit.
    rewrite run_bind. cbn [get_be fst snd]. rewrite run_bind, Hro, Hw, Hload.
    apply String.eqb_neq in Htype. rewrite Htype.
    replace (negb (qof_instance_get_dirty_flag inst)
             && negb (qof_instance_get_destroying inst)) with false
      by (destruct Hdirty as [-> | ->]; [reflexivity | by rewrite andb_false_r]).
    rewrite run_bind, begin_transaction_run. cbn [fst snd]. rewrite Hbegin. reflexivity.
Qed.

(** X20: gnc_sql_commit_edit on a dirty or to-be-destroyed instance: the
    first bundle registered under the instance's type, with a matching
    version tag and a commit callback, decides, and no later bundle is
    called.  When the callback reports success the transaction is committed,
    the instance the callback left is returned marked clean and the book is
    marked saved; when it reports failure the transaction is rolled back and
    the instance and the memory are as the callback left them. *)
Theorem commit_edit_first_matching_bundle (before after : OBEVec)
    (obe : GncSqlObjectBackend) (f : Memory -> QofInstance -> bool * Memory * QofInstance)
    (inst : QofInstance) (w : World) :
  let be := sql_be (mem w) in
  let registry := before ++ (e_type inst, obe) :: after in
  let run := gnc_sql_commit_edit registry inst in
  let ok := (f (mem w) inst).1.1 in
  let m' := (f (mem w) inst).1.2 in
  let inst' := (f (mem w) inst).2 in
  result (qof_book_is_readonly (book be)) w = false ->
  loading be = false ->
  e_type inst <> "PriceDB" ->
  qof_instance_get_dirty_flag inst = true \/ qof_instance_get_destroying inst = true ->
  beginTransaction (conn be) (trace w) = true ->
  (forall entry, entry ∈ before -> entry.1 <> e_type inst) ->
  obe_version obe = GNC_SQL_BACKEND_VERSION ->
  obe_commit obe = Some f ->
  (ok = true ->
   result run w = qof_instance_mark_clean inst'
   /\ trace (world_after run w)
      = trace w ++ [BeginTransaction; Commit (e_type inst); CommitTransaction]
   /\ be_after run w = sql_be m'
   /\ (book (sql_be m') = TheBook ->
       qof_book_session_not_saved (mem (world_after run w)) = false))
  /\ (ok = false ->
      run w = (inst',
               {| mem := m';
                  trace := trace w ++ [BeginTransaction; Commit (e_type inst);
                                       RollbackTransaction] |})).
Proof.
  cbv zeta. intros Hro Hload Htype Hdirty Hbegin Hbefore Hversion Hcommit.
  unfold result in Hro.
  assert (Hw : (qof_book_is_readonly (book (sql_be (mem w))) w).2 = w) by reflexivity.
  assert (Hrun : gnc_sql_commit_edit (before ++ (e_type inst, obe) :: after) inst w
    = (if (f (mem w) inst).1.1
       then (gnc_sql_connection_commit_transaction;;
             be ← get_be;
             qof_book_mark_session_saved (book be);;
             ret (qof_instance_mark_clean (f (mem w) inst).2))
       else (gnc_sql_connection_rollback_transaction;; ret (f (mem w) inst).2))
        {| mem := (f (mem w) inst).1.2;
           trace := (trace w ++ [BeginTransaction]) ++ [Commit (e_type inst)] |}).
  { unfold gnc_sql_commit_edit.
    rewrite run_bind. cbn [get_be fst snd]. rewrite run_bind, Hro, Hw, Hload.
    apply String.eqb_neq in Htype. rewrite Htype.
    replace (negb (qof_instance_get_dirty_flag inst)
             && negb (qof_instance_get_destroying inst)) with false
      by (destruct Hdirty as [-> | ->]; [reflexivity | by rewrite andb_false_r]).
    rewrite run_bind, begin_transaction_run. cbn [fst snd]. rewrite Hbegin. cbn [negb].
    rewrite run_bind.
    rewrite (commit_scan_first_match before after obe f inst
               {| mem := mem w; trace := trace w ++ [BeginTransaction] |})
      by assumption.
    cbn [fst snd is_known is_ok the_inst mem trace negb].
    destruct ((f (mem w) inst).1.1); reflexivity. }
  split; intros Hok.
  - unfold be_after, result, world_after. rewrite Hrun, Hok.
    unfold gnc_sql_connection_commit_transaction, qof_book_mark_session_saved,
      qof_book_session_not_saved.
    run_m. rewrite <- !app_assoc. cbn [app].
    destruct (book (sql_be (f (mem w) inst).1.2)) eqn:Hbook; run_m;
      repeat split; try discriminate; try (by destruct ((f (mem w) inst).1.2)).
  - rewrite Hrun, Hok. unfold gnc_sql_connection_rollback_transaction. run_m.
    rewrite <- !app_assoc. cbn [app]. by destruct ((f (mem w) inst).1.2).
Qed.

Lemma for_each_emit {A : Type} (l : list A) (call : A -> Call) (w : World) :
  for_each l (fun x => emit (call x)) w
  = (tt, {| mem := mem w; trace := trace w ++ map call l |}).
Proof.
  revert w. induction l as [| x l IH]; intros w.
  - cbn. by rewrite app_nil_r, world_eta.
  - cbn [for_each map]. rewrite run_bind. cbn [emit fst snd]. rewrite IH.
    cbn [mem trace]. by rewrite <- app_assoc.
Qed.

Lemma load_epilogue_run (w : World) :
  (modify_be (set_loading false);;
   commit_post_load_commodities;;
   qof_book_mark_session_saved TheBook;;
   finish_progress;;
   ret (Some tt)) w
  = (Some tt,
     {| mem := set_the_book
                 {| read_only := read_only (the_book (mem w)); session_dirty := false |}
                 (set_post_load_commodities []
                    (set_sql_be (set_loading false (sql_be (mem w))) (mem w)));
        trace := trace w ++ map CommitCommodity (post_load_commodities (mem w))
                 ++ (if percentage (qof_be (sql_be (mem w))) then [Percentage (-1)] else [])
     |}).
Proof.
  rewrite run_bind. cbn [modify_be modify_mem fst snd].
  rewrite run_bind. unfold commit_post_load_commodities.
  rewrite !run_bind, !for_each_emit.
  unfold qof_book_mark_session_saved, finish_progress. run_m.
  cbn [post_load_commodities set_sql_be set_post_load_commodities set_the_book the_book
       sql_be qof_be set_loading percentage].
  destruct (percentage (qof_be (sql_be (mem w)))); run_m.
  - by rewrite <- app_assoc.
  - by rewrite app_nil_r.
Qed.

Lemma load_epilogue_after (body : M (option unit)) (w : World) :
  let run := modify_be (set_loading true);;
             done_ ← body;
             match done_ with
             | None => ret None
             | Some _ =>
                 modify_be (set_loading false);;
                 commit_post_load_commodities;;
                 qof_book_mark_session_saved TheBook;;
                 finish_progress;;
                 ret (Some tt)
             end in
  (run w).1 = Some tt ->
  loading (sql_be (mem (run w).2)) = false
  /\ post_load_commodities (mem (run w).2) = []
  /\ qof_book_session_not_saved (mem (run w).2) = false.
Proof.
  cbv zeta. rewrite run_bind. cbn [modify_be modify_mem fst snd]. rewrite run_bind.
  destruct (body _) as [[u |] w1]; cbn [fst snd].
  - intros _. rewrite load_epilogue_run. cbn [snd mem]. repeat split.
  - discriminate.
Qed.

(** X21: whenever gnc_sql_load returns, the loading flag is off, the list of
    commodities queued for the post-load commit is empty and the book
    reports saved, whatever the initial_load callbacks did to the memory. *)
Theorem load_leaves_a_saved_book (registry : OBEVec) (other_load_order : StrVec)
    (loadType : QofBackendLoadType) (w : World) :
  let run := gnc_sql_load registry other_load_order loadType in
  result run w = Some tt ->
  loading (be_after run w) = false
  /\ post_load_commodities (mem (world_after run w)) = []
  /\ qof_book_session_not_saved (mem (world_after run w)) = false.
Proof.
  cbv zeta. unfold be_after, result, world_after, gnc_sql_load.
  apply load_epilogue_after.
Qed.

(** X22: gnc_sql_load with LOAD_TYPE_LOAD_ALL always returns.  It calls no
    initial_load callback and does not attach a book: it loads all
    transactions, commits the queued commodities in order, reports the end
    of progress when a percentage callback is set, and leaves the loading
    flag off and the book saved. *)
Theorem load_all_skips_the_initial_loads (registry : OBEVec) (other_load_order : StrVec)
    (w : World) :
  let be := sql_be (mem w) in
  gnc_sql_load registry other_load_order LOAD_TYPE_LOAD_ALL w
  = (Some tt,
     {| mem := set_the_book
                 {| read_only := read_only (the_book (mem w)); session_dirty := false |}
                 (set_post_load_commodities []
                    (set_sql_be (set_loading false be) (mem w)));
        trace := trace w ++ [TransactionLoadAllTx]
                 ++ map CommitCommodity (post_load_commodities (mem w))
                 ++ (if percentage (qof_be be) then [Percentage (-1)] else []) |}).
Proof.
  cbv zeta. unfold gnc_sql_load.
  rewrite run_bind. cbn [modify_be modify_mem fst snd]. rewrite run_bind.
  rewrite (run_bind (emit TransactionLoadAllTx)). cbn [emit ret fst snd].
  rewrite load_epilogue_run. cbn [mem trace]. rewrite <- app_assoc.
  destruct w as [[b bk pl] t]. destruct b. reflexivity.
Qed.

(** ** The GUID list of a query *)

Section GuidListFacts.
Context {Inst : Type}.
Variable guid_to_string : Inst -> string.

Lemma append_guid_list_loop_count (sql : string) (list : list Inst)
    (maxCount count : nat) (first_guid : bool) :
  (count <= maxCount)%nat ->
  (append_guid_list_loop guid_to_string sql list maxCount count first_guid).2
  = Nat.min (count + length list) maxCount.
Proof.
  revert sql count first_guid.
  induction list as [| inst next IH]; intros sql count first_guid Hle;
    cbn [append_guid_list_loop length].
  - cbn [snd]. lia.
  - destruct (Nat.ltb_spec count maxCount) as [Hlt | Hge].
    + cbv zeta. rewrite IH by lia. lia.
    + cbn [snd]. lia.
Qed.

Lemma append_guid_list_loop_full (sql : string) (list : list Inst)
    (maxCount : nat) (first_guid : bool) :
  append_guid_list_loop guid_to_string sql list maxCount maxCount first_guid
  = (sql, maxCount).
Proof.
  destruct list; cbn [append_guid_list_loop]; [reflexivity |]. by rewrite Nat.ltb_irrefl.
Qed.

(** X23: gnc_sql_append_guid_list_to_sql returns the smaller of the list's
    length and maxCount, and leaves the text as it was when it returns 0. *)
Theorem append_guid_list_count (sql : string) (list : list Inst) (maxCount : nat) :
  let out := gnc_sql_append_guid_list_to_sql guid_to_string sql list maxCount in
  out.2 = Nat.min (length list) maxCount
  /\ (out.2 = 0%nat -> out.1 = sql).
Proof.
  cbv zeta. unfold gnc_sql_append_guid_list_to_sql. destruct list as [| inst next].
  - cbn. split; [lia | reflexivity].
  - split.
    + rewrite append_guid_list_loop_count by lia. reflexivity.
    + rewrite append_guid_list_loop_count by lia. cbn [length]. intros Hzero.
      assert (maxCount = 0%nat) as -> by lia.
      by rewrite append_guid_list_loop_full.
Qed.

End GuidListFacts.

(** ** The further properties on the examples *)

Local Abbreviation bag_handlers :=
  (standard_col_type_handlers (Obj := PropertyBag)).

Lemma set_then_get_table_version_witness :
  gnc_sql_get_table_version
    (be_after (gnc_sql_set_table_version "bar" 3) steady_world) "bar" = 3
  /\ gnc_sql_get_table_version
       (be_after (gnc_sql_set_table_version "bar" 3) steady_world) "foo" = 2.
Proof.
  destruct (set_then_get_table_version "bar" "foo" 3 steady_world ltac:(lia) eq_refl)
    as [Hset Hother].
  split; [exact Hset |]. rewrite Hother; [reflexivity | discriminate].
Defined.

Lemma set_table_version_twice_is_silent_witness :
  trace (world_after (gnc_sql_set_table_version "bar" 3)
           (world_after (gnc_sql_set_table_version "bar" 3) steady_world))
  = trace (world_after (gnc_sql_set_table_version "bar" 3) steady_world).
Proof.
  unfold world_after at 1.
  rewrite (set_table_version_twice_is_silent "bar" 3 steady_world ltac:(lia) eq_refl).
  reflexivity.
Defined.


Lemma upgrade_table_statements_witness :
  trace (world_after (gnc_sql_upgrade_table bag_handlers versioned_more "recurrences"
                        recurrence_like_table) steady_world)
  = [CreateStatementFromSql "INSERT INTO recurrences_new SELECT * FROM recurrences";
     ExecuteNonSelectStatement
       {| stmt_sql := "INSERT INTO recurrences_new SELECT * FROM recurrences";
          stmt_where := [] |};
     CreateStatementFromSql "DROP TABLE recurrences";
     ExecuteNonSelectStatement {| stmt_sql := "DROP TABLE recurrences"; stmt_where := [] |};
     CreateStatementFromSql "ALTER TABLE recurrences_new RENAME TO recurrences";
     ExecuteNonSelectStatement
       {| stmt_sql := "ALTER TABLE recurrences_new RENAME TO recurrences";
          stmt_where := [] |}].
Proof.
  destruct (upgrade_table_statements bag_handlers versioned_more "recurrences"
              recurrence_like_table _ steady_world eq_refl) as (_ & Htrace & _).
  rewrite Htrace. reflexivity.
Defined.

Lemma reset_version_info_leaves_two_markers_witness :
  versions (be_after (reset_version_info bag_handlers versioned_more 2060400 19920)
              steady_world)
  = <["Gnucash-Resave" := 19920]> {["Gnucash" := 2060400]}.
Proof.
  destruct (reset_version_info_leaves_two_markers bag_handlers versioned_more 2060400 19920
              _ steady_world eq_refl ltac:(lia) ltac:(lia)) as [_ Hver].
  exact Hver.
Defined.

Lemma init_version_info_reads_persisted_witness :
  versions (be_after (gnc_sql_init_version_info bag_handlers versioned_more 2060400 19920)
              steady_world) !! "books" = Some 1
  /\ versions (be_after (gnc_sql_init_version_info bag_handlers versioned_more 2060400 19920)
                 steady_world) !! "foo" = None.
Proof.
  destruct (init_version_info_reads_persisted bag_handlers versioned_more 2060400 19920
              stored_versions steady_world eq_refl eq_refl eq_refl)
    as (_ & Habsent & Hpresent).
  split.
  - apply (Hpresent ltac:(compute_done) "books" 1). compute_done.
  - apply Habsent. compute_done.
Defined.

Lemma numeric_round_trip_witness :
  exists pairs,
    add_numeric_to_vec (sql_be (mem steady_world)) "Split" bag_7_100 amount_column []
    = Some pairs
    /\ load_numeric (sql_be (mem steady_world)) (row_of_pairs pairs)
         (Some (bag_setter "amount")) empty_bag amount_column
       = bag_set empty_bag "amount" (PNumeric (gnc_numeric_create 7 100)).
Proof.
  apply (numeric_round_trip (sql_be (mem steady_world)) "Split" bag_7_100 empty_bag
           amount_column (Some (bag_setter "amount")) (gnc_numeric_create 7 100)).
  - exists (bag_getter "amount"). split; reflexivity.
  - reflexivity.
  - reflexivity.
Defined.

Lemma integer_round_trip_witness :
  exists pairs,
    add_value_to_vec_int (sql_be (mem steady_world)) "Recurrence" wide_recurrence
      recurrence_mult_column [] = Some pairs
    /\ load_int (sql_be (mem steady_world)) (row_of_pairs pairs)
         (Some (bag_setter "recurrence_mult")) empty_bag recurrence_mult_column
       = bag_set empty_bag "recurrence_mult" (PInt 2).
Proof.
  destruct (integer_round_trip (sql_be (mem steady_world)) "Recurrence" wide_recurrence
              empty_bag recurrence_mult_column (Some (bag_setter "recurrence_mult"))
              4294967298) as [(pairs & Hser & Hload & _) _].
  - exists (bag_getter "recurrence_mult"). split; reflexivity.
  - reflexivity.
  - reflexivity.
  - exists pairs. split; [exact Hser | exact Hload].
Defined.


Lemma unrecognised_cell_leaves_date_and_timespec_witness :
  load_timespec (sql_be (mem steady_world)) int_cell_row (Some (bag_setter "post_date"))
    bag_posted post_date_column = bag_posted.
Proof.
  destruct (unrecognised_cell_leaves_date_and_timespec (sql_be (mem steady_world))
              int_cell_row (Some (bag_setter "post_date")) bag_posted post_date_column
              (GInt 5) eq_refl ltac:(discriminate) ltac:(discriminate)) as [Hts _].
  exact Hts.
Defined.



Lemma insert_operation_outcomes_witness :
  result (gnc_sql_do_db_operation bag_handlers OP_DB_INSERT "recurrences" "Recurrence"
            monthly_recurrence recurrence_like_table) writable_world = Some true
  /\ result (gnc_sql_do_db_operation bag_handlers OP_DB_INSERT "recurrences" "Recurrence"
               monthly_recurrence recurrence_like_table) refused_world = Some false
  /\ trace (world_after (gnc_sql_do_db_operation bag_handlers OP_DB_INSERT "recurrences"
                           "Recurrence" monthly_recurrence recurrence_like_table)
              writable_world)
     = [CreateStatementFromSql
          "INSERT INTO recurrences(recurrence_mult,recurrence_period_type) VALUES('2','month')";
        ExecuteNonSelectStatement
          {| stmt_sql :=
               "INSERT INTO recurrences(recurrence_mult,recurrence_period_type) VALUES('2','month')";
             stmt_where := [] |}].
Proof.
  destruct (insert_operation_outcomes bag_handlers "recurrences" "Recurrence"
              monthly_recurrence recurrence_like_table _ writable_world eq_refl)
    as [_ Hcreated].
  destruct (Hcreated eq_refl) as (Hres & Htrace & _).
  destruct (insert_operation_outcomes bag_handlers "recurrences" "Recurrence"
              monthly_recurrence recurrence_like_table _ refused_world eq_refl)
    as [_ Hrefused].
  destruct (Hrefused eq_refl) as (Hres' & _).
  split; [exact Hres |]. split; [exact Hres' | exact Htrace].
Defined.

Lemma statement_lists_are_comma_separated_witness :
  update_set_list quote_single [("guid", "a1"); ("name", "Cash")] = "guid='a1',name='Cash'"
  /\ insert_column_list [("guid", "a1"); ("name", "Cash")] = "guid,name"
  /\ insert_value_list quote_single [("guid", "a1"); ("name", "Cash")] = "'a1','Cash'".
Proof.
  exact (statement_lists_are_comma_separated quote_single ("guid", "a1") [("name", "Cash")]
           ltac:(compute_done)).
Defined.

Lemma delete_statement_outcomes_witness :
  result (build_delete_statement bag_handlers "recurrences" "Recurrence" empty_bag
            [recurrence_period_type_column]) writable_world = None
  /\ result (build_delete_statement bag_handlers "recurrences" "Recurrence"
               monthly_recurrence [recurrence_period_type_column]) writable_world
     = Some {| stmt_sql := "DELETE FROM recurrences";
               stmt_where := [[("recurrence_period_type", "month")]] |}.
Proof.
  destruct (delete_statement_outcomes bag_handlers "recurrences" "Recurrence" empty_bag
              recurrence_period_type_column [] string_handler writable_world eq_refl)
    as (_ & Hnull & _).
  destruct (delete_statement_outcomes bag_handlers "recurrences" "Recurrence"
              monthly_recurrence recurrence_period_type_column [] string_handler
              writable_world eq_refl) as (_ & _ & _ & Hkey).
  split; [apply Hnull; reflexivity |].
  apply (Hkey ("recurrence_period_type", "month") []); reflexivity.
Defined.

Lemma commit_edit_readonly_book_witness :
  result (gnc_sql_commit_edit core_registry dirty_account) readonly_world = dirty_account
  /\ trace (world_after (gnc_sql_commit_edit core_registry dirty_account) readonly_world)
     = [RollbackTransaction].
Proof.
  unfold result, world_after.
  rewrite (commit_edit_readonly_book core_registry dirty_account readonly_world eq_refl).
  split; reflexivity.
Defined.

Lemma commit_edit_without_transaction_witness :
  result (gnc_sql_commit_edit core_registry dirty_pricedb) writable_world
  = qof_instance_mark_clean dirty_pricedb
  /\ trace (world_after (gnc_sql_commit_edit core_registry dirty_pricedb) writable_world) = []
  /\ gnc_sql_commit_edit core_registry clean_account writable_world
     = (clean_account, writable_world).
Proof.
  destruct (commit_edit_without_transaction core_registry dirty_pricedb writable_world
              eq_refl eq_refl) as (Hprice & _ & _).
  destruct (Hprice eq_refl) as (Hres & Htrace & _).
  destruct (commit_edit_without_transaction core_registry clean_account writable_world
              eq_refl eq_refl) as (_ & Hclean & _).
  split; [exact Hres |]. split; [exact Htrace |].
  apply Hclean; [discriminate | reflexivity | reflexivity].
Defined.

Lemma commit_edit_first_matching_bundle_witness :
  result (gnc_sql_commit_edit core_registry dirty_account) writable_world
  = qof_instance_mark_clean dirty_account
  /\ trace (world_after (gnc_sql_commit_edit core_registry dirty_account) writable_world)
     = [BeginTransaction; Commit GNC_ID_ACCOUNT; CommitTransaction].
Proof.
  assert (Hbefore : forall entry : OBEEntry,
            entry ∈ [(GNC_ID_BOOK, plain_bundle GNC_ID_BOOK);
                     (GNC_ID_COMMODITY, plain_bundle GNC_ID_COMMODITY)] ->
            entry.1 <> e_type dirty_account).
  { intros entry Hin.
    apply elem_of_cons in Hin as [-> | Hin]; [discriminate |].
    apply list_elem_of_singleton in Hin as ->. discriminate. }
  destruct (commit_edit_first_matching_bundle
              [(GNC_ID_BOOK, plain_bundle GNC_ID_BOOK);
               (GNC_ID_COMMODITY, plain_bundle GNC_ID_COMMODITY)]
              [("Trans", plain_bundle "Trans"); ("Lot", plain_bundle "Lot")]
              (plain_bundle GNC_ID_ACCOUNT) (fun m i => (true, m, i))
              dirty_account writable_world eq_refl eq_refl ltac:(discriminate)
              (or_introl eq_refl) eq_refl Hbefore eq_refl eq_refl) as [Hok _].
  destruct (Hok eq_refl) as (Hres & Htrace & _).
  split; [exact Hres | exact Htrace].
Defined.

Lemma load_leaves_a_saved_book_witness :
  loading (be_after (gnc_sql_load core_registry [] LOAD_TYPE_INITIAL_LOAD) fresh_world)
  = false
  /\ qof_book_session_not_saved
       (mem (world_after (gnc_sql_load core_registry [] LOAD_TYPE_INITIAL_LOAD) fresh_world))
     = false.
Proof.
  destruct (load_leaves_a_saved_book core_registry [] LOAD_TYPE_INITIAL_LOAD fresh_world
              eq_refl) as (Hloading & _ & Hsaved).
  split; [exact Hloading | exact Hsaved].
Defined.
